(** * gasadd (ga): queueing messages to agent windows of a terminal multiplexer

    A shallow embedding of [runAdd] (cmd/root.go, the revision that carries
    the [--force] flag and the pending-input check) and of [main] (main.go).

    The package [internal/tmux] is not part of the embedded sources: its
    functions are the collaborators of [runAdd] and are taken as an interface
    ([tmux.Interface]) over an abstract world.  Every collaborator call, every
    [time.Sleep] and every line written to stdout or stderr is recorded in a
    trace of events, so that statements such as "no send is attempted" are
    statements about that trace. *)

From Stdlib Require Import ZArith List Ascii String Bool Lia DecimalString.
From Stdlib Require DecimalPos DecimalZ.
Import ListNotations.
Local Open Scope string_scope.
Local Open Scope Z_scope.
Local Open Scope list_scope.

(** ** Go values *)

(** Arguments of a [fmt] verb, and Go [error] values.  An error is either
    one produced by a collaborator, or one built by [fmt.Errorf]; the text of
    a format is kept as it is written in the source. *)
Inductive Arg : Type :=
| AInt (z : Z)
| AStr (s : string)
| AErr (e : error)
with error : Type :=
| ExternalError (msg : string)
| Errorf (format : string) (a : list Arg).

(** [int] is a 64-bit signed integer: arithmetic wraps around. *)
Definition wrap64 (z : Z) : Z := (z + 2 ^ 63) mod 2 ^ 64 - 2 ^ 63.
Definition add64 (x y : Z) : Z := wrap64 (x + y).
Definition incr (x : Z) : Z := add64 x 1.
Definition MaxInt : Z := 2 ^ 63 - 1.

(** [fmt.Sprintf("%d", z)]: the decimal numeral, with a leading minus sign for
    negative numbers. *)
Definition itoa (z : Z) : string := NilZero.string_of_int (Z.to_int z).

(** [time.Duration] counts nanoseconds. *)
Definition Second : Z := 1000000000.

(** ** The collaborator package [internal/tmux] *)

Module tmux.

Record Window : Type := mkWindow {
  Index : Z;
  Name : string;
  Command : string
}.

(** The functions [runAdd] calls, with the result shapes visible at the
    call sites.  A call may change the world (time passes between two
    calls), so each one returns the world after it. *)
Record Interface (World : Type) : Type := {
  IsInsideTmux : World -> bool * World;
  GetCurrentContext : World -> (string * Z * string * option error) * World;
  SessionExists : string -> World -> bool * World;
  ListWindows : string -> World -> (list Window * option error) * World;
  MatchPattern : string -> string -> bool;
  IsClaudeRunning : Window -> World -> bool * World;
  HasPendingInput : string -> World -> (bool * option error) * World;
  AddMessage : string -> string -> World -> option error * World;
  (** [time.Sleep], kept with the collaborators: it only lets the world move on. *)
  Sleep : Z -> World -> World
}.

Arguments IsInsideTmux {World}.
Arguments GetCurrentContext {World}.
Arguments SessionExists {World}.
Arguments ListWindows {World}.
Arguments MatchPattern {World}.
Arguments IsClaudeRunning {World}.
Arguments HasPendingInput {World}.
Arguments AddMessage {World}.
Arguments Sleep {World}.

End tmux.

Import tmux.

(** ** Observable events *)

Inductive Stream : Type := Stdout | Stderr.

Inductive Event : Type :=
| EIsInsideTmux (r : bool)
| EGetCurrentContext (r : string * Z * string * option error)
| ESessionExists (session : string) (r : bool)
| EListWindows (session : string) (r : list Window * option error)
| EIsClaudeRunning (w : Window) (r : bool)
| EHasPendingInput (target : string) (r : bool * option error)
| ESleep (d : Z)
| EAddMessage (target message : string) (r : option error)
| EPrintf (out : Stream) (format : string) (a : list Arg)
| EPrintln (out : Stream) (a : list Arg).

Definition isSend (e : Event) : bool :=
  match e with EAddMessage _ _ _ => true | _ => false end.
Definition isProbe (e : Event) : bool :=
  match e with EHasPendingInput _ _ => true | _ => false end.
Definition isSleep (e : Event) : bool :=
  match e with ESleep _ => true | _ => false end.
Definition isFailedSend (e : Event) : bool :=
  match e with EAddMessage _ _ (Some _) => true | _ => false end.

(** The command-line flags (package-level variables of [cmd]). *)
Record Flags : Type := mkFlags {
  windowFlags : list string;
  sessionFlag : string;
  patternFlag : string;
  anyFlag : bool;
  allFlag : bool;
  dryRunFlag : bool;
  forceFlag : bool
}.

(** The four tallies of the delivery loop. *)
Record Counters : Type := mkCounters {
  succeeded : Z;
  failed : Z;
  skippedTyping : Z;
  skippedNoClaude : Z
}.

Definition zeroCounters : Counters := mkCounters 0 0 0 0.

(** ** A monad of world-passing computations with a trace *)

Definition M (World A : Type) : Type := World -> A * World * list Event.

Definition ret {World A : Type} (a : A) : M World A := fun s => (a, s, []).

Definition bind {World A B : Type} (m : M World A) (f : A -> M World B) : M World B :=
  fun s =>
    let '(a, s1, t1) := m s in
    let '(b, s2, t2) := f a s1 in
    (b, s2, t1 ++ t2).

Definition emit {World : Type} (e : Event) : M World unit := fun s => (tt, s, [e]).

(** A call of a collaborator: run it on the world and record call and result. *)
Definition call {World A : Type} (f : World -> A * World) (ev : A -> Event) : M World A :=
  fun s => let '(a, s1) := f s in (a, s1, [ev a]).

Declare Scope go_scope.
Delimit Scope go_scope with go.
Notation "x <- m ;; k" := (bind m (fun x => k))
  (at level 61, m at next level, right associativity) : go_scope.
Notation "m ;;; k" := (bind m (fun _ => k))
  (at level 61, right associativity) : go_scope.
Local Open Scope go_scope.

(** Counted [for] loops whose body may [break]. *)
Inductive ctrl : Type := Break | Next.

Fixpoint for_loop {World S : Type} (n : nat) (i : Z)
    (body : Z -> S -> M World (ctrl * S)) (s : S) : M World S :=
  match n with
  | O => ret s
  | S n' =>
      r <- body i s ;;
      match r with
      | (Break, s') => ret s'
      | (Next, s') => for_loop n' (i + 1) body s'
      end
  end.

(** [for i := lo; i < hi; i++ { body }], for a body that does not assign [i]. *)
Definition for_range {World S : Type} (lo hi : Z)
    (body : Z -> S -> M World (ctrl * S)) (s : S) : M World S :=
  for_loop (Z.to_nat (hi - lo)) lo body s.

(** ** cmd/root.go *)

Module cmd.
Section Cmd.

Context {World : Type}.
Variable tm : tmux.Interface World.
Variable fl : Flags.

Local Abbreviation Go := (M World).

Definition IsInsideTmux : Go bool :=
  call (tmux.IsInsideTmux tm) EIsInsideTmux.
Definition GetCurrentContext : Go (string * Z * string * option error) :=
  call (tmux.GetCurrentContext tm) EGetCurrentContext.
Definition SessionExists (session : string) : Go bool :=
  call (tmux.SessionExists tm session) (ESessionExists session).
Definition ListWindows (session : string) : Go (list Window * option error) :=
  call (tmux.ListWindows tm session) (EListWindows session).
Definition IsClaudeRunning (w : Window) : Go bool :=
  call (tmux.IsClaudeRunning tm w) (EIsClaudeRunning w).
Definition HasPendingInput (target : string) : Go (bool * option error) :=
  call (tmux.HasPendingInput tm target) (EHasPendingInput target).
Definition AddMessage (target message : string) : Go (option error) :=
  call (tmux.AddMessage tm target message) (EAddMessage target message).
Definition Sleep (d : Z) : Go unit :=
  fun s => (tt, tmux.Sleep tm d s, [ESleep d]).
Definition Printf (out : Stream) (format : string) (a : list Arg) : Go unit :=
  emit (EPrintf out format a).
Definition Println (out : Stream) (a : list Arg) : Go unit :=
  emit (EPrintln out a).

(** Lines 261-286: the target session, the window index to exclude
    (-1 for none) and the pane id of the caller. *)
Definition determineSession : Go (error + string * Z * string) :=
  inside <- IsInsideTmux ;;
  if inside then
    ctx <- GetCurrentContext ;;
    let '(currentSession, currentWindowIdx, paneID, err) := ctx in
    match err with
    | Some e => ret (inl (Errorf "failed to get tmux context: %w" [AErr e]))
    | None =>
        if negb (String.eqb (sessionFlag fl) "")
        then ret (inr (sessionFlag fl, -1, paneID))
        else ret (inr (currentSession, currentWindowIdx, paneID))
    end
  else
    if String.eqb (sessionFlag fl) ""
    then ret (inl (Errorf
           "not inside tmux; use -s/--session to specify target session" []))
    else ret (inr (sessionFlag fl, -1, "")).

(** Lines 309-315: the search through [windowFlags], leaving at the first hit. *)
Fixpoint findName (w : Window) (names : list string) (found : bool) : bool :=
  match names with
  | [] => found
  | name :: rest =>
      if String.eqb (Name w) name || String.eqb (itoa (Index w)) name
      then true
      else findName w rest found
  end.

(** Lines 302-326: one window through the filter chain; [false] is [continue]. *)
Definition keepWindow (currentWindowIndex : Z) (w : Window) : bool :=
  if negb (allFlag fl) && (currentWindowIndex >=? 0)
     && (Index w =? currentWindowIndex)
  then false
  else if (0 <? Z.of_nat (List.length (windowFlags fl)))
          && negb (findName w (windowFlags fl) false)
  then false
  else if negb (String.eqb (patternFlag fl) "")
          && negb (tmux.MatchPattern tm (Name w) (patternFlag fl))
  then false
  else true.

(** Lines 300-327: [targets] grows by [append]. *)
Fixpoint filterWindows (currentWindowIndex : Z) (windows targets : list Window)
    : list Window :=
  match windows with
  | [] => targets
  | w :: rest =>
      filterWindows currentWindowIndex rest
        (if keepWindow currentWindowIndex w then targets ++ [w] else targets)
  end.

(** Lines 337-343. *)
Fixpoint dryRunLines (targets : list Window) : Go unit :=
  match targets with
  | [] => ret tt
  | w :: rest =>
      c <- IsClaudeRunning w ;;
      let claudeStatus := if c then " [claude]" else "" in
      Printf Stdout "  %d: %s (%s)%s\n"
        [AInt (Index w); AStr (Name w); AStr (Command w); AStr claudeStatus] ;;;
      dryRunLines rest
  end.

(** Lines 335-346. *)
Definition dryRun (session message : string) (targets : list Window)
    : Go (option error) :=
  Printf Stdout "Would queue message to %d window(s) in session %q:\n"
    [AInt (Z.of_nat (List.length targets)); AStr session] ;;;
  dryRunLines targets ;;;
  Printf Stdout "\nMessage: %s\n" [AStr message] ;;;
  ret None.

Definition maxRetries : Z := 3.
Definition retryDelay : Z := 5 * Second.

(** Lines 367-373: one attempt. *)
Definition probeBody (target : string) (attempt : Z) (hasPending : bool)
    : Go (ctrl * bool) :=
  r <- HasPendingInput target ;;
  let hasPending := fst r in
  if negb hasPending then ret (Break, hasPending)
  else
    (if attempt <? maxRetries - 1 then Sleep retryDelay else ret tt) ;;;
    ret (Next, hasPending).

(** Lines 362-374: [hasPending] after the retry loop. *)
Definition pendingInput (target : string) : Go bool :=
  for_range 0 maxRetries (probeBody target) false.

(** Lines 351-388: the body of the delivery loop. *)
Definition deliverOne (session message : string) (w : Window) (c : Counters)
    : Go Counters :=
  let target := (session ++ ":" ++ itoa (Index w))%string in
  noClaude <- (if negb (anyFlag fl)
               then (r <- IsClaudeRunning w ;; ret (negb r))
               else ret false) ;;
  if noClaude then
    Printf Stderr "destination window %q has no Claude agent running - start Claude there first, or use --any to send anyway\n"
      [AStr (Name w)] ;;;
    ret (mkCounters (succeeded c) (failed c) (skippedTyping c)
                    (incr (skippedNoClaude c)))
  else
    hasPending <- (if negb (forceFlag fl) then pendingInput target
                   else ret false) ;;
    if hasPending then
      Printf Stderr "destination window %q is busy (user is typing) - use --force if your message takes priority, or wait a few seconds and retry\n"
        [AStr (Name w)] ;;;
      ret (mkCounters (succeeded c) (failed c) (incr (skippedTyping c))
                      (skippedNoClaude c))
    else
      err <- AddMessage target message ;;
      match err with
      | Some e =>
          Printf Stderr "Failed to queue message to %s: %v\n"
            [AStr (Name w); AErr e] ;;;
          ret (mkCounters (succeeded c) (incr (failed c)) (skippedTyping c)
                          (skippedNoClaude c))
      | None =>
          ret (mkCounters (incr (succeeded c)) (failed c) (skippedTyping c)
                          (skippedNoClaude c))
      end.

(** Lines 349-389. *)
Fixpoint deliver (session message : string) (targets : list Window)
    (c : Counters) : Go Counters :=
  match targets with
  | [] => ret c
  | w :: rest =>
      c' <- deliverOne session message w c ;;
      deliver session message rest c'
  end.

(** Lines 396-408: the pieces of the tally line. *)
Definition tallyParts (c : Counters) : list string :=
  let parts := [] in
  let parts := if succeeded c >? 0
               then parts ++ [("queued to " ++ itoa (succeeded c))%string] else parts in
  let parts := if skippedNoClaude c >? 0
               then parts ++ [(itoa (skippedNoClaude c) ++ " skipped (no Claude)")%string]
               else parts in
  let parts := if skippedTyping c >? 0
               then parts ++ [(itoa (skippedTyping c) ++ " deferred (user typing)")%string]
               else parts in
  let parts := if failed c >? 0
               then parts ++ [(itoa (failed c) ++ " failed")%string] else parts in
  parts.

(** Lines 394-417. *)
Definition report (c : Counters) : Go (option error) :=
  let skipped := add64 (skippedTyping c) (skippedNoClaude c) in
  if (failed c >? 0) || (skipped >? 0) then
    Printf Stdout "%s\n" [AStr (String.concat ", " (tallyParts c))] ;;;
    if failed c >? 0
    then ret (Some (Errorf "%d message(s) failed" [AInt (failed c)]))
    else ret None
  else
    Printf Stdout "Queued to %d window(s)\n" [AInt (succeeded c)] ;;;
    ret None.

(** Lines 329-417: what happens once the target list is known. *)
Definition afterResolve (session message : string) (targets : list Window)
    : Go (option error) :=
  if (List.length targets =? 0)%nat then
    Println Stderr [AStr "No windows to send message to"] ;;;
    ret None
  else if dryRunFlag fl then dryRun session message targets
  else
    c <- deliver session message targets zeroCounters ;;
    report c.

(** Lines 258-418. *)
Definition runAdd (args : list string) : Go (option error) :=
  let message := String.concat " " args in
  r <- determineSession ;;
  match r with
  | inl e => ret (Some e)
  | inr (session, currentWindowIndex, currentPaneID) =>
      ex <- SessionExists session ;;
      if negb ex
      then ret (Some (Errorf "session %q does not exist" [AStr session]))
      else
        lw <- ListWindows session ;;
        let '(windows, err) := lw in
        match err with
        | Some e => ret (Some (Errorf "failed to list windows: %w" [AErr e]))
        | None =>
            afterResolve session message
              (filterWindows currentWindowIndex windows [])
        end
  end.

End Cmd.
End cmd.

(** main.go: the exit status. *)
Definition main_exit (err : option error) : Z :=
  match err with
  | Some _ => 1
  | None => 0
  end.

(** ** A scripted world

    A stand-in for the multiplexer used to run the program on concrete
    inputs: the sessions and their windows, the foreground commands taken to
    be the agent, for each target the answers of its successive pending-input
    probes, and the targets whose send fails.  A scripted probe that fails
    answers [false] next to its error. *)

Module Scripted.

Record World : Type := mkWorld {
  inside : bool;
  context : string * Z * string * option error;
  sessions : list (string * list Window);
  agents : list string;
  typing : list (string * list (bool * option error));
  broken : list (string * error)
}.

Fixpoint lookup {A : Type} (k : string) (l : list (string * A)) : option A :=
  match l with
  | [] => None
  | (k', a) :: rest => if String.eqb k k' then Some a else lookup k rest
  end.

(** The next scripted answer for [target]; a probe with no answer left
    reports no pending input. *)
Fixpoint nextProbe (target : string)
    (l : list (string * list (bool * option error)))
    : (bool * option error) * list (string * list (bool * option error)) :=
  match l with
  | [] => ((false, None), [])
  | (k, answers) :: rest =>
      if String.eqb target k then
        match answers with
        | [] => ((false, None), l)
        | a :: answers' => (a, (k, answers') :: rest)
        end
      else
        let '(a, rest') := nextProbe target rest in (a, (k, answers) :: rest')
  end.

(** Anchored matching with [*] and [?]. *)
Fixpoint glob (pattern name : string) : bool :=
  match pattern with
  | EmptyString => match name with EmptyString => true | _ => false end
  | String c pattern' =>
      if Ascii.eqb c "*"%char then
        (fix star (name : string) : bool :=
           glob pattern' name
           || match name with
              | EmptyString => false
              | String _ name' => star name'
              end) name
      else
        match name with
        | EmptyString => false
        | String d name' =>
            (Ascii.eqb c "?"%char || Ascii.eqb c d) && glob pattern' name'
        end
  end.

Definition impl : tmux.Interface World := {|
  tmux.IsInsideTmux := fun s => (inside s, s);
  tmux.GetCurrentContext := fun s => (context s, s);
  tmux.SessionExists := fun name s =>
    (match lookup name (sessions s) with Some _ => true | None => false end, s);
  tmux.ListWindows := fun name s =>
    (match lookup name (sessions s) with
     | Some ws => (ws, None)
     | None => ([], Some (ExternalError "session vanished"))
     end, s);
  tmux.MatchPattern := fun name pattern => glob pattern name;
  tmux.IsClaudeRunning := fun w s =>
    (existsb (String.eqb (Command w)) (agents s), s);
  tmux.HasPendingInput := fun target s =>
    let '(a, typing') := nextProbe target (typing s) in
    (match snd a with
     | Some e => (false, Some e)
     | None => a
     end,
     mkWorld (inside s) (context s) (sessions s) (agents s) typing' (broken s));
  tmux.AddMessage := fun target _ s => (lookup target (broken s), s);
  tmux.Sleep := fun _ s => s
|}.

Definition w0 : Window := mkWindow 0 "main" "bash".
Definition w1 : Window := mkWindow 1 "worker" "claude".
Definition w2 : Window := mkWindow 2 "build" "claude".

Definition defaultFlags : Flags := mkFlags [] "" "" false false false false.

(** Session "work" seen from its window 0; nobody is typing, no send fails. *)
Definition work : World :=
  mkWorld true ("work", 0, "%0", None) [("work", [w0; w1; w2])]
    ["claude"; "node"] [] [].

(** Session "work" with three agent windows next to the caller's: the send to
    "work:2" fails, and the user keeps typing in "work:3". *)
Definition wa : Window := mkWindow 1 "alpha" "claude".
Definition wb : Window := mkWindow 2 "beta" "claude".
Definition wc : Window := mkWindow 3 "gamma" "claude".

Definition mixed : World :=
  mkWorld true ("work", 0, "%0", None) [("work", [w0; wa; wb; wc])]
    ["claude"; "node"]
    [("work:3", [(true, None); (true, None); (true, None)])]
    [("work:2", ExternalError "can't find pane")].

(** Session "work" where the second probe of "work:1" fails. *)
Definition flaky : World :=
  mkWorld true ("work", 0, "%0", None) [("work", [w0; w1; w2])]
    ["claude"; "node"]
    [("work:1", [(true, None); (false, Some (ExternalError "capture failed"))])]
    [].

End Scripted.

(** ** Vocabulary of the statements *)

(** The three parts of a run: its result, the world it leaves and its trace. *)
Definition value {W A : Type} (x : A * W * list Event) : A := fst (fst x).
Definition world {W A : Type} (x : A * W * list Event) : W := snd (fst x).
Definition trace {W A : Type} (x : A * W * list Event) : list Event := snd x.

(** Counting events of a trace. *)
Definition probes (t : list Event) : nat := List.length (filter isProbe t).
Definition sleeps (t : list Event) : nat := List.length (filter isSleep t).
Definition sends (t : list Event) : nat := List.length (filter isSend t).
Definition failedSends (t : list Event) : nat := List.length (filter isFailedSend t).

(** A trace without delivery side effects: no send, no probe, no delay. *)
Definition quiet (t : list Event) : Prop :=
  forall e, In e t -> isSend e = false /\ isProbe e = false /\ isSleep e = false.

(** The target string of a window, line 351. *)
Definition targetOf (session : string) (w : Window) : string :=
  (session ++ ":" ++ itoa (Index w))%string.

(** The traces a retry policy with a budget of [n] attempts and a fixed
    [delay] allows for [target], with the answer they end in: an attempt that
    reports no pending input ends the run; a busy attempt with attempts left
    is followed by one delay and the rest of the run; a busy last attempt
    ends the run, with no delay after it.  [ans] holds of the answers the
    probe can give. *)
Inductive retryRun (ans : bool * option error -> Prop) (target : string)
    (delay : Z) : nat -> bool -> list Event -> Prop :=
| retry_free (n : nat) (r : bool * option error) :
    ans r -> fst r = false ->
    retryRun ans target delay (S n) false [EHasPendingInput target r]
| retry_spent (r : bool * option error) :
    ans r -> fst r = true ->
    retryRun ans target delay 1 true [EHasPendingInput target r]
| retry_again (n : nat) (r : bool * option error) (busy : bool)
    (t : list Event) :
    ans r -> fst r = true ->
    retryRun ans target delay (S n) busy t ->
    retryRun ans target delay (S (S n)) busy
      (EHasPendingInput target r :: ESleep delay :: t).

(** The answers [tmux.HasPendingInput] gives for [target], in some world. *)
Definition answers {World : Type} (tm : tmux.Interface World) (target : string)
    (r : bool * option error) : Prop :=
  exists s : World, r = fst (tmux.HasPendingInput tm target s).

(** The outcome of one target, as the specification of the delivery executor
    names them. *)
Inductive DeliveryOutcome : Type :=
| Sent
| SkippedNoAgent
| DeferredBusy
| Failed (reason : error).

(** The counter an outcome is recorded in. *)
Definition tally (o : DeliveryOutcome) (c : Counters) : Counters :=
  match o with
  | Sent =>
      mkCounters (incr (succeeded c)) (failed c) (skippedTyping c)
                 (skippedNoClaude c)
  | Failed _ =>
      mkCounters (succeeded c) (incr (failed c)) (skippedTyping c)
                 (skippedNoClaude c)
  | DeferredBusy =>
      mkCounters (succeeded c) (failed c) (incr (skippedTyping c))
                 (skippedNoClaude c)
  | SkippedNoAgent =>
      mkCounters (succeeded c) (failed c) (skippedTyping c)
                 (incr (skippedNoClaude c))
  end.

(** The rule of the specification, on the answers of the three
    collaborators: not an agent window in agent-only mode; else busy after
    the retries, unless forced; else the result of the send. *)
Definition specOutcome (agentOnly isAgent forced busy : bool)
    (send : option error) : DeliveryOutcome :=
  if agentOnly && negb isAgent then SkippedNoAgent
  else if negb forced && busy then DeferredBusy
  else match send with
       | None => Sent
       | Some e => Failed e
       end.

(** The three notes written to stderr by the delivery loop. *)
Definition noClaudeNote (w : Window) : Event :=
  EPrintf Stderr "destination window %q has no Claude agent running - start Claude there first, or use --any to send anyway\n"
    [AStr (Name w)].
Definition busyNote (w : Window) : Event :=
  EPrintf Stderr "destination window %q is busy (user is typing) - use --force if your message takes priority, or wait a few seconds and retry\n"
    [AStr (Name w)].
Definition failedNote (w : Window) (e : error) : Event :=
  EPrintf Stderr "Failed to queue message to %s: %v\n" [AStr (Name w); AErr e].

(** What one turn of the delivery loop may leave in the trace, with its
    outcome: the agent check (absent with [--any]), the pending-input check
    (absent with [--force]), and the send with its notes. *)
Inductive agentCheck (fl : Flags) (w : Window) : list Event -> Prop :=
| agent_any : anyFlag fl = true -> agentCheck fl w []
| agent_yes : anyFlag fl = false -> agentCheck fl w [EIsClaudeRunning w true].

Inductive busyCheck (fl : Flags) (ans : bool * option error -> Prop)
    (target : string) : bool -> list Event -> Prop :=
| busy_forced : forceFlag fl = true -> busyCheck fl ans target false []
| busy_probed (busy : bool) (t : list Event) :
    forceFlag fl = false ->
    retryRun ans target cmd.retryDelay 3 busy t ->
    busyCheck fl ans target busy t.

Inductive delivery {World : Type} (tm : tmux.Interface World) (fl : Flags)
    (session message : string) (w : Window)
    : DeliveryOutcome -> list Event -> Prop :=
| delivery_skipped :
    anyFlag fl = false ->
    delivery tm fl session message w SkippedNoAgent
      [EIsClaudeRunning w false; noClaudeNote w]
| delivery_deferred (pre t : list Event) :
    agentCheck fl w pre ->
    busyCheck fl (answers tm (targetOf session w)) (targetOf session w) true t ->
    delivery tm fl session message w DeferredBusy (pre ++ t ++ [busyNote w])
| delivery_sent (pre t : list Event) :
    agentCheck fl w pre ->
    busyCheck fl (answers tm (targetOf session w)) (targetOf session w) false t ->
    delivery tm fl session message w Sent
      (pre ++ t ++ [EAddMessage (targetOf session w) message None])
| delivery_failed (pre t : list Event) (e : error) :
    agentCheck fl w pre ->
    busyCheck fl (answers tm (targetOf session w)) (targetOf session w) false t ->
    delivery tm fl session message w (Failed e)
      (pre ++ t ++ [EAddMessage (targetOf session w) message (Some e);
                    failedNote w e]).

(** How many sends, and how many failed sends, an outcome stands for. *)
Definition sendsOf (o : DeliveryOutcome) : nat :=
  match o with
  | Sent | Failed _ => 1
  | SkippedNoAgent | DeferredBusy => 0
  end.
Definition failuresOf (o : DeliveryOutcome) : nat :=
  match o with
  | Failed _ => 1
  | _ => 0
  end.

(** The sum of the four counters, and counters that are not negative. *)
Definition total (c : Counters) : Z :=
  succeeded c + failed c + skippedTyping c + skippedNoClaude c.
Definition nonneg (c : Counters) : Prop :=
  0 <= succeeded c /\ 0 <= failed c /\ 0 <= skippedTyping c
  /\ 0 <= skippedNoClaude c.

(** [c'] is [c] with exactly one of the four counters one higher. *)
Definition bumps (c c' : Counters) : Prop :=
  (succeeded c' = succeeded c + 1 /\ failed c' = failed c
   /\ skippedTyping c' = skippedTyping c
   /\ skippedNoClaude c' = skippedNoClaude c)
  \/ (succeeded c' = succeeded c /\ failed c' = failed c + 1
      /\ skippedTyping c' = skippedTyping c
      /\ skippedNoClaude c' = skippedNoClaude c)
  \/ (succeeded c' = succeeded c /\ failed c' = failed c
      /\ skippedTyping c' = skippedTyping c + 1
      /\ skippedNoClaude c' = skippedNoClaude c)
  \/ (succeeded c' = succeeded c /\ failed c' = failed c
      /\ skippedTyping c' = skippedTyping c
      /\ skippedNoClaude c' = skippedNoClaude c + 1).

(** The events of resolution: the four questions asked before the filter. *)
Definition isResolution (e : Event) : bool :=
  match e with
  | EIsInsideTmux _ | EGetCurrentContext _ | ESessionExists _ _
  | EListWindows _ _ => true
  | _ => false
  end.

(** The lines of a dry run, for the targets with the verdicts of the agent
    check made while rendering. *)
Fixpoint render (l : list (Window * bool)) : list Event :=
  match l with
  | [] => []
  | (w, agent) :: rest =>
      EIsClaudeRunning w agent
      :: EPrintf Stdout "  %d: %s (%s)%s\n"
           [AInt (Index w); AStr (Name w); AStr (Command w);
            AStr (if agent then " [claude]" else "")]
      :: render rest
  end.

(** The tally line of a run in which nothing was sent. *)
Definition idleParts (c : Counters) : list string :=
  (if skippedNoClaude c >? 0
   then [(itoa (skippedNoClaude c) ++ " skipped (no Claude)")%string] else [])
  ++ (if skippedTyping c >? 0
      then [(itoa (skippedTyping c) ++ " deferred (user typing)")%string]
      else []).

(** Modelled from the spec: [tmux.HasPendingInput] is a function of the
    repository that is not among the embedded sources.  In the interface of
    the specification ("paneHasPendingInput(target) -> bool, fails on
    transient inspection error") a probe answers with a boolean or fails; the
    Go function then returns the zero value [false] next to its error. *)
Definition probeContract {World : Type} (tm : tmux.Interface World) : Prop :=
  forall (target : string) (r : bool * option error),
    answers tm target r -> snd r <> None -> fst r = false.

(** The flags with [--all] switched on. *)
Definition withAll (fl : Flags) : Flags :=
  mkFlags (windowFlags fl) (sessionFlag fl) (patternFlag fl) (anyFlag fl)
          true (dryRunFlag fl) (forceFlag fl).

Section Vocabulary.

Context {World : Type}.
Variable tm : tmux.Interface World.
Variable fl : Flags.

(** The three tests of the filter chain, as propositions. *)
Definition selfExcluded (cwi : Z) (w : Window) : Prop :=
  allFlag fl = false /\ 0 <= cwi /\ Index w = cwi.
Definition listed (w : Window) : Prop :=
  In (Name w) (windowFlags fl) \/ In (itoa (Index w)) (windowFlags fl).
Definition patternOk (w : Window) : Prop :=
  patternFlag fl = "" \/ tmux.MatchPattern tm (Name w) (patternFlag fl) = true.

(** Lines 261-327 of [runAdd] on their own: the session and the target list,
    or the error the run ends with. *)
Definition resolve : M World (error + string * list Window) :=
  r <- cmd.determineSession tm fl ;;
  match r with
  | inl e => ret (inl e)
  | inr (session, currentWindowIndex, _) =>
      ex <- cmd.SessionExists tm session ;;
      if negb ex
      then ret (inl (Errorf "session %q does not exist" [AStr session]))
      else
        lw <- cmd.ListWindows tm session ;;
        let '(windows, err) := lw in
        match err with
        | Some e => ret (inl (Errorf "failed to list windows: %w" [AErr e]))
        | None => ret (inr (session,
                            cmd.filterWindows tm fl currentWindowIndex windows []))
        end
  end.

(** The outcome of a turn by the rule of the specification, from the answers
    the collaborators give in the worlds the turn consults them in. *)
Definition ruleOutcome (session message : string) (w : Window) (s : World)
    : DeliveryOutcome :=
  let target := targetOf session w in
  let agent := tmux.IsClaudeRunning tm w s in
  let s1 := if anyFlag fl then s else snd agent in
  let busy := cmd.pendingInput tm target s1 in
  let s2 := if forceFlag fl then s1 else world busy in
  let send := tmux.AddMessage tm target message s2 in
  specOutcome (negb (anyFlag fl)) (fst agent) (forceFlag fl) (value busy)
    (fst send).

End Vocabulary.

(** ** The earlier revision of cmd/root.go

    The sources keep the revision of [runAdd] that came before the
    pending-input check (src/unnamed/part_000, lines 79-197; the same body is
    lines 56-174 of cmd/root.go).  Its lines 87-118 and 155-172 are, word for
    word, lines 266-297 and 329-346 of the later revision, so
    [cmd.determineSession] and [cmd.dryRun] serve for both; the filter loop,
    the delivery loop and the report differ and are embedded here, with the
    line numbers of part_000. *)

Module earlier.
Section Earlier.

Context {World : Type}.
Variable tm : tmux.Interface World.
Variable fl : Flags.

(** Lines 121-153: the filter loop, with the agent check as its last stage. *)
Fixpoint filterWindows (currentWindowIndex : Z) (windows targets : list Window)
    : M World (list Window) :=
  match windows with
  | [] => ret targets
  | w :: rest =>
      if negb (allFlag fl) && (currentWindowIndex >=? 0)
         && (Index w =? currentWindowIndex)
      then filterWindows currentWindowIndex rest targets
      else if (0 <? Z.of_nat (List.length (windowFlags fl)))
              && negb (cmd.findName w (windowFlags fl) false)
      then filterWindows currentWindowIndex rest targets
      else if negb (String.eqb (patternFlag fl) "")
              && negb (tmux.MatchPattern tm (Name w) (patternFlag fl))
      then filterWindows currentWindowIndex rest targets
      else
        noClaude <- (if negb (anyFlag fl)
                     then (r <- cmd.IsClaudeRunning tm w ;; ret (negb r))
                     else ret false) ;;
        if noClaude
        then filterWindows currentWindowIndex rest targets
        else filterWindows currentWindowIndex rest (targets ++ [w])
  end.

(** Lines 177-183: the body of the delivery loop, on the pair of counters
    [(succeeded, failed)]. *)
Definition deliverOne (session message : string) (w : Window) (c : Z * Z)
    : M World (Z * Z) :=
  let target := (session ++ ":" ++ itoa (Index w))%string in
  err <- cmd.AddMessage tm target message ;;
  match err with
  | Some e =>
      cmd.Printf Stderr "Failed to queue message to %s: %v\n"
        [AStr (Name w); AErr e] ;;;
      ret (fst c, incr (snd c))
  | None => ret (incr (fst c), snd c)
  end.

(** Lines 175-184. *)
Fixpoint deliver (session message : string) (targets : list Window)
    (c : Z * Z) : M World (Z * Z) :=
  match targets with
  | [] => ret c
  | w :: rest =>
      c' <- deliverOne session message w c ;;
      deliver session message rest c'
  end.

(** Lines 187-196. *)
Definition report (c : Z * Z) : M World (option error) :=
  let '(succeeded, failed) := c in
  if failed >? 0 then
    cmd.Printf Stdout "Queued to %d window(s), %d failed\n"
      [AInt succeeded; AInt failed] ;;;
    ret (Some (Errorf "%d message(s) failed" [AInt failed]))
  else
    cmd.Printf Stdout "Queued to %d window(s)\n" [AInt succeeded] ;;;
    ret None.

(** Lines 155-196. *)
Definition afterResolve (session message : string) (targets : list Window)
    : M World (option error) :=
  if (List.length targets =? 0)%nat then
    cmd.Println Stderr [AStr "No windows to send message to"] ;;;
    ret None
  else if dryRunFlag fl then cmd.dryRun tm session message targets
  else
    c <- deliver session message targets (0, 0) ;;
    report c.

(** Lines 79-197. *)
Definition runAdd (args : list string) : M World (option error) :=
  let message := String.concat " " args in
  r <- cmd.determineSession tm fl ;;
  match r with
  | inl e => ret (Some e)
  | inr (session, currentWindowIndex, currentPaneID) =>
      ex <- cmd.SessionExists tm session ;;
      if negb ex
      then ret (Some (Errorf "session %q does not exist" [AStr session]))
      else
        lw <- cmd.ListWindows tm session ;;
        let '(windows, err) := lw in
        match err with
        | Some e => ret (Some (Errorf "failed to list windows: %w" [AErr e]))
        | None =>
            targets <- filterWindows currentWindowIndex windows [] ;;
            afterResolve session message targets
        end
  end.

End Earlier.
End earlier.

(** ** Further vocabulary *)

(** [l1] is [l2] with some elements left out, the order kept. *)
Inductive subseq {A : Type} : list A -> list A -> Prop :=
| subseq_nil : subseq [] []
| subseq_skip (x : A) (l1 l2 : list A) : subseq l1 l2 -> subseq l1 (x :: l2)
| subseq_keep (x : A) (l1 l2 : list A) :
    subseq l1 l2 -> subseq (x :: l1) (x :: l2).

(** The targets of the sends of a trace, in order. *)
Fixpoint sentTo (t : list Event) : list string :=
  match t with
  | [] => []
  | EAddMessage target _ _ :: rest => target :: sentTo rest
  | _ :: rest => sentTo rest
  end.

(** The time a trace spends in [time.Sleep], in nanoseconds. *)
Fixpoint sleepTime (t : list Event) : Z :=
  match t with
  | [] => 0
  | ESleep d :: rest => d + sleepTime rest
  | _ :: rest => sleepTime rest
  end.

(** Lines written to stdout or stderr, and the rest of a trace: the calls. *)
Definition isPrint (e : Event) : bool :=
  match e with
  | EPrintf _ _ _ | EPrintln _ _ => true
  | _ => false
  end.

Definition isAgentCheck (e : Event) : bool :=
  match e with
  | EIsClaudeRunning _ _ => true
  | _ => false
  end.
Definition agentChecks (t : list Event) : nat :=
  List.length (filter isAgentCheck t).

(** Agent checks that rejected the window. *)
Definition isRejection (e : Event) : bool :=
  match e with
  | EIsClaudeRunning _ false => true
  | _ => false
  end.
Definition rejections (t : list Event) : nat :=
  List.length (filter isRejection t).

(** The line [report] prints for the counters [c] (lines 394-416). *)
Definition reportLine (c : Counters) : Event :=
  if (failed c >? 0) || (skippedTyping c + skippedNoClaude c >? 0)
  then EPrintf Stdout "%s\n" [AStr (String.concat ", " (cmd.tallyParts c))]
  else EPrintf Stdout "Queued to %d window(s)\n" [AInt (succeeded c)].

(** * Properties *)

Lemma run_eta {W A : Type} (x : A * W * list Event) :
  x = (value x, world x, trace x).
Proof. destruct x as [[a s] t]; reflexivity. Qed.

Lemma run_bind {W A B : Type} (m : M W A) (f : A -> M W B) (s : W) :
  bind m f s =
  (value (f (value (m s)) (world (m s))),
   world (f (value (m s)) (world (m s))),
   trace (m s) ++ trace (f (value (m s)) (world (m s)))).
Proof.
  unfold bind, value, world, trace.
  destruct (m s) as [[a s1] t1]; simpl.
  destruct (f a s1) as [[b s2] t2]; reflexivity.
Qed.

Lemma run_call {W A : Type} (f : W -> A * W) (ev : A -> Event) (s : W) :
  call f ev s = (fst (f s), snd (f s), [ev (fst (f s))]).
Proof. unfold call; destruct (f s); reflexivity. Qed.

(** ** 64-bit counters that stay in range *)

Lemma wrap64_small (z : Z) : - 2 ^ 63 <= z < 2 ^ 63 -> wrap64 z = z.
Proof.
  intros H; unfold wrap64.
  rewrite Z.mod_small by lia. lia.
Qed.

Lemma incr_small (x : Z) : 0 <= x < MaxInt -> incr x = x + 1.
Proof.
  intros H; unfold incr, add64, MaxInt in *.
  apply wrap64_small; lia.
Qed.

Lemma add64_small (x y : Z) :
  0 <= x -> 0 <= y -> x + y <= MaxInt -> add64 x y = x + y.
Proof.
  intros Hx Hy H; unfold add64, MaxInt in *.
  apply wrap64_small; lia.
Qed.

(** ** The filter chain *)

Section Resolver.

Context {World : Type}.
Variable tm : tmux.Interface World.
Variable fl : Flags.

Lemma findName_existsb (w : Window) (names : list string) (found : bool) :
  cmd.findName w names found =
  existsb (fun name => String.eqb (Name w) name
                       || String.eqb (itoa (Index w)) name) names
  || found.
Proof.
  induction names as [|name rest IH]; simpl; [reflexivity|].
  destruct (String.eqb (Name w) name || String.eqb (itoa (Index w)) name);
    simpl; [reflexivity | exact IH].
Qed.

Lemma findName_spec (w : Window) (names : list string) :
  cmd.findName w names false = true <->
  In (Name w) names \/ In (itoa (Index w)) names.
Proof.
  rewrite findName_existsb, orb_false_r, existsb_exists.
  split.
  - intros (name & Hin & Heq).
    apply orb_true_iff in Heq as [Heq | Heq];
      apply String.eqb_eq in Heq; subst name; tauto.
  - intros [Hin | Hin]; eexists; (split; [exact Hin|]);
      rewrite String.eqb_refl; [reflexivity | apply orb_true_r].
Qed.

Lemma filterWindows_filter (cwi : Z) (windows targets : list Window) :
  cmd.filterWindows tm fl cwi windows targets =
  targets ++ filter (cmd.keepWindow tm fl cwi) windows.
Proof.
  revert targets; induction windows as [|w rest IH]; intros targets; simpl.
  - now rewrite app_nil_r.
  - rewrite IH. destruct (cmd.keepWindow tm fl cwi w).
    + now rewrite <- app_assoc.
    + reflexivity.
Qed.

Lemma keepWindow_spec (cwi : Z) (w : Window) :
  cmd.keepWindow tm fl cwi w = true <->
  ~ selfExcluded fl cwi w /\ (windowFlags fl = [] \/ listed fl w) /\ patternOk tm fl w.
Proof.
  unfold cmd.keepWindow, selfExcluded, listed, patternOk.
  rewrite <- findName_spec.
  assert (Hself : negb (allFlag fl) && (cwi >=? 0) && (Index w =? cwi) = true
                  <-> allFlag fl = false /\ 0 <= cwi /\ Index w = cwi).
  { rewrite !andb_true_iff, negb_true_iff, Z.geb_le, Z.eqb_eq. tauto. }
  assert (Hlist : (0 <? Z.of_nat (List.length (windowFlags fl)))
                  && negb (cmd.findName w (windowFlags fl) false) = false
                  <-> windowFlags fl = []
                      \/ cmd.findName w (windowFlags fl) false = true).
  { destruct (windowFlags fl) as [|name rest].
    - simpl. tauto.
    - replace (0 <? Z.of_nat (List.length (name :: rest))) with true
        by (symmetry; apply Z.ltb_lt; simpl List.length; lia).
      rewrite andb_true_l, negb_false_iff.
      split; [tauto | intros [H | H]; [discriminate | exact H]]. }
  assert (Hpat : negb (String.eqb (patternFlag fl) "")
                 && negb (tmux.MatchPattern tm (Name w) (patternFlag fl)) = false
                 <-> patternFlag fl = ""
                     \/ tmux.MatchPattern tm (Name w) (patternFlag fl) = true).
  { rewrite andb_false_iff, !negb_false_iff, String.eqb_eq. tauto. }
  destruct (negb (allFlag fl) && (cwi >=? 0) && (Index w =? cwi)).
  { split; [discriminate | intros (H & _); exfalso; apply H, Hself; reflexivity]. }
  destruct ((0 <? Z.of_nat (List.length (windowFlags fl)))
            && negb (cmd.findName w (windowFlags fl) false)).
  { split; [discriminate | intros (_ & H & _)].
    apply Hlist in H; discriminate. }
  destruct (negb (String.eqb (patternFlag fl) "")
            && negb (tmux.MatchPattern tm (Name w) (patternFlag fl))).
  { split; [discriminate | intros (_ & _ & H)].
    apply Hpat in H; discriminate. }
  split; [intros _ | reflexivity].
  repeat split.
  - intros H; apply Hself in H; discriminate.
  - apply Hlist; reflexivity.
  - apply Hpat; reflexivity.
Qed.

Lemma in_filterWindows (cwi : Z) (windows : list Window) (w : Window) :
  In w (cmd.filterWindows tm fl cwi windows []) <->
  In w windows /\ cmd.keepWindow tm fl cwi w = true.
Proof. rewrite filterWindows_filter; simpl; apply filter_In. Qed.

End Resolver.

(** ** The explicit window list *)



(** ** Self-exclusion and the explicit session *)

Lemma keepWindow_no_self (World : Type) (tm : tmux.Interface World) (fl : Flags)
    (w : Window) :
  cmd.keepWindow tm fl (-1) w = cmd.keepWindow tm (withAll fl) (-1) w.
Proof.
  unfold cmd.keepWindow, withAll; cbn -[Z.eqb].
  rewrite !andb_false_r. reflexivity.
Qed.

Lemma filterWindows_no_self (World : Type) (tm : tmux.Interface World)
    (fl : Flags) (windows targets : list Window) :
  cmd.filterWindows tm fl (-1) windows targets =
  cmd.filterWindows tm (withAll fl) (-1) windows targets.
Proof.
  rewrite !filterWindows_filter. f_equal.
  apply filter_ext. intros w. apply keepWindow_no_self.
Qed.

(** C6.  Inside the multiplexer, with a target session named on the command
    line, the window index to exclude is the sentinel -1; then no window of
    the target session is dropped as the caller's own window, whatever its
    index (the window carrying the caller's index included), and the whole run
    is the run with [--all]. *)
Theorem explicit_session_disables_self_exclusion :
  forall (World : Type) (tm : tmux.Interface World) (fl : Flags)
         (s s1 s2 : World) (cs : string) (ci : Z) (pane : string),
    tmux.IsInsideTmux tm s = (true, s1) ->
    tmux.GetCurrentContext tm s1 = ((cs, ci, pane, None), s2) ->
    sessionFlag fl <> "" ->
    cmd.determineSession tm fl s =
      (inr (sessionFlag fl, -1, pane), s2,
       [EIsInsideTmux true; EGetCurrentContext (cs, ci, pane, None)])
    /\ (forall (windows : list Window) (w : Window),
          ~ selfExcluded fl (-1) w
          /\ (In w (cmd.filterWindows tm fl (-1) windows []) <->
              In w windows /\ (windowFlags fl = [] \/ listed fl w)
              /\ patternOk tm fl w))
    /\ (forall args : list string,
          cmd.runAdd tm fl args s = cmd.runAdd tm (withAll fl) args s).
Proof.
  intros World tm fl s s1 s2 cs ci pane Hin Hctx Hne.
  assert (Hds : forall fl', sessionFlag fl' = sessionFlag fl ->
            cmd.determineSession tm fl' s =
            (inr (sessionFlag fl, -1, pane), s2,
             [EIsInsideTmux true; EGetCurrentContext (cs, ci, pane, None)])).
  { intros fl' Hfl'.
    unfold cmd.determineSession, cmd.IsInsideTmux, cmd.GetCurrentContext,
      bind, call, ret.
    rewrite Hin, Hctx, Hfl'.
    apply String.eqb_neq in Hne. rewrite Hne. reflexivity. }
  split; [apply Hds; reflexivity|split].
  - intros windows w.
    assert (Hno : ~ selfExcluded fl (-1) w)
      by (unfold selfExcluded; intros (_ & H & _); lia).
    split; [exact Hno|].
    rewrite in_filterWindows, keepWindow_spec. tauto.
  - intros args. unfold cmd.runAdd, bind.
    rewrite (Hds fl eq_refl), (Hds (withAll fl) eq_refl).
    cbv beta iota.
    destruct (cmd.SessionExists tm (sessionFlag fl) s2) as [[[|] s3] t3];
      cbn [negb]; [|reflexivity].
    destruct (cmd.ListWindows tm (sessionFlag fl) s3) as [[[windows [e|]] s4] t4];
      [reflexivity|].
    rewrite filterWindows_no_self. reflexivity.
Qed.

(** A use of C6: from window 0 of session "home", with [-s work]; window 0 of
    "work" is kept. *)
Lemma explicit_session_disables_self_exclusion_witness :
  ~ selfExcluded (mkFlags [] "work" "" true false false false) (-1) Scripted.w0
  /\ (In Scripted.w0
        (cmd.filterWindows Scripted.impl
           (mkFlags [] "work" "" true false false false) (-1)
           [Scripted.w0; Scripted.w1; Scripted.w2] [])
      <-> In Scripted.w0 [Scripted.w0; Scripted.w1; Scripted.w2]
          /\ (windowFlags (mkFlags [] "work" "" true false false false) = []
              \/ listed (mkFlags [] "work" "" true false false false) Scripted.w0)
          /\ patternOk Scripted.impl
                       (mkFlags [] "work" "" true false false false) Scripted.w0).
Proof.
  refine (proj1 (proj2
    (explicit_session_disables_self_exclusion Scripted.World Scripted.impl
       (mkFlags [] "work" "" true false false false)
       (Scripted.mkWorld true ("home", 0, "%7", None)
          [("home", [Scripted.w0]); ("work", [Scripted.w0; Scripted.w1; Scripted.w2])]
          ["claude"; "node"] [] [])
       _ _ "home" 0 "%7" eq_refl eq_refl _))
    [Scripted.w0; Scripted.w1; Scripted.w2] Scripted.w0).
  simpl. discriminate.
Defined.

(** ** The pending-input check and its retries *)

Section Detector.

Context {World : Type}.
Variable tm : tmux.Interface World.
Variable target : string.

(** One turn of the loop of lines 366-374, from attempt [i] with [n] further
    attempts to go. *)
Lemma for_loop_probe_step (n : nat) (i : Z) (b : bool) (s : World) :
  for_loop (S n) i (cmd.probeBody tm target) b s =
  let r := fst (tmux.HasPendingInput tm target s) in
  let s1 := snd (tmux.HasPendingInput tm target s) in
  if fst r then
    if i <? cmd.maxRetries - 1 then
      let x := for_loop n (i + 1) (cmd.probeBody tm target) true
                 (tmux.Sleep tm cmd.retryDelay s1) in
      (value x, world x,
       EHasPendingInput target r :: ESleep cmd.retryDelay :: trace x)
    else
      let x := for_loop n (i + 1) (cmd.probeBody tm target) true s1 in
      (value x, world x, EHasPendingInput target r :: trace x)
  else (false, s1, [EHasPendingInput target r]).
Proof.
  cbn [for_loop]. unfold cmd.probeBody at 1.
  unfold cmd.HasPendingInput, cmd.Sleep.
  rewrite !run_bind, run_call.
  cbn [value world trace fst snd].
  destruct (tmux.HasPendingInput tm target s) as [[[|] e] s1];
    cbn [fst snd negb]; [|reflexivity].
  rewrite run_bind.
  destruct (i <? cmd.maxRetries - 1); reflexivity.
Qed.

Lemma for_loop_retryRun (n : nat) :
  forall (b : bool) (s : World),
    (0 < n)%nat ->
    retryRun (answers tm target) target cmd.retryDelay n
      (value (for_loop n (cmd.maxRetries - Z.of_nat n)
                (cmd.probeBody tm target) b s))
      (trace (for_loop n (cmd.maxRetries - Z.of_nat n)
                (cmd.probeBody tm target) b s)).
Proof.
  induction n as [|n IH]; intros b s Hn; [lia|].
  rewrite for_loop_probe_step. cbv zeta.
  destruct (fst (fst (tmux.HasPendingInput tm target s))) eqn:Hbusy.
  - replace (cmd.maxRetries - Z.of_nat (S n) + 1)
      with (cmd.maxRetries - Z.of_nat n) by lia.
    destruct n as [|n].
    + replace (cmd.maxRetries - Z.of_nat 1 <? cmd.maxRetries - 1) with false
        by (symmetry; apply Z.ltb_ge; lia).
      cbn. apply retry_spent; [eexists; reflexivity | exact Hbusy].
    + replace (cmd.maxRetries - Z.of_nat (S (S n)) <? cmd.maxRetries - 1)
        with true by (symmetry; apply Z.ltb_lt; lia).
      cbn [value world trace fst snd].
      apply retry_again; [eexists; reflexivity | exact Hbusy|].
      apply IH. lia.
  - cbn. apply retry_free; [eexists; reflexivity | exact Hbusy].
Qed.

End Detector.

Lemma retryRun_counts (ans : bool * option error -> Prop) (target : string)
    (delay : Z) (n : nat) (busy : bool)
    (t : list Event) :
  retryRun ans target delay n busy t ->
  (1 <= probes t <= n)%nat
  /\ sleeps t = (probes t - 1)%nat
  /\ (busy = true -> probes t = n).
Proof.
  unfold probes, sleeps.
  induction 1 as [n r Ha Hr | r Ha Hr | n r busy t Ha Hr Hrun IH]; cbn.
  - repeat split; try lia; discriminate.
  - repeat split; lia.
  - destruct IH as (Hp & Hs & Hb). repeat split; try lia.
    intros Hbusy. specialize (Hb Hbusy). lia.
Qed.

Lemma retryRun_last (ans : bool * option error -> Prop) (target : string)
    (delay : Z) (n : nat) (busy : bool)
    (t : list Event) :
  retryRun ans target delay n busy t ->
  exists (t0 : list Event) (r : bool * option error),
    t = t0 ++ [EHasPendingInput target r]
    /\ busy = fst r
    /\ (forall tg r', In (EHasPendingInput tg r') t0 -> fst r' = true).
Proof.
  induction 1 as [n r Ha Hr | r Ha Hr | n r busy t Ha Hr Hrun IH].
  - exists [], r. repeat split; [congruence | intros ? ? []].
  - exists [], r. repeat split; [congruence | intros ? ? []].
  - destruct IH as (t0 & r0 & Ht & Hb & Hall).
    exists (EHasPendingInput target r :: ESleep delay :: t0), r0.
    rewrite Ht. repeat split; [exact Hb|].
    intros tg r' [Heq | [Heq | Hin]].
    + inversion Heq; subst; exact Hr.
    + discriminate.
    + eapply Hall; exact Hin.
Qed.

Lemma retryRun_events (ans : bool * option error -> Prop) (target : string)
    (delay : Z) (n : nat) (busy : bool)
    (t : list Event) :
  retryRun ans target delay n busy t ->
  forall e, In e t ->
    (exists r, e = EHasPendingInput target r) \/ e = ESleep delay.
Proof.
  induction 1 as [n r Ha Hr | r Ha Hr | n r busy t Ha Hr Hrun IH]; intros e Hin.
  - destruct Hin as [<- | []]. left; eexists; reflexivity.
  - destruct Hin as [<- | []]. left; eexists; reflexivity.
  - destruct Hin as [<- | [<- | Hin]].
    + left; eexists; reflexivity.
    + right; reflexivity.
    + apply IH, Hin.
Qed.

Lemma pendingInput_retryRun (World : Type) (tm : tmux.Interface World)
    (target : string) (s : World) :
  retryRun (answers tm target) target cmd.retryDelay 3
    (value (cmd.pendingInput tm target s))
    (trace (cmd.pendingInput tm target s)).
Proof.
  assert (H3 : (0 < 3)%nat) by lia.
  exact (for_loop_retryRun tm target 3 false s H3).
Qed.

(** C3.  The pending-input check probes a target at least once and at most 3
    times; every probe but the last one reported pending input, so the check
    stops at the first probe that reports none; each busy probe that is not
    the third is followed by one delay of 5 seconds, and nothing follows the
    last probe: the number of delays is the number of probes minus one.  The
    answer is the answer of the last probe, and it is "busy" only after 3
    probes.  In particular two busy probes followed by a third probe give the
    answer of the third probe after exactly 2 delays, whether that answer is
    "not busy" or "busy". *)
Theorem pending_input_retry_policy :
  forall (World : Type) (tm : tmux.Interface World) (target : string)
         (s : World),
    let run := cmd.pendingInput tm target s in
    cmd.retryDelay = 5 * Second
    /\ (1 <= probes (trace run) <= 3)%nat
    /\ sleeps (trace run) = (probes (trace run) - 1)%nat
    /\ (forall e, In e (trace run) ->
          (exists r, e = EHasPendingInput target r) \/ e = ESleep (5 * Second))
    /\ (exists (t0 : list Event) (r : bool * option error),
          trace run = t0 ++ [EHasPendingInput target r]
          /\ value run = fst r
          /\ forall tg r', In (EHasPendingInput tg r') t0 -> fst r' = true)
    /\ (value run = true -> probes (trace run) = 3%nat)
    /\ (forall r1 s1,
          tmux.HasPendingInput tm target s = (r1, s1) -> fst r1 = false ->
          run = (false, s1, [EHasPendingInput target r1]))
    /\ (forall r1 s1 r2 s2,
          tmux.HasPendingInput tm target s = (r1, s1) -> fst r1 = true ->
          tmux.HasPendingInput tm target (tmux.Sleep tm (5 * Second) s1)
            = (r2, s2) -> fst r2 = false ->
          run = (false, s2,
                 [EHasPendingInput target r1; ESleep (5 * Second);
                  EHasPendingInput target r2]))
    /\ (forall r1 s1 r2 s2 r3 s3,
          tmux.HasPendingInput tm target s = (r1, s1) -> fst r1 = true ->
          tmux.HasPendingInput tm target (tmux.Sleep tm (5 * Second) s1)
            = (r2, s2) -> fst r2 = true ->
          tmux.HasPendingInput tm target (tmux.Sleep tm (5 * Second) s2)
            = (r3, s3) ->
          run = (fst r3, s3,
                 [EHasPendingInput target r1; ESleep (5 * Second);
                  EHasPendingInput target r2; ESleep (5 * Second);
                  EHasPendingInput target r3])
          /\ sleeps (trace run) = 2%nat).
Proof.
  intros World tm target s run.
  pose proof (pendingInput_retryRun World tm target s) as Hrun.
  fold run in Hrun.
  destruct (retryRun_counts _ _ _ _ _ _ Hrun) as (Hp & Hs & Hb).
  split; [reflexivity|].
  split; [exact Hp|]. split; [exact Hs|].
  split; [exact (retryRun_events _ _ _ _ _ _ Hrun)|].
  split; [exact (retryRun_last _ _ _ _ _ _ Hrun)|].
  split; [exact Hb|].
  assert (Hunfold : run = for_loop 3 0 (cmd.probeBody tm target) false s)
    by reflexivity.
  change (5 * Second) with cmd.retryDelay.
  split; [|split].
  - intros r1 s1 H1 Hr1. rewrite Hunfold, for_loop_probe_step.
    rewrite H1; cbn [fst snd]. rewrite Hr1. reflexivity.
  - intros r1 s1 r2 s2 H1 Hr1 H2 Hr2. rewrite Hunfold, for_loop_probe_step.
    rewrite H1; cbn [fst snd]. rewrite Hr1.
    change (0 <? cmd.maxRetries - 1) with true. cbv iota zeta.
    rewrite for_loop_probe_step.
    rewrite H2; cbn [fst snd]. rewrite Hr2. reflexivity.
  - intros r1 s1 r2 s2 r3 s3 H1 Hr1 H2 Hr2 H3.
    assert (Heq : run = (fst r3, s3,
                 [EHasPendingInput target r1; ESleep cmd.retryDelay;
                  EHasPendingInput target r2; ESleep cmd.retryDelay;
                  EHasPendingInput target r3])).
    { rewrite Hunfold, for_loop_probe_step.
      rewrite H1; cbn [fst snd]. rewrite Hr1.
      change (0 <? cmd.maxRetries - 1) with true. cbv iota zeta.
      rewrite for_loop_probe_step.
      rewrite H2; cbn [fst snd]. rewrite Hr2.
      change (0 + 1 <? cmd.maxRetries - 1) with true. cbv iota zeta.
      rewrite for_loop_probe_step.
      rewrite H3; cbn [fst snd].
      change (0 + 1 + 1 <? cmd.maxRetries - 1) with false.
      destruct (fst r3); reflexivity. }
    split; [exact Heq|]. rewrite Heq. reflexivity.
Qed.

(** A use of C3: the user types during the first two probes of "work:1" and
    has stopped at the third. *)
Lemma pending_input_retry_policy_witness :
  cmd.pendingInput Scripted.impl "work:1"
    (Scripted.mkWorld true ("work", 0, "%0", None)
       [("work", [Scripted.w0; Scripted.w1; Scripted.w2])] ["claude"]
       [("work:1", [(true, None); (true, None); (false, None)])] [])
  = (false,
     Scripted.mkWorld true ("work", 0, "%0", None)
       [("work", [Scripted.w0; Scripted.w1; Scripted.w2])] ["claude"]
       [("work:1", [])] [],
     [EHasPendingInput "work:1" (true, None); ESleep (5 * Second);
      EHasPendingInput "work:1" (true, None); ESleep (5 * Second);
      EHasPendingInput "work:1" (false, None)])
  /\ sleeps (trace (cmd.pendingInput Scripted.impl "work:1"
       (Scripted.mkWorld true ("work", 0, "%0", None)
          [("work", [Scripted.w0; Scripted.w1; Scripted.w2])] ["claude"]
          [("work:1", [(true, None); (true, None); (false, None)])] [])))
     = 2%nat.
Proof.
  pose proof (pending_input_retry_policy Scripted.World Scripted.impl "work:1"
       (Scripted.mkWorld true ("work", 0, "%0", None)
          [("work", [Scripted.w0; Scripted.w1; Scripted.w2])] ["claude"]
          [("work:1", [(true, None); (true, None); (false, None)])] [])) as H.
  cbv zeta in H.
  destruct H as (_ & _ & _ & _ & _ & _ & _ & _ & H).
  exact (H (true, None) _ (true, None) _ (false, None) _
           eq_refl eq_refl eq_refl eq_refl eq_refl).
Defined.

(** ** Counting in traces *)

Lemma count_app (f : Event -> bool) (a b : list Event) :
  List.length (filter f (a ++ b)) =
  (List.length (filter f a) + List.length (filter f b))%nat.
Proof. now rewrite filter_app, length_app. Qed.

Lemma sends_app (a b : list Event) : sends (a ++ b) = (sends a + sends b)%nat.
Proof. apply count_app. Qed.

Lemma failedSends_app (a b : list Event) :
  failedSends (a ++ b) = (failedSends a + failedSends b)%nat.
Proof. apply count_app. Qed.

Lemma probes_app (a b : list Event) :
  probes (a ++ b) = (probes a + probes b)%nat.
Proof. apply count_app. Qed.

Lemma sleeps_app (a b : list Event) :
  sleeps (a ++ b) = (sleeps a + sleeps b)%nat.
Proof. apply count_app. Qed.

Lemma count_none (f : Event -> bool) (t : list Event) :
  (forall e, In e t -> f e = false) -> List.length (filter f t) = 0%nat.
Proof.
  induction t as [|e t IH]; intros H; cbn; [reflexivity|].
  rewrite (H e (or_introl eq_refl)). apply IH.
  intros e' He'. apply H. right; exact He'.
Qed.

Lemma count_some (f : Event -> bool) (t : list Event) (e : Event) :
  In e t -> f e = true -> (0 < List.length (filter f t))%nat.
Proof.
  intros Hin Hf.
  assert (H : In e (filter f t)) by (apply filter_In; split; assumption).
  destruct (filter f t); [destruct H | cbn; lia].
Qed.

Lemma count_pos (f : Event -> bool) (t : list Event) :
  (0 < List.length (filter f t))%nat -> exists e, In e t /\ f e = true.
Proof.
  intros H. destruct (filter f t) as [|e l] eqn:Hf; [cbn in H; lia|].
  exists e. apply filter_In. rewrite Hf. left; reflexivity.
Qed.

Lemma retryRun_no_send (ans : bool * option error -> Prop) (target : string)
    (delay : Z) (n : nat) (busy : bool)
    (t : list Event) :
  retryRun ans target delay n busy t -> sends t = 0%nat /\ failedSends t = 0%nat.
Proof.
  intros Hrun.
  split; apply count_none; intros e He;
    destruct (retryRun_events _ _ _ _ _ _ Hrun e He) as [[r ->] | ->];
    reflexivity.
Qed.

Lemma agentCheck_counts (fl : Flags) (w : Window) (pre : list Event) :
  agentCheck fl w pre ->
  sends pre = 0%nat /\ failedSends pre = 0%nat /\ probes pre = 0%nat
  /\ sleeps pre = 0%nat.
Proof. destruct 1; repeat split; reflexivity. Qed.

Lemma busyCheck_counts (fl : Flags) (ans : bool * option error -> Prop)
    (target : string) (busy : bool) (t : list Event) :
  busyCheck fl ans target busy t ->
  sends t = 0%nat /\ failedSends t = 0%nat
  /\ (busy = true -> probes t = 3%nat /\ sleeps t = 2%nat).
Proof.
  destruct 1 as [Hf | busy t Hf Hrun].
  - repeat split; try reflexivity; discriminate.
  - destruct (retryRun_no_send _ _ _ _ _ _ Hrun) as (H1 & H2).
    destruct (retryRun_counts _ _ _ _ _ _ Hrun) as (H3 & H4 & H5).
    split; [exact H1|split; [exact H2|]].
    intros Hb. split; [apply H5, Hb | rewrite H4, (H5 Hb); reflexivity].
Qed.

(** What a turn leaves in the trace, by outcome. *)
Lemma delivery_counts (World : Type) (tm : tmux.Interface World) (fl : Flags)
    (session message : string) (w : Window) (o : DeliveryOutcome)
    (t : list Event) :
  delivery tm fl session message w o t ->
  sends t = sendsOf o
  /\ failedSends t = failuresOf o
  /\ (o = SkippedNoAgent -> probes t = 0%nat /\ sleeps t = 0%nat)
  /\ (o = DeferredBusy -> probes t = 3%nat /\ sleeps t = 2%nat).
Proof.
  destruct 1 as [Hany | pre t Hpre Hbusy | pre t Hpre Hbusy
                | pre t e Hpre Hbusy].
  - repeat split; try reflexivity; discriminate.
  - destruct (agentCheck_counts _ _ _ Hpre) as (P1 & P2 & P3 & P4).
    destruct (busyCheck_counts _ _ _ _ _ Hbusy) as (B1 & B2 & B3).
    destruct (B3 eq_refl) as (B4 & B5).
    rewrite !sends_app, !failedSends_app, !probes_app, !sleeps_app.
    rewrite P1, P2, P3, P4, B1, B2, B4, B5.
    repeat split; try reflexivity; discriminate.
  - destruct (agentCheck_counts _ _ _ Hpre) as (P1 & P2 & P3 & P4).
    destruct (busyCheck_counts _ _ _ _ _ Hbusy) as (B1 & B2 & B3).
    rewrite !sends_app, !failedSends_app. rewrite P1, P2, B1, B2.
    repeat split; try reflexivity; discriminate.
  - destruct (agentCheck_counts _ _ _ Hpre) as (P1 & P2 & P3 & P4).
    destruct (busyCheck_counts _ _ _ _ _ Hbusy) as (B1 & B2 & B3).
    rewrite !sends_app, !failedSends_app. rewrite P1, P2, B1, B2.
    repeat split; try reflexivity; discriminate.
Qed.

(** Every send of a turn is the send to the window of the turn, made after
    the agent check accepted the window unless [--any] is set. *)
Lemma delivery_send (World : Type) (tm : tmux.Interface World) (fl : Flags)
    (session message : string) (w : Window) (o : DeliveryOutcome)
    (t : list Event) :
  delivery tm fl session message w o t ->
  forall tg m r, In (EAddMessage tg m r) t ->
    tg = targetOf session w /\ m = message
    /\ (anyFlag fl = false -> In (EIsClaudeRunning w true) t)
    /\ match r with
       | None => o = Sent
       | Some e => o = Failed e
       end.
Proof.
  assert (Hpre : forall pre tg m r, agentCheck fl w pre ->
            ~ In (EAddMessage tg m r) pre).
  { intros pre tg m r [Ha | Ha] Hin; cbn in Hin;
      [exact Hin | destruct Hin as [H | []]; discriminate]. }
  assert (Hbusy : forall ans target busy t0 tg m r,
            busyCheck fl ans target busy t0 -> ~ In (EAddMessage tg m r) t0).
  { intros ans target busy t0 tg m r [Hf | b t1 Hf Hrun] Hin; [exact Hin|].
    destruct (retryRun_events _ _ _ _ _ _ Hrun _ Hin) as [[r0 H] | H];
      discriminate. }
  assert (Hagent : forall pre rest, agentCheck fl w pre ->
            anyFlag fl = false -> In (EIsClaudeRunning w true) (pre ++ rest)).
  { intros pre rest [Ha | Ha] Hany; [congruence | left; reflexivity]. }
  destruct 1 as [Hany | pre t Hp Hb | pre t Hp Hb | pre t e Hp Hb];
    intros tg m r Hin.
  - destruct Hin as [H | [H | []]]; discriminate.
  - apply in_app_or in Hin as [Hin | Hin]; [elim (Hpre _ _ _ _ Hp Hin)|].
    apply in_app_or in Hin as [Hin | Hin]; [elim (Hbusy _ _ _ _ _ _ _ Hb Hin)|].
    destruct Hin as [H | []]; discriminate.
  - apply in_app_or in Hin as [Hin | Hin]; [elim (Hpre _ _ _ _ Hp Hin)|].
    apply in_app_or in Hin as [Hin | Hin]; [elim (Hbusy _ _ _ _ _ _ _ Hb Hin)|].
    destruct Hin as [H | []]. inversion H; subst.
    repeat split. apply Hagent, Hp.
  - apply in_app_or in Hin as [Hin | Hin]; [elim (Hpre _ _ _ _ Hp Hin)|].
    apply in_app_or in Hin as [Hin | Hin]; [elim (Hbusy _ _ _ _ _ _ _ Hb Hin)|].
    destruct Hin as [H | [H | []]]; [|discriminate]. inversion H; subst.
    repeat split. apply Hagent, Hp.
Qed.

(** Recording an outcome in counters that have room. *)
Lemma tally_counts (o : DeliveryOutcome) (c : Counters) :
  nonneg c -> total c < MaxInt ->
  nonneg (tally o c)
  /\ total (tally o c) = total c + 1
  /\ failed (tally o c) = failed c + Z.of_nat (failuresOf o)
  /\ succeeded (tally o c)
     = succeeded c + Z.of_nat (sendsOf o) - Z.of_nat (failuresOf o)
  /\ skippedTyping (tally o c) + skippedNoClaude (tally o c)
     = skippedTyping c + skippedNoClaude c + 1 - Z.of_nat (sendsOf o).
Proof.
  unfold nonneg, total. intros (H1 & H2 & H3 & H4) Hroom.
  destruct o; cbn [tally succeeded failed skippedTyping skippedNoClaude
                   sendsOf failuresOf];
    rewrite incr_small by lia; repeat split; lia.
Qed.

(** ** One turn of the delivery loop *)

Section Delivery.

Context {World : Type}.
Variable tm : tmux.Interface World.
Variable fl : Flags.
Variables session message : string.

(** Running one turn: name the answers of the collaborators it consults. *)
Ltac run_turn tm :=
  repeat (cbv beta iota zeta; cbn [negb value world trace fst snd];
    match goal with
    | |- context [tmux.IsClaudeRunning tm ?w ?s] =>
        destruct (tmux.IsClaudeRunning tm w s) as [[|] ?]
    | |- context [cmd.pendingInput tm ?t ?s] =>
        let Hrun := fresh "Hrun" in
        pose proof (pendingInput_retryRun _ tm t s) as Hrun;
        destruct (cmd.pendingInput tm t s) as [[[|] ?] ?];
        cbn [value world trace fst snd] in Hrun
    | |- context [tmux.AddMessage tm ?t ?m ?s] =>
        destruct (tmux.AddMessage tm t m s) as [[?|] ?]
    end);
  cbv beta iota zeta; cbn [value world trace fst snd app];
  rewrite ?app_nil_r.

Lemma deliverOne_rule (w : Window) (c : Counters) (s : World) :
  delivery tm fl session message w (ruleOutcome tm fl session message w s)
    (trace (cmd.deliverOne tm fl session message w c s))
  /\ value (cmd.deliverOne tm fl session message w c s)
     = tally (ruleOutcome tm fl session message w s) c.
Proof.
  unfold ruleOutcome, cmd.deliverOne. fold (targetOf session w).
  unfold cmd.IsClaudeRunning, cmd.AddMessage, cmd.Printf, emit, call, bind, ret.
  destruct (anyFlag fl) eqn:Hany; destruct (forceFlag fl) eqn:Hforce;
    run_turn tm; cbn [specOutcome negb andb].
  all: (split; [|reflexivity]).
  all: try exact (delivery_skipped tm fl session message w Hany).
  all: try match goal with
       | Hrun : retryRun _ _ _ _ _ ?t |- _ =>
           first [ refine (delivery_deferred tm fl session message w [] t _ _)
                 | refine (delivery_deferred tm fl session message w
                             [EIsClaudeRunning w true] t _ _)
                 | refine (delivery_sent tm fl session message w [] t _ _)
                 | refine (delivery_sent tm fl session message w
                             [EIsClaudeRunning w true] t _ _)
                 | refine (delivery_failed tm fl session message w [] t _ _ _)
                 | refine (delivery_failed tm fl session message w
                             [EIsClaudeRunning w true] t _ _ _) ]
       end.
  all: try first
           [ refine (delivery_sent tm fl session message w [] [] _ _)
           | refine (delivery_sent tm fl session message w
                       [EIsClaudeRunning w true] [] _ _)
           | refine (delivery_failed tm fl session message w [] [] _ _ _)
           | refine (delivery_failed tm fl session message w
                       [EIsClaudeRunning w true] [] _ _ _) ].
  all: first [ exact (agent_any fl w Hany)
             | exact (agent_yes fl w Hany)
             | exact (busy_forced fl _ _ Hforce)
             | apply busy_probed; assumption ].
Qed.

Lemma deliver_cons (w : Window) (rest : list Window) (c : Counters) (s : World) :
  cmd.deliver tm fl session message (w :: rest) c s =
  (value (cmd.deliver tm fl session message rest
            (value (cmd.deliverOne tm fl session message w c s))
            (world (cmd.deliverOne tm fl session message w c s))),
   world (cmd.deliver tm fl session message rest
            (value (cmd.deliverOne tm fl session message w c s))
            (world (cmd.deliverOne tm fl session message w c s))),
   trace (cmd.deliverOne tm fl session message w c s)
   ++ trace (cmd.deliver tm fl session message rest
               (value (cmd.deliverOne tm fl session message w c s))
               (world (cmd.deliverOne tm fl session message w c s)))).
Proof. cbn [cmd.deliver]. apply run_bind. Qed.

(** The invariant of the delivery loop: the counters stay in range, their
    sum grows by one per target, and the two send counters count the sends of
    the trace. *)
Lemma deliver_counts (targets : list Window) :
  forall (c : Counters) (s : World),
    nonneg c ->
    total c + Z.of_nat (List.length targets) <= MaxInt ->
    nonneg (value (cmd.deliver tm fl session message targets c s))
    /\ total (value (cmd.deliver tm fl session message targets c s))
       = total c + Z.of_nat (List.length targets)
    /\ failed (value (cmd.deliver tm fl session message targets c s))
       = failed c
         + Z.of_nat (failedSends
                       (trace (cmd.deliver tm fl session message targets c s)))
    /\ succeeded (value (cmd.deliver tm fl session message targets c s))
       = succeeded c
         + Z.of_nat (sends
                       (trace (cmd.deliver tm fl session message targets c s)))
         - Z.of_nat (failedSends
                       (trace (cmd.deliver tm fl session message targets c s))).
Proof.
  induction targets as [|w rest IH]; intros c s Hc Hroom.
  - cbn. repeat split; try apply Hc; lia.
  - rewrite deliver_cons. cbn [value world trace fst snd].
    cbn [List.length] in Hroom.
    destruct (deliverOne_rule w c s) as (Hd & Hv).
    destruct (delivery_counts _ _ _ _ _ _ _ _ Hd) as (Hs & Hf & _).
    destruct (tally_counts (ruleOutcome tm fl session message w s) c Hc)
      as (Hn & Ht & Hfail & Hsucc & _); [lia|].
    rewrite <- Hv in Hn, Ht, Hfail, Hsucc.
    specialize (IH (value (cmd.deliverOne tm fl session message w c s))
                   (world (cmd.deliverOne tm fl session message w c s)) Hn).
    destruct IH as (I1 & I2 & I3 & I4); [lia|].
    rewrite sends_app, failedSends_app, Hs, Hf.
    cbn [List.length].
    repeat split; try apply I1; lia.
Qed.

(** Every send of the loop goes to a window of the target list, and, without
    [--any], after the agent check has accepted that window. *)
Lemma deliver_send (targets : list Window) :
  forall (c : Counters) (s : World) (tg m : string) (r : option error),
    In (EAddMessage tg m r)
       (trace (cmd.deliver tm fl session message targets c s)) ->
    exists w, In w targets /\ tg = targetOf session w /\ m = message
      /\ (anyFlag fl = false ->
          In (EIsClaudeRunning w true)
             (trace (cmd.deliver tm fl session message targets c s))).
Proof.
  induction targets as [|w rest IH]; intros c s tg m r Hin.
  - destruct Hin.
  - rewrite deliver_cons in Hin |- *. cbn [value world trace fst snd] in *.
    apply in_app_or in Hin as [Hin | Hin].
    + destruct (deliverOne_rule w c s) as (Hd & _).
      destruct (delivery_send _ _ _ _ _ _ _ _ Hd _ _ _ Hin)
        as (Htg & Hm & Hagent & _).
      exists w. repeat split; try assumption; [left; reflexivity|].
      intros Hany. apply in_or_app; left. apply Hagent, Hany.
    + destruct (IH _ _ _ _ _ Hin) as (w' & Hw' & Htg & Hm & Hagent).
      exists w'. repeat split; try assumption; [right; exact Hw'|].
      intros Hany. apply in_or_app; right. apply Hagent, Hany.
Qed.

End Delivery.

(** ** A run, phase by phase *)

Section Phases.

Context {World : Type}.
Variable tm : tmux.Interface World.
Variable fl : Flags.

Lemma runAdd_resolve (args : list string) (s : World) :
  cmd.runAdd tm fl args s =
  match value (resolve tm fl s) with
  | inl e => (Some e, world (resolve tm fl s), trace (resolve tm fl s))
  | inr (session, targets) =>
      (value (cmd.afterResolve tm fl session (String.concat " " args) targets
                (world (resolve tm fl s))),
       world (cmd.afterResolve tm fl session (String.concat " " args) targets
                (world (resolve tm fl s))),
       trace (resolve tm fl s)
       ++ trace (cmd.afterResolve tm fl session (String.concat " " args)
                   targets (world (resolve tm fl s))))
  end.
Proof.
  unfold cmd.runAdd, resolve, bind.
  destruct (cmd.determineSession tm fl s) as [[[e|[[session cwi] pane]] s1] t1];
    cbv beta iota zeta; [reflexivity|].
  destruct (cmd.SessionExists tm session s1) as [[[|] s2] t2];
    cbn [negb]; cbv beta iota zeta; [|reflexivity].
  destruct (cmd.ListWindows tm session s2) as [[[windows [e|]] s3] t3];
    cbv beta iota zeta; [reflexivity|].
  unfold ret. cbn [value world trace fst snd].
  destruct (cmd.afterResolve tm fl session (String.concat " " args)
              (cmd.filterWindows tm fl cwi windows []) s3) as [[v s4] t4].
  cbn [value world trace fst snd].
  rewrite app_nil_r, <- !app_assoc. reflexivity.
Qed.

Lemma resolve_events (s : World) :
  forall e, In e (trace (resolve tm fl s)) -> isResolution e = true.
Proof.
  unfold resolve, cmd.determineSession, cmd.IsInsideTmux,
    cmd.GetCurrentContext, cmd.SessionExists, cmd.ListWindows, bind, call, ret.
  destruct (tmux.IsInsideTmux tm s) as [[|] s1]; cbv beta iota zeta.
  - destruct (tmux.GetCurrentContext tm s1) as [[[[cs ci] pane] [e|]] s2];
      cbv beta iota zeta.
    + cbn. intros e0 [<- | [<- | []]]; reflexivity.
    + destruct (negb (String.eqb (sessionFlag fl) "")); cbv beta iota zeta;
        match goal with
        | |- context [tmux.SessionExists tm ?n ?w] =>
            destruct (tmux.SessionExists tm n w) as [[|] s3]
        end; cbn [negb]; cbv beta iota zeta;
        try match goal with
        | |- context [tmux.ListWindows tm ?n ?w] =>
            destruct (tmux.ListWindows tm n w) as [[windows [e|]] s4]
        end; cbn;
        intros e0 Hin;
        repeat (destruct Hin as [<- | Hin]; [reflexivity|]); destruct Hin.
  - destruct (String.eqb (sessionFlag fl) ""); cbv beta iota zeta.
    + cbn. intros e0 [<- | []]; reflexivity.
    + match goal with
      | |- context [tmux.SessionExists tm ?n ?w] =>
          destruct (tmux.SessionExists tm n w) as [[|] s3]
      end; cbn [negb]; cbv beta iota zeta;
      try match goal with
      | |- context [tmux.ListWindows tm ?n ?w] =>
          destruct (tmux.ListWindows tm n w) as [[windows [e|]] s4]
      end; cbn;
      intros e0 Hin;
      repeat (destruct Hin as [<- | Hin]; [reflexivity|]); destruct Hin.
Qed.

Lemma report_value (c : Counters) (s : World) :
  value (cmd.report c s) =
  if failed c >? 0
  then Some (Errorf "%d message(s) failed" [AInt (failed c)])
  else None.
Proof.
  unfold cmd.report, cmd.Printf, emit, bind, ret.
  destruct (failed c >? 0); cbn [orb]; [reflexivity|].
  destruct (add64 (skippedTyping c) (skippedNoClaude c) >? 0); reflexivity.
Qed.

Lemma report_trace (c : Counters) (s : World) :
  trace (cmd.report c s) =
  if (failed c >? 0) || (add64 (skippedTyping c) (skippedNoClaude c) >? 0)
  then [EPrintf Stdout "%s\n" [AStr (String.concat ", " (cmd.tallyParts c))]]
  else [EPrintf Stdout "Queued to %d window(s)\n" [AInt (succeeded c)]].
Proof.
  unfold cmd.report, cmd.Printf, emit, bind, ret.
  destruct (failed c >? 0); cbn [orb]; [reflexivity|].
  destruct (add64 (skippedTyping c) (skippedNoClaude c) >? 0); reflexivity.
Qed.

Lemma afterResolve_deliver (session message : string) (targets : list Window)
    (s : World) :
  targets <> [] -> dryRunFlag fl = false ->
  cmd.afterResolve tm fl session message targets s =
  (value (cmd.report
            (value (cmd.deliver tm fl session message targets zeroCounters s))
            (world (cmd.deliver tm fl session message targets zeroCounters s))),
   world (cmd.report
            (value (cmd.deliver tm fl session message targets zeroCounters s))
            (world (cmd.deliver tm fl session message targets zeroCounters s))),
   trace (cmd.deliver tm fl session message targets zeroCounters s)
   ++ trace (cmd.report
               (value (cmd.deliver tm fl session message targets zeroCounters s))
               (world (cmd.deliver tm fl session message targets zeroCounters s)))).
Proof.
  intros Hne Hdry. unfold cmd.afterResolve.
  destruct targets as [|w rest]; [congruence|].
  cbn [List.length Nat.eqb]. rewrite Hdry. apply run_bind.
Qed.

End Phases.

(** ** The delivery executor *)

(** C2.  One turn of the delivery loop records exactly the outcome the rule
    gives on the answers of the collaborators: skipped-no-agent when [--any]
    is off and the agent check, made at delivery time, rejects the window
    (then nothing is probed and nothing is sent); else deferred-busy when
    [--force] is off and the pending-input check answers busy after its three
    probes (then nothing is sent); else sent or failed, by the result of the
    one send.  For three targets of which the first is sent to, the send to
    the second fails and the third is busy at every probe, the counters are
    succeeded 1, failed 1, deferred 1, and the run ends with an error. *)
Theorem delivery_outcome_rule :
  forall (World : Type) (tm : tmux.Interface World) (fl : Flags)
         (session message : string) (w : Window) (c : Counters) (s : World),
    let target := targetOf session w in
    let agent := tmux.IsClaudeRunning tm w s in
    let s1 := if anyFlag fl then s else snd agent in
    let busy := cmd.pendingInput tm target s1 in
    let s2 := if forceFlag fl then s1 else world busy in
    let send := tmux.AddMessage tm target message s2 in
    let o := specOutcome (negb (anyFlag fl)) (fst agent) (forceFlag fl)
               (value busy) (fst send) in
    let x := cmd.deliverOne tm fl session message w c s in
    value x = tally o c
    /\ sends (trace x) = sendsOf o
    /\ failedSends (trace x) = failuresOf o
    /\ (o = SkippedNoAgent -> probes (trace x) = 0%nat)
    /\ (o = DeferredBusy -> probes (trace x) = 3%nat)
    /\ (forall tg m r, In (EAddMessage tg m r) (trace x) ->
          tg = target /\ m = message
          /\ match r with None => o = Sent | Some e => o = Failed e end)
    /\ value (cmd.deliver Scripted.impl Scripted.defaultFlags "work" "done"
                [Scripted.wa; Scripted.wb; Scripted.wc] zeroCounters
                Scripted.mixed)
       = mkCounters 1 1 1 0
    /\ filter isSend
         (trace (cmd.deliver Scripted.impl Scripted.defaultFlags "work" "done"
                   [Scripted.wa; Scripted.wb; Scripted.wc] zeroCounters
                   Scripted.mixed))
       = [EAddMessage "work:1" "done" None;
          EAddMessage "work:2" "done" (Some (ExternalError "can't find pane"))]
    /\ value (cmd.runAdd Scripted.impl Scripted.defaultFlags ["done"]
                Scripted.mixed)
       = Some (Errorf "%d message(s) failed" [AInt 1]).
Proof.
  intros World tm fl session message w c s target agent s1 busy s2 send o x.
  destruct (deliverOne_rule tm fl session message w c s) as (Hd & Hv).
  change (ruleOutcome tm fl session message w s) with o in Hd, Hv.
  fold x in Hd, Hv.
  destruct (delivery_counts _ _ _ _ _ _ _ _ Hd) as (Hs & Hf & Hskip & Hbusy).
  split; [exact Hv|]. split; [exact Hs|]. split; [exact Hf|].
  split; [intros Ho; apply Hskip, Ho|].
  split; [intros Ho; apply Hbusy, Ho|].
  split.
  - intros tg m r Hin.
    destruct (delivery_send _ _ _ _ _ _ _ _ Hd _ _ _ Hin) as (H1 & H2 & _ & H3).
    repeat split; assumption.
  - repeat split; vm_compute; reflexivity.
Qed.

(** A use of C2: the turn for "work:3", where the user keeps typing. *)
Lemma delivery_outcome_rule_witness :
  value (cmd.deliverOne Scripted.impl Scripted.defaultFlags "work" "done"
           Scripted.wc zeroCounters Scripted.mixed)
  = tally DeferredBusy zeroCounters
  /\ probes (trace (cmd.deliverOne Scripted.impl Scripted.defaultFlags "work"
                      "done" Scripted.wc zeroCounters Scripted.mixed))
     = 3%nat.
Proof.
  pose proof (delivery_outcome_rule Scripted.World Scripted.impl
                Scripted.defaultFlags "work" "done" Scripted.wc zeroCounters
                Scripted.mixed) as H.
  cbv zeta in H.
  destruct H as (Hv & _ & _ & _ & Hb & _).
  split; [exact Hv | apply Hb; reflexivity].
Defined.

(** ** The counters *)

(** C10.  After the delivery loop the four counters add up to the number of
    targets (a Go slice has at most [MaxInt] elements, so no counter wraps
    around), and each turn of the loop raises exactly one of the four by one
    and leaves the other three as they are. *)
Theorem counters_partition_targets :
  forall (World : Type) (tm : tmux.Interface World) (fl : Flags)
         (session message : string) (targets : list Window) (s : World),
    Z.of_nat (List.length targets) <= MaxInt ->
    let c := value (cmd.deliver tm fl session message targets zeroCounters s) in
    succeeded c + failed c + skippedTyping c + skippedNoClaude c
      = Z.of_nat (List.length targets)
    /\ nonneg c
    /\ (forall (w : Window) (c0 : Counters) (s0 : World),
          nonneg c0 -> total c0 < MaxInt ->
          bumps c0 (value (cmd.deliverOne tm fl session message w c0 s0))).
Proof.
  intros World tm fl session message targets s Hlen c.
  assert (H0 : nonneg zeroCounters) by (unfold nonneg; cbn; lia).
  destruct (deliver_counts tm fl session message targets zeroCounters s H0)
    as (Hn & Ht & _); [change (total zeroCounters) with 0; lia|].
  change (total zeroCounters) with 0 in Ht.
  fold c in Hn, Ht.
  split; [exact Ht|]. split; [exact Hn|].
  intros w c0 s0 (H1 & H2 & H3 & H4) Hroom.
  destruct (deliverOne_rule tm fl session message w c0 s0) as (_ & Hv).
  rewrite Hv. unfold total in Hroom. unfold bumps.
  destruct (ruleOutcome tm fl session message w s0);
    cbn [tally succeeded failed skippedTyping skippedNoClaude];
    rewrite incr_small by lia; tauto.
Qed.

(** A use of C10: the three targets of the scripted session. *)
Lemma counters_partition_targets_witness :
  succeeded (value (cmd.deliver Scripted.impl Scripted.defaultFlags "work"
               "done" [Scripted.wa; Scripted.wb; Scripted.wc] zeroCounters
               Scripted.mixed))
  + failed (value (cmd.deliver Scripted.impl Scripted.defaultFlags "work"
               "done" [Scripted.wa; Scripted.wb; Scripted.wc] zeroCounters
               Scripted.mixed))
  + skippedTyping (value (cmd.deliver Scripted.impl Scripted.defaultFlags "work"
               "done" [Scripted.wa; Scripted.wb; Scripted.wc] zeroCounters
               Scripted.mixed))
  + skippedNoClaude (value (cmd.deliver Scripted.impl Scripted.defaultFlags
               "work" "done" [Scripted.wa; Scripted.wb; Scripted.wc]
               zeroCounters Scripted.mixed))
  = 3.
Proof.
  apply (counters_partition_targets Scripted.World Scripted.impl
           Scripted.defaultFlags "work" "done"
           [Scripted.wa; Scripted.wb; Scripted.wc] Scripted.mixed).
  vm_compute. discriminate.
Defined.

(** ** The result of a run *)

Lemma tallyParts_idle (c : Counters) :
  succeeded c = 0 -> failed c = 0 -> cmd.tallyParts c = idleParts c.
Proof.
  intros Hs Hf. unfold cmd.tallyParts, idleParts. rewrite Hs, Hf.
  change (0 >? 0) with false. cbv iota.
  destruct (skippedNoClaude c >? 0); destruct (skippedTyping c >? 0);
    reflexivity.
Qed.

Lemma failed_send_event (e : Event) :
  isFailedSend e = true <-> exists tg m err, e = EAddMessage tg m (Some err).
Proof.
  split.
  - destruct e as [| | | | | | |tg m [err|]| |]; try discriminate.
    intros _. exists tg, m, err. reflexivity.
  - intros (tg & m & err & ->). reflexivity.
Qed.

(** A run that reaches the delivery loop, summed up: the counters it reports
    count the sends of its trace, its result is an error exactly when the
    failed counter is positive, and its last line is the report. *)
Lemma delivery_run (World : Type) (tm : tmux.Interface World) (fl : Flags)
    (args : list string) (s : World) (session : string)
    (targets : list Window) :
  value (resolve tm fl s) = inr (session, targets) ->
  targets <> [] ->
  dryRunFlag fl = false ->
  Z.of_nat (List.length targets) <= MaxInt ->
  exists (c : Counters) (t0 : list Event),
    nonneg c
    /\ total c = Z.of_nat (List.length targets)
    /\ failed c = Z.of_nat (failedSends (trace (cmd.runAdd tm fl args s)))
    /\ succeeded c
       = Z.of_nat (sends (trace (cmd.runAdd tm fl args s)))
         - Z.of_nat (failedSends (trace (cmd.runAdd tm fl args s)))
    /\ value (cmd.runAdd tm fl args s)
       = (if failed c >? 0
          then Some (Errorf "%d message(s) failed" [AInt (failed c)])
          else None)
    /\ trace (cmd.runAdd tm fl args s)
       = t0 ++ (if (failed c >? 0)
                   || (add64 (skippedTyping c) (skippedNoClaude c) >? 0)
                then [EPrintf Stdout "%s\n"
                        [AStr (String.concat ", " (cmd.tallyParts c))]]
                else [EPrintf Stdout "Queued to %d window(s)\n"
                        [AInt (succeeded c)]]).
Proof.
  intros Hres Hne Hdry Hlen.
  assert (H0 : nonneg zeroCounters) by (unfold nonneg; cbn; lia).
  destruct (deliver_counts tm fl session (String.concat " " args) targets
              zeroCounters (world (resolve tm fl s)) H0)
    as (Hn & Ht & Hf & Hs); [change (total zeroCounters) with 0; lia|].
  change (total zeroCounters) with 0 in Ht.
  change (failed zeroCounters) with 0 in Hf.
  change (succeeded zeroCounters) with 0 in Hs.
  rewrite runAdd_resolve, Hres.
  rewrite (afterResolve_deliver tm fl _ _ _ _ Hne Hdry).
  cbn [value world trace fst snd].
  set (D := cmd.deliver tm fl session (String.concat " " args) targets
              zeroCounters (world (resolve tm fl s))) in *.
  exists (value D), (trace (resolve tm fl s) ++ trace D).
  assert (Hcount : sends (trace (resolve tm fl s)) = 0%nat
                   /\ failedSends (trace (resolve tm fl s)) = 0%nat).
  { split; apply count_none; intros e He; apply resolve_events in He;
      destruct e; try discriminate; reflexivity. }
  assert (Hrep : sends (trace (cmd.report (value D) (world D))) = 0%nat
                 /\ failedSends (trace (cmd.report (value D) (world D)))
                    = 0%nat).
  { rewrite report_trace.
    destruct ((failed (value D) >? 0)
              || (add64 (skippedTyping (value D)) (skippedNoClaude (value D))
                  >? 0)); split; reflexivity. }
  destruct Hcount as (C1 & C2). destruct Hrep as (R1 & R2).
  rewrite !sends_app, !failedSends_app, C1, C2, R1, R2.
  split; [exact Hn|]. split; [lia|]. split; [lia|]. split; [lia|].
  split; [apply report_value|].
  rewrite report_trace, app_assoc. reflexivity.
Qed.

(** C4.  A run that reaches the delivery loop ends with an error exactly when
    its trace holds a send that failed, and then the process exits with
    status 1.  A run in which no send was attempted, every target being
    skipped or deferred, ends without error, with exit status 0, after a tally
    line made of the skipped and deferred counts only. *)
Theorem run_fails_iff_a_send_failed :
  forall (World : Type) (tm : tmux.Interface World) (fl : Flags)
         (args : list string) (s : World) (session : string)
         (targets : list Window),
    value (resolve tm fl s) = inr (session, targets) ->
    targets <> [] ->
    dryRunFlag fl = false ->
    Z.of_nat (List.length targets) <= MaxInt ->
    let x := cmd.runAdd tm fl args s in
    (value x <> None <->
     exists tg m e, In (EAddMessage tg m (Some e)) (trace x))
    /\ (main_exit (value x) = 1 <->
        exists tg m e, In (EAddMessage tg m (Some e)) (trace x))
    /\ (sends (trace x) = 0%nat ->
        value x = None /\ main_exit (value x) = 0
        /\ exists c : Counters,
             succeeded c = 0 /\ failed c = 0
             /\ skippedTyping c + skippedNoClaude c
                = Z.of_nat (List.length targets)
             /\ exists t0,
                  trace x =
                  t0 ++ [EPrintf Stdout "%s\n"
                           [AStr (String.concat ", " (idleParts c))]]).
Proof.
  intros World tm fl args s session targets Hres Hne Hdry Hlen x.
  destruct (delivery_run World tm fl args s session targets Hres Hne Hdry Hlen)
    as (c & t0 & Hn & Ht & Hf & Hs & Hval & Htr).
  fold x in Hf, Hs, Hval, Htr.
  assert (Hfail : 0 < failed c <->
                  exists tg m e, In (EAddMessage tg m (Some e)) (trace x)).
  { rewrite Hf. split.
    - intros Hpos.
      destruct (count_pos isFailedSend (trace x)) as (e & He & Hfe);
        [unfold failedSends in Hpos; lia|].
      apply failed_send_event in Hfe as (tg & m & err & ->).
      exists tg, m, err. exact He.
    - intros (tg & m & err & Hin).
      pose proof (count_some isFailedSend _ _ Hin eq_refl) as Hpos.
      unfold failedSends. lia. }
  assert (Hsome : value x <> None <-> 0 < failed c).
  { rewrite Hval. destruct (Z.gtb_spec (failed c) 0) as [Hgt | Hle];
      split; intros Hyp; try lia; congruence. }
  split; [rewrite Hsome; exact Hfail|].
  split.
  { rewrite <- Hfail, <- Hsome.
    destruct (value x); cbn; split; intros Hyp; congruence. }
  intros Hnosend.
  destruct Hn as (N1 & N2 & N3 & N4).
  assert (Hfc : failed c = 0) by lia.
  assert (Hsc : succeeded c = 0) by lia.
  assert (Hsk : skippedTyping c + skippedNoClaude c
                = Z.of_nat (List.length targets))
    by (unfold total in Ht; lia).
  assert (Hnone : value x = None).
  { rewrite Hval, Hfc. reflexivity. }
  split; [exact Hnone|]. split; [rewrite Hnone; reflexivity|].
  exists c. split; [exact Hsc|]. split; [exact Hfc|]. split; [exact Hsk|].
  exists t0. rewrite Htr.
  rewrite add64_small by lia.
  replace (skippedTyping c + skippedNoClaude c >? 0) with true.
  - rewrite orb_true_r, tallyParts_idle by assumption. reflexivity.
  - symmetry. apply Z.gtb_lt. rewrite Hsk.
    destruct targets; [congruence | cbn [List.length]; lia].
Qed.

(** A use of C4: the scripted session, where the send to "work:2" fails. *)
Lemma run_fails_iff_a_send_failed_witness :
  value (cmd.runAdd Scripted.impl Scripted.defaultFlags ["done"] Scripted.mixed)
    <> None
  <-> exists tg m e,
        In (EAddMessage tg m (Some e))
           (trace (cmd.runAdd Scripted.impl Scripted.defaultFlags ["done"]
                     Scripted.mixed)).
Proof.
  apply (run_fails_iff_a_send_failed Scripted.World Scripted.impl
           Scripted.defaultFlags ["done"] Scripted.mixed "work"
           [Scripted.wa; Scripted.wb; Scripted.wc]).
  - vm_compute. reflexivity.
  - discriminate.
  - reflexivity.
  - vm_compute. discriminate.
Defined.

(** ** Errors of the pending-input probe *)

Lemma retryRun_probe_error (ans : bool * option error -> Prop)
    (target : string) (delay : Z) (n : nat) (busy : bool) (t : list Event) :
  (forall r, ans r -> snd r <> None -> fst r = false) ->
  retryRun ans target delay n busy t ->
  forall tg b e, In (EHasPendingInput tg (b, Some e)) t ->
    b = false /\ busy = false.
Proof.
  intros Hc.
  induction 1 as [n r Ha Hr | r Ha Hr | n r busy t Ha Hr Hrun IH];
    intros tg b e Hin.
  - destruct Hin as [Heq | []]. inversion Heq; subst.
    split; [exact Hr | reflexivity].
  - destruct Hin as [Heq | []]. inversion Heq; subst.
    assert (Hb : fst (b, Some e) = false) by (apply Hc; [exact Ha | discriminate]).
    congruence.
  - destruct Hin as [Heq | [Heq | Hin]].
    + inversion Heq; subst.
      assert (Hb : fst (b, Some e) = false)
        by (apply Hc; [exact Ha | discriminate]).
      congruence.
    + discriminate.
    + eapply IH; exact Hin.
Qed.

Lemma delivery_probe_error (World : Type) (tm : tmux.Interface World)
    (fl : Flags) (session message : string) (w : Window) (o : DeliveryOutcome)
    (t : list Event) :
  probeContract tm ->
  delivery tm fl session message w o t ->
  forall tg b e, In (EHasPendingInput tg (b, Some e)) t ->
    b = false
    /\ ((o = Sent
         /\ In (EAddMessage (targetOf session w) message None) t)
        \/ exists e', o = Failed e'
             /\ In (EAddMessage (targetOf session w) message (Some e')) t).
Proof.
  intros Hc.
  assert (Hpre : forall pre tg b e, agentCheck fl w pre ->
            ~ In (EHasPendingInput tg (b, Some e)) pre).
  { intros pre tg b e [Ha | Ha] Hin; cbn in Hin;
      [exact Hin | destruct Hin as [H | []]; discriminate]. }
  assert (Hbusy : forall busy t0 tg b e,
            busyCheck fl (answers tm (targetOf session w)) (targetOf session w)
              busy t0 ->
            In (EHasPendingInput tg (b, Some e)) t0 ->
            b = false /\ busy = false).
  { intros busy t0 tg b e [Hf | busy' t1 Hf Hrun] Hin; [destruct Hin|].
    eapply retryRun_probe_error; [|exact Hrun|exact Hin].
    intros r Hr. apply (Hc _ _ Hr). }
  destruct 1 as [Hany | pre t Hp Hb | pre t Hp Hb | pre t e0 Hp Hb];
    intros tg b e Hin.
  - destruct Hin as [H | [H | []]]; discriminate.
  - apply in_app_or in Hin as [Hin | Hin]; [elim (Hpre _ _ _ _ Hp Hin)|].
    apply in_app_or in Hin as [Hin | Hin].
    + destruct (Hbusy _ _ _ _ _ Hb Hin); discriminate.
    + destruct Hin as [H | []]; discriminate.
  - apply in_app_or in Hin as [Hin | Hin]; [elim (Hpre _ _ _ _ Hp Hin)|].
    apply in_app_or in Hin as [Hin | Hin].
    + destruct (Hbusy _ _ _ _ _ Hb Hin) as (Hfalse & _).
      split; [exact Hfalse|]. left. split; [reflexivity|].
      apply in_or_app; right. apply in_or_app; right. left; reflexivity.
    + destruct Hin as [H | []]; discriminate.
  - apply in_app_or in Hin as [Hin | Hin]; [elim (Hpre _ _ _ _ Hp Hin)|].
    apply in_app_or in Hin as [Hin | Hin].
    + destruct (Hbusy _ _ _ _ _ Hb Hin) as (Hfalse & _).
      split; [exact Hfalse|]. right. exists e0. split; [reflexivity|].
      apply in_or_app; right. apply in_or_app; right. left; reflexivity.
    + destruct Hin as [H | [H | []]]; discriminate.
Qed.

(** C5.  [runAdd] drops the error of a probe and keeps its boolean.  With a
    probe that answers [false] whenever it fails, a failed probe counts as
    "not busy": the pending-input check that saw it answers not busy, and the
    turn of the delivery loop that saw it does not defer the target; it makes
    the send, and records the target as sent or failed by the result of that
    send alone.  A run that reaches the delivery loop and in which no send
    fails ends without error, whatever its probes answered. *)
Theorem probe_error_is_not_busy :
  forall (World : Type) (tm : tmux.Interface World),
    probeContract tm ->
    (forall (target : string) (s : World) (tg : string) (b : bool) (e : error),
        In (EHasPendingInput tg (b, Some e))
           (trace (cmd.pendingInput tm target s)) ->
        value (cmd.pendingInput tm target s) = false)
    /\ (forall (fl : Flags) (session message : string) (w : Window)
               (c : Counters) (s : World) (tg : string) (b : bool) (e : error),
          let x := cmd.deliverOne tm fl session message w c s in
          In (EHasPendingInput tg (b, Some e)) (trace x) ->
          skippedTyping (value x) = skippedTyping c
          /\ skippedNoClaude (value x) = skippedNoClaude c
          /\ ((value x = tally Sent c
               /\ In (EAddMessage (targetOf session w) message None) (trace x))
              \/ exists e',
                   value x = tally (Failed e') c
                   /\ In (EAddMessage (targetOf session w) message (Some e'))
                         (trace x)))
    /\ (forall (fl : Flags) (args : list string) (s : World)
               (session : string) (targets : list Window),
          value (resolve tm fl s) = inr (session, targets) ->
          targets <> [] ->
          dryRunFlag fl = false ->
          Z.of_nat (List.length targets) <= MaxInt ->
          failedSends (trace (cmd.runAdd tm fl args s)) = 0%nat ->
          value (cmd.runAdd tm fl args s) = None).
Proof.
  intros World tm Hc. split; [|split].
  - intros target s tg b e Hin.
    pose proof (pendingInput_retryRun World tm target s) as Hrun.
    eapply retryRun_probe_error; [|exact Hrun|exact Hin].
    intros r Hr. apply (Hc _ _ Hr).
  - intros fl session message w c s tg b e x Hin.
    destruct (deliverOne_rule tm fl session message w c s) as (Hd & Hv).
    fold x in Hd, Hv.
    destruct (delivery_probe_error _ _ _ _ _ _ _ _ Hc Hd _ _ _ Hin)
      as (_ & [(Ho & Hsend) | (e' & Ho & Hsend)]);
      rewrite Ho in Hv; rewrite Hv.
    + repeat split. left. split; [reflexivity | exact Hsend].
    + repeat split. right. exists e'. split; [reflexivity | exact Hsend].
  - intros fl args s session targets Hres Hne Hdry Hlen Hnofail.
    destruct (delivery_run World tm fl args s session targets Hres Hne Hdry
                Hlen) as (c & t0 & _ & _ & Hf & _ & Hval & _).
    rewrite Hval, Hf, Hnofail. reflexivity.
Qed.

Lemma scripted_probeContract : probeContract Scripted.impl.
Proof.
  intros target r (s & ->) Herr. cbn in *.
  destruct (Scripted.nextProbe target (Scripted.typing s)) as [[b [e|]] rest];
    cbn in *; [reflexivity | congruence].
Qed.

(** A use of C5: the second probe of "work:1" fails. *)
Lemma probe_error_is_not_busy_witness :
  value (cmd.pendingInput Scripted.impl "work:1" Scripted.flaky) = false.
Proof.
  apply (proj1 (probe_error_is_not_busy Scripted.World Scripted.impl
                  scripted_probeContract)
           "work:1" Scripted.flaky "work:1" false
           (ExternalError "capture failed")).
  vm_compute. right; right; left; reflexivity.
Defined.

(** ** Agent windows and the target list *)

(** C1, as stated, fails.  From window 0 ("main", running bash) of the
    scripted session "work", with [--all] and without [--any], the resolved
    target list holds window 0, which the agent check rejects: a dry run lists
    it, without the agent mark, and a real run hands it to the delivery loop,
    which skips it.  So it is not true that every resolved target is an agent
    window when [--any] is off. *)
Lemma resolved_targets_not_only_agents :
  anyFlag (mkFlags [] "" "" false true true false) = false
  /\ value (resolve Scripted.impl (mkFlags [] "" "" false true true false)
             Scripted.work)
     = inr ("work", [Scripted.w0; Scripted.w1; Scripted.w2])
  /\ tmux.IsClaudeRunning Scripted.impl Scripted.w0 Scripted.work
     = (false, Scripted.work)
  /\ In (EPrintf Stdout "  %d: %s (%s)%s\n"
           [AInt 0; AStr "main"; AStr "bash"; AStr ""])
        (trace (cmd.runAdd Scripted.impl
                  (mkFlags [] "" "" false true true false) ["done"]
                  Scripted.work))
  /\ In (noClaudeNote Scripted.w0)
        (trace (cmd.runAdd Scripted.impl
                  (mkFlags [] "" "" false true false false) ["done"]
                  Scripted.work))
  /\ ~ (forall (World : Type) (tm : tmux.Interface World) (fl : Flags)
               (s : World) (session : string) (targets : list Window)
               (w : Window),
          anyFlag fl = false ->
          value (resolve tm fl s) = inr (session, targets) ->
          In w targets ->
          fst (tmux.IsClaudeRunning tm w (world (resolve tm fl s))) = true).
Proof.
  split; [reflexivity|].
  split; [vm_compute; reflexivity|].
  split; [reflexivity|].
  split; [vm_compute; tauto|].
  split; [vm_compute; tauto|].
  intros H.
  specialize (H Scripted.World Scripted.impl
                (mkFlags [] "" "" false true true false) Scripted.work
                "work" [Scripted.w0; Scripted.w1; Scripted.w2] Scripted.w0
                eq_refl eq_refl (or_introl eq_refl)).
  vm_compute in H. discriminate.
Qed.

(** C1, amended.  The filter chain does not consult the agent check: it
    keeps a window of the session exactly when the window passes the
    self-exclusion, explicit-list and pattern stages.  Without [--any] the
    agent check is made by the delivery loop: a target it rejects is counted
    as skipped and nothing is probed or sent for it, and every send of the
    loop goes to a target that the agent check has just accepted. *)
Theorem only_agent_windows_are_sent_to :
  forall (World : Type) (tm : tmux.Interface World) (fl : Flags),
    (forall (cwi : Z) (windows : list Window) (w : Window),
        In w (cmd.filterWindows tm fl cwi windows []) <->
        In w windows /\ ~ selfExcluded fl cwi w
        /\ (windowFlags fl = [] \/ listed fl w) /\ patternOk tm fl w)
    /\ (anyFlag fl = false ->
        forall (session message : string) (w : Window) (c : Counters)
               (s : World),
          fst (tmux.IsClaudeRunning tm w s) = false ->
          value (cmd.deliverOne tm fl session message w c s)
            = tally SkippedNoAgent c
          /\ sends (trace (cmd.deliverOne tm fl session message w c s)) = 0%nat
          /\ probes (trace (cmd.deliverOne tm fl session message w c s))
             = 0%nat)
    /\ (anyFlag fl = false ->
        forall (session message : string) (targets : list Window)
               (c : Counters) (s : World) (tg m : string) (r : option error),
          In (EAddMessage tg m r)
             (trace (cmd.deliver tm fl session message targets c s)) ->
          exists w, In w targets /\ tg = targetOf session w /\ m = message
            /\ In (EIsClaudeRunning w true)
                  (trace (cmd.deliver tm fl session message targets c s))).
Proof.
  intros World tm fl. split; [|split].
  - intros cwi windows w. rewrite in_filterWindows, keepWindow_spec. tauto.
  - intros Hany session message w c s Hno.
    destruct (deliverOne_rule tm fl session message w c s) as (Hd & Hv).
    assert (Ho : ruleOutcome tm fl session message w s = SkippedNoAgent).
    { unfold ruleOutcome, specOutcome. rewrite Hany, Hno. reflexivity. }
    rewrite Ho in Hd, Hv.
    destruct (delivery_counts _ _ _ _ _ _ _ _ Hd) as (Hs & _ & Hskip & _).
    split; [exact Hv|]. split; [exact Hs|]. apply Hskip. reflexivity.
  - intros Hany session message targets c s tg m r Hin.
    destruct (deliver_send tm fl session message targets c s tg m r Hin)
      as (w & Hw & Htg & Hm & Hagent).
    exists w. repeat split; try assumption. apply Hagent, Hany.
Qed.

(** A use of C1, amended: the send to "work:1" in the scripted session. *)
Lemma only_agent_windows_are_sent_to_witness :
  exists w, In w [Scripted.w0; Scripted.w1; Scripted.w2]
    /\ "work:1" = targetOf "work" w /\ "done" = "done"
    /\ In (EIsClaudeRunning w true)
          (trace (cmd.deliver Scripted.impl Scripted.defaultFlags "work" "done"
                    [Scripted.w0; Scripted.w1; Scripted.w2] zeroCounters
                    Scripted.work)).
Proof.
  apply (proj2 (proj2 (only_agent_windows_are_sent_to Scripted.World
                         Scripted.impl Scripted.defaultFlags))
           eq_refl "work" "done" [Scripted.w0; Scripted.w1; Scripted.w2]
           zeroCounters Scripted.work "work:1" "done" None).
  vm_compute. tauto.
Defined.

(** ** Runs without delivery *)

Lemma quiet_counts (t : list Event) :
  quiet t -> sends t = 0%nat /\ probes t = 0%nat /\ sleeps t = 0%nat.
Proof.
  intros H. repeat split; apply count_none; intros e He;
    destruct (H e He) as (H1 & H2 & H3); assumption.
Qed.

Lemma quiet_app (a b : list Event) : quiet a -> quiet b -> quiet (a ++ b).
Proof.
  intros Ha Hb e He. apply in_app_or in He as [He | He]; auto.
Qed.

Lemma quiet_resolution (t : list Event) :
  (forall e, In e t -> isResolution e = true) -> quiet t.
Proof.
  intros H e He. specialize (H e He).
  destruct e; try discriminate; repeat split.
Qed.

Lemma quiet_render (l : list (Window * bool)) : quiet (render l).
Proof.
  induction l as [|[w b] rest IH]; intros e He; [destruct He|].
  destruct He as [<- | [<- | He]]; [repeat split | repeat split | auto].
Qed.

(** The lines of a dry run are the rendering of the targets, each with an
    answer of the agent check. *)
Lemma dryRunLines_render (World : Type) (tm : tmux.Interface World)
    (targets : list Window) :
  forall s : World,
    exists verdicts : list (Window * bool),
      map fst verdicts = targets
      /\ trace (cmd.dryRunLines tm targets s) = render verdicts
      /\ forall w b, In (w, b) verdicts ->
           exists s', b = fst (tmux.IsClaudeRunning tm w s').
Proof.
  induction targets as [|w rest IH]; intros s.
  - exists []. repeat split. intros w b [].
  - cbn [cmd.dryRunLines].
    unfold cmd.IsClaudeRunning, cmd.Printf, emit.
    rewrite !run_bind, run_call. cbn [value world trace fst snd].
    destruct (IH (snd (tmux.IsClaudeRunning tm w s)))
      as (verdicts & Hmap & Htr & Hans).
    exists ((w, fst (tmux.IsClaudeRunning tm w s)) :: verdicts).
    split; [cbn; now rewrite Hmap|]. split.
    + cbn [render app]. rewrite <- Htr. reflexivity.
    + intros w' b [Heq | Hin].
      * inversion Heq; subst. eexists; reflexivity.
      * apply Hans, Hin.
Qed.

Lemma dryRun_run (World : Type) (tm : tmux.Interface World)
    (session message : string) (targets : list Window) (s : World) :
  value (cmd.dryRun tm session message targets s) = None
  /\ trace (cmd.dryRun tm session message targets s)
     = EPrintf Stdout "Would queue message to %d window(s) in session %q:\n"
         [AInt (Z.of_nat (List.length targets)); AStr session]
       :: trace (cmd.dryRunLines tm targets s)
       ++ [EPrintf Stdout "\nMessage: %s\n" [AStr message]].
Proof.
  unfold cmd.dryRun, cmd.Printf, emit.
  rewrite !run_bind. cbn [value world trace fst snd ret app].
  rewrite ?app_nil_r. split; reflexivity.
Qed.

(** C8.  When the filter chain leaves no target, the run writes "No windows
    to send message to" to stderr and ends without error (exit status 0);
    beside that line its trace holds only the four questions of resolution:
    no send, no probe, no delay, no agent check and no dry-run line. *)
Theorem empty_target_list_is_success :
  forall (World : Type) (tm : tmux.Interface World) (fl : Flags)
         (args : list string) (s : World) (session : string),
    value (resolve tm fl s) = inr (session, []) ->
    let x := cmd.runAdd tm fl args s in
    x = (None, world (resolve tm fl s),
         trace (resolve tm fl s)
         ++ [EPrintln Stderr [AStr "No windows to send message to"]])
    /\ main_exit (value x) = 0
    /\ (forall e, In e (trace x) ->
          isResolution e = true
          \/ e = EPrintln Stderr [AStr "No windows to send message to"])
    /\ sends (trace x) = 0%nat /\ probes (trace x) = 0%nat
    /\ sleeps (trace x) = 0%nat.
Proof.
  intros World tm fl args s session Hres x.
  assert (Hx : x = (None, world (resolve tm fl s),
                    trace (resolve tm fl s)
                    ++ [EPrintln Stderr [AStr "No windows to send message to"]])).
  { unfold x. rewrite runAdd_resolve, Hres. reflexivity. }
  assert (Hev : forall e, In e (trace x) ->
            isResolution e = true
            \/ e = EPrintln Stderr [AStr "No windows to send message to"]).
  { rewrite Hx. cbn [trace snd]. intros e He.
    apply in_app_or in He as [He | [<- | []]].
    - left. apply (resolve_events tm fl s), He.
    - right. reflexivity. }
  split; [exact Hx|]. split; [rewrite Hx; reflexivity|].
  split; [exact Hev|].
  apply quiet_counts. intros e He.
  destruct (Hev e He) as [H | ->]; [|repeat split].
  destruct e; try discriminate; repeat split.
Qed.

(** A use of C8: the list names a window that the session does not have. *)
Lemma empty_target_list_is_success_witness :
  cmd.runAdd Scripted.impl (mkFlags ["nowhere"] "" "" false false false false)
    ["done"] Scripted.work
  = (None,
     world (resolve Scripted.impl
              (mkFlags ["nowhere"] "" "" false false false false) Scripted.work),
     trace (resolve Scripted.impl
              (mkFlags ["nowhere"] "" "" false false false false) Scripted.work)
     ++ [EPrintln Stderr [AStr "No windows to send message to"]]).
Proof.
  apply (empty_target_list_is_success Scripted.World Scripted.impl
           (mkFlags ["nowhere"] "" "" false false false false) ["done"]
           Scripted.work "work").
  vm_compute. reflexivity.
Defined.

(** C9.  With [--dry-run] no run sends, probes or waits.  A dry run that has
    targets ends without error; after resolution its trace is the heading,
    then for each target, in order, one agent check and the line of the
    target, marked " [claude]" exactly when that check accepted it, then the
    message line. *)
Theorem dry_run_has_no_side_effects :
  forall (World : Type) (tm : tmux.Interface World) (fl : Flags)
         (args : list string) (s : World),
    dryRunFlag fl = true ->
    let x := cmd.runAdd tm fl args s in
    quiet (trace x)
    /\ sends (trace x) = 0%nat /\ probes (trace x) = 0%nat
    /\ sleeps (trace x) = 0%nat
    /\ (forall (session : string) (targets : list Window),
          value (resolve tm fl s) = inr (session, targets) ->
          targets <> [] ->
          value x = None /\ main_exit (value x) = 0
          /\ exists verdicts : list (Window * bool),
               map fst verdicts = targets
               /\ (forall w b, In (w, b) verdicts ->
                     exists s', b = fst (tmux.IsClaudeRunning tm w s'))
               /\ trace x =
                  trace (resolve tm fl s)
                  ++ EPrintf Stdout
                       "Would queue message to %d window(s) in session %q:\n"
                       [AInt (Z.of_nat (List.length targets)); AStr session]
                     :: render verdicts
                     ++ [EPrintf Stdout "\nMessage: %s\n"
                           [AStr (String.concat " " args)]]).
Proof.
  intros World tm fl args s Hdry x.
  pose proof (quiet_resolution _ (resolve_events tm fl s)) as Hq.
  assert (Hshape : forall session targets,
            value (resolve tm fl s) = inr (session, targets) ->
            targets <> [] ->
            value x = None
            /\ exists verdicts : list (Window * bool),
                 map fst verdicts = targets
                 /\ (forall w b, In (w, b) verdicts ->
                       exists s', b = fst (tmux.IsClaudeRunning tm w s'))
                 /\ trace x =
                    trace (resolve tm fl s)
                    ++ EPrintf Stdout
                         "Would queue message to %d window(s) in session %q:\n"
                         [AInt (Z.of_nat (List.length targets)); AStr session]
                       :: render verdicts
                       ++ [EPrintf Stdout "\nMessage: %s\n"
                             [AStr (String.concat " " args)]]).
  { intros session targets Hres Hne.
    unfold x. rewrite runAdd_resolve, Hres. cbn [value world trace fst snd].
    unfold cmd.afterResolve.
    destruct targets as [|w rest]; [congruence|].
    cbn [List.length Nat.eqb]. rewrite Hdry.
    destruct (dryRun_run World tm session (String.concat " " args) (w :: rest)
                (world (resolve tm fl s))) as (Hv & Ht).
    destruct (dryRunLines_render World tm (w :: rest) (world (resolve tm fl s)))
      as (verdicts & Hmap & Htr & Hans).
    split; [exact Hv|].
    exists verdicts. split; [exact Hmap|]. split; [exact Hans|].
    rewrite Ht, Htr. reflexivity. }
  assert (Hquiet : quiet (trace x)).
  { destruct (value (resolve tm fl s)) as [e | [session targets]] eqn:Hres.
    - unfold x. rewrite runAdd_resolve, Hres. exact Hq.
    - destruct targets as [|w rest].
      + unfold x. rewrite runAdd_resolve, Hres. cbn [trace snd].
        apply quiet_app; [exact Hq|].
        intros e [<- | []]. repeat split.
      + destruct (Hshape session (w :: rest) eq_refl) as (_ & v & _ & _ & Ht);
          [discriminate|].
        rewrite Ht. apply quiet_app; [exact Hq|].
        intros e [<- | He]; [repeat split|].
        apply in_app_or in He as [He | [<- | []]];
          [apply (quiet_render v), He | repeat split]. }
  split; [exact Hquiet|].
  destruct (quiet_counts _ Hquiet) as (H1 & H2 & H3).
  split; [exact H1|]. split; [exact H2|]. split; [exact H3|].
  intros session targets Hres Hne.
  destruct (Hshape session targets Hres Hne) as (Hv & Hrest).
  split; [exact Hv|]. split; [rewrite Hv; reflexivity | exact Hrest].
Qed.

(** A use of C9: a dry run in the scripted session. *)
Lemma dry_run_has_no_side_effects_witness :
  quiet (trace (cmd.runAdd Scripted.impl
                  (mkFlags [] "" "" false false true false) ["done"]
                  Scripted.work)).
Proof.
  apply (dry_run_has_no_side_effects Scripted.World Scripted.impl
           (mkFlags [] "" "" false false true false) ["done"] Scripted.work).
  reflexivity.
Defined.

(** * Further properties of the code *)

(** ** Decimal numerals and target strings *)

Lemma itoa_parse (z : Z) :
  NilZero.int_of_string (itoa z) = Some (Z.to_int z).
Proof.
  unfold itoa. apply NilZero.isi; destruct z; cbn; try discriminate;
    intros H; inversion H as [Hp];
    exact (DecimalPos.Unsigned.to_uint_nonnil _ Hp).
Qed.

Lemma itoa_inj (a b : Z) : itoa a = itoa b -> a = b.
Proof.
  intros H. apply DecimalZ.to_int_inj.
  pose proof (itoa_parse a) as Ha. rewrite H, itoa_parse in Ha.
  congruence.
Qed.

Lemma append_inj_l (p a b : string) : (p ++ a)%string = (p ++ b)%string -> a = b.
Proof.
  induction p as [|c p IH]; cbn; intros H; [exact H|].
  inversion H. auto.
Qed.

Lemma targetOf_inj (session : string) (w w' : Window) :
  targetOf session w = targetOf session w' -> Index w = Index w'.
Proof.
  unfold targetOf. intros H.
  apply append_inj_l in H. apply (append_inj_l ":") in H.
  apply itoa_inj, H.
Qed.

(** X1.  The decimal numeral of an index reads back as that index, so two
    indices with the same numeral are equal, and within a session the target
    string "session:index" of a window names one index only. *)
Theorem target_names_one_index :
  forall (session : string) (w w' : Window) (z : Z),
    option_map Z.of_int (NilZero.int_of_string (itoa z)) = Some z
    /\ (itoa (Index w) = itoa (Index w') <-> Index w = Index w')
    /\ (targetOf session w = targetOf session w' <-> Index w = Index w').
Proof.
  intros session w w' z. split; [|split].
  - rewrite itoa_parse. cbn. now rewrite DecimalZ.of_to.
  - split; [apply itoa_inj | intros ->; reflexivity].
  - split; [apply targetOf_inj | unfold targetOf; intros ->; reflexivity].
Qed.

(** ** More on the filter chain *)

Lemma subseq_refl {A : Type} (l : list A) : subseq l l.
Proof. induction l; constructor; assumption. Qed.

Lemma subseq_filter {A : Type} (f : A -> bool) (l : list A) :
  subseq (filter f l) l.
Proof.
  induction l as [|x l IH]; cbn; [constructor|].
  destruct (f x); constructor; exact IH.
Qed.

Lemma subseq_In {A : Type} (l1 l2 : list A) :
  subseq l1 l2 -> forall x, In x l1 -> In x l2.
Proof.
  induction 1 as [|x l1 l2 H IH|x l1 l2 H IH]; intros y Hy.
  - destruct Hy.
  - right. apply IH, Hy.
  - destruct Hy as [-> | Hy]; [left; reflexivity | right; apply IH, Hy].
Qed.

Lemma subseq_length {A : Type} (l1 l2 : list A) :
  subseq l1 l2 -> (List.length l1 <= List.length l2)%nat.
Proof. induction 1; cbn; lia. Qed.

Lemma subseq_NoDup {A : Type} (l1 l2 : list A) :
  subseq l1 l2 -> NoDup l2 -> NoDup l1.
Proof.
  induction 1 as [|x l1 l2 H IH|x l1 l2 H IH]; intros Hnd.
  - constructor.
  - inversion Hnd; auto.
  - inversion Hnd as [|? ? Hx Hl2]; subst. constructor; [|auto].
    intros Hin. apply Hx. eapply subseq_In; eassumption.
Qed.

Lemma subseq_map {A B : Type} (f : A -> B) (l1 l2 : list A) :
  subseq l1 l2 -> subseq (map f l1) (map f l2).
Proof. induction 1; cbn; constructor; assumption. Qed.

(** X2.  The target list is the list of windows with some left out: the
    windows kept stand in the order of the enumeration, none is kept twice
    that was listed once, and windows with pairwise distinct indices give
    targets with pairwise distinct indices. *)
Theorem targets_keep_enumeration_order :
  forall (World : Type) (tm : tmux.Interface World) (fl : Flags) (cwi : Z)
         (windows : list Window),
    subseq (cmd.filterWindows tm fl cwi windows []) windows
    /\ (List.length (cmd.filterWindows tm fl cwi windows [])
        <= List.length windows)%nat
    /\ (NoDup windows -> NoDup (cmd.filterWindows tm fl cwi windows []))
    /\ (NoDup (map Index windows) ->
        NoDup (map Index (cmd.filterWindows tm fl cwi windows []))).
Proof.
  intros World tm fl cwi windows.
  assert (H : subseq (cmd.filterWindows tm fl cwi windows []) windows).
  { rewrite filterWindows_filter. apply subseq_filter. }
  split; [exact H|]. split; [apply subseq_length, H|].
  split; [apply subseq_NoDup, H|].
  apply subseq_NoDup, subseq_map, H.
Qed.

(** A use of X2. *)
Lemma targets_keep_enumeration_order_witness :
  NoDup (map Index
           (cmd.filterWindows Scripted.impl Scripted.defaultFlags 0
              [Scripted.w0; Scripted.w1; Scripted.w2] [])).
Proof.
  apply (targets_keep_enumeration_order Scripted.World Scripted.impl
           Scripted.defaultFlags 0 [Scripted.w0; Scripted.w1; Scripted.w2]).
  cbn. repeat constructor; cbn; intuition discriminate.
Defined.

(** X3.  Filtering is stable and goes window by window: filtering a target
    list again with the same flags gives it back, the targets of two lists
    of windows put end to end are the targets of the first followed by the
    targets of the second, and the loop started with targets already found
    only adds to them. *)
Theorem filter_is_stable_and_local :
  forall (World : Type) (tm : tmux.Interface World) (fl : Flags) (cwi : Z)
         (ws1 ws2 acc : list Window),
    cmd.filterWindows tm fl cwi (cmd.filterWindows tm fl cwi ws1 []) []
      = cmd.filterWindows tm fl cwi ws1 []
    /\ cmd.filterWindows tm fl cwi (ws1 ++ ws2) []
       = cmd.filterWindows tm fl cwi ws1 []
         ++ cmd.filterWindows tm fl cwi ws2 []
    /\ cmd.filterWindows tm fl cwi ws1 acc
       = acc ++ cmd.filterWindows tm fl cwi ws1 [].
Proof.
  intros World tm fl cwi ws1 ws2 acc.
  rewrite !filterWindows_filter. cbn [app].
  split; [|split].
  - induction ws1 as [|w ws IH]; cbn; [reflexivity|].
    destruct (cmd.keepWindow tm fl cwi w) eqn:Hk; cbn; [|exact IH].
    rewrite Hk, IH. reflexivity.
  - apply filter_app.
  - reflexivity.
Qed.

(** X4.  [--all] changes the target list only by windows that carry the
    caller's index: every target without [--all] is a target with it, and a
    target with [--all] that is not one without it has the index of the
    caller's window. *)
Theorem all_flag_adds_only_own_window :
  forall (World : Type) (tm : tmux.Interface World) (fl : Flags) (cwi : Z)
         (windows : list Window) (w : Window),
    (In w (cmd.filterWindows tm fl cwi windows []) ->
     In w (cmd.filterWindows tm (withAll fl) cwi windows []))
    /\ (In w (cmd.filterWindows tm (withAll fl) cwi windows []) ->
        In w (cmd.filterWindows tm fl cwi windows [])
        \/ (allFlag fl = false /\ 0 <= cwi /\ Index w = cwi)).
Proof.
  intros World tm fl cwi windows w.
  rewrite !in_filterWindows, !keepWindow_spec.
  unfold selfExcluded, listed, patternOk, withAll; cbn.
  split.
  - intros (Hin & _ & Hl & Hp). repeat split; try assumption.
    intros (H & _); discriminate.
  - intros (Hin & _ & Hl & Hp).
    destruct (allFlag fl) eqn:Hall.
    + left. repeat split; try assumption. intros (H & _); discriminate.
    + destruct (Z.le_gt_cases 0 cwi) as [Hpos | Hneg].
      * destruct (Z.eq_dec (Index w) cwi) as [Heq | Hneq].
        -- right. repeat split; assumption.
        -- left. repeat split; try assumption. intros (_ & _ & H); auto.
      * left. repeat split; try assumption. intros (_ & H & _); lia.
Qed.

(** A use of X4. *)
Lemma all_flag_adds_only_own_window_witness :
  In Scripted.w1
     (cmd.filterWindows Scripted.impl (withAll Scripted.defaultFlags) 0
        [Scripted.w0; Scripted.w1; Scripted.w2] []).
Proof.
  apply (all_flag_adds_only_own_window Scripted.World Scripted.impl
           Scripted.defaultFlags 0 [Scripted.w0; Scripted.w1; Scripted.w2]
           Scripted.w1).
  vm_compute. tauto.
Defined.

Lemma same_key_once {A : Type} (f : A -> Z) (i : Z) (l : list A) :
  NoDup (map f l) -> (forall x, In x l -> f x = i) -> (List.length l <= 1)%nat.
Proof.
  destruct l as [|x [|y l]]; cbn; intros Hnd Hall; try lia.
  exfalso. inversion Hnd as [|? ? Hx _]; subst. apply Hx. left.
  rewrite (Hall x), (Hall y); auto.
Qed.

(** X5.  An entry of the explicit list that is the numeral of an index picks
    windows by index: when no window of the session bears that numeral as its
    name, every target has that index, and when the indices of the session
    are pairwise distinct there is at most one target. *)
Theorem numeral_entry_selects_by_index :
  forall (World : Type) (tm : tmux.Interface World) (fl : Flags) (cwi i : Z)
         (windows : list Window),
    windowFlags fl = [itoa i] ->
    (forall w, In w windows -> Name w <> itoa i) ->
    (forall w, In w (cmd.filterWindows tm fl cwi windows []) -> Index w = i)
    /\ (NoDup (map Index windows) ->
        (List.length (cmd.filterWindows tm fl cwi windows []) <= 1)%nat).
Proof.
  intros World tm fl cwi i windows Hwf Hname.
  assert (Hidx : forall w, In w (cmd.filterWindows tm fl cwi windows []) ->
                   Index w = i).
  { intros w Hw. apply in_filterWindows in Hw as (Hin & Hk).
    apply keepWindow_spec in Hk as (_ & [Hnil | Hl] & _);
      [rewrite Hwf in Hnil; discriminate|].
    unfold listed in Hl. rewrite Hwf in Hl.
    destruct Hl as [[Hl | []] | [Hl | []]].
    - elim (Hname w Hin). symmetry; exact Hl.
    - apply itoa_inj. symmetry; exact Hl. }
  split; [exact Hidx|].
  intros Hnd. apply (same_key_once Index i); [|exact Hidx].
  apply (subseq_NoDup _ (map Index windows)); [|exact Hnd].
  apply subseq_map. rewrite filterWindows_filter. apply subseq_filter.
Qed.

(** A use of X5: [-w 2] in the scripted session selects one window at most. *)
Lemma numeral_entry_selects_by_index_witness :
  (List.length
     (cmd.filterWindows Scripted.impl
        (mkFlags [itoa 2] "" "" false false false false) 0
        [Scripted.w0; Scripted.w1; Scripted.w2] []) <= 1)%nat.
Proof.
  apply (numeral_entry_selects_by_index Scripted.World Scripted.impl
           (mkFlags [itoa 2] "" "" false false false false) 0 2
           [Scripted.w0; Scripted.w1; Scripted.w2] eq_refl).
  - intros w [<- | [<- | [<- | []]]]; vm_compute; discriminate.
  - cbn. repeat constructor; cbn; intuition discriminate.
Defined.

(** ** More on resolution *)

(** Running resolution: name the answers of the collaborators it asks. *)
Ltac run_resolve tm fl :=
  unfold resolve, cmd.determineSession, cmd.IsInsideTmux,
    cmd.GetCurrentContext, cmd.SessionExists, cmd.ListWindows, bind, call, ret;
  repeat (cbv beta iota zeta; cbn [negb value world trace fst snd];
    match goal with
    | |- context [tmux.IsInsideTmux tm ?s] =>
        destruct (tmux.IsInsideTmux tm s) as [[|] ?]
    | |- context [tmux.GetCurrentContext tm ?s] =>
        destruct (tmux.GetCurrentContext tm s) as [[[[? ?] ?] [?|]] ?]
    | |- context [String.eqb (sessionFlag fl) ""] =>
        destruct (String.eqb_spec (sessionFlag fl) "")
    | |- context [tmux.SessionExists tm ?n ?s] =>
        destruct (tmux.SessionExists tm n s) as [[|] ?]
    | |- context [tmux.ListWindows tm ?n ?s] =>
        destruct (tmux.ListWindows tm n s) as [[? [?|]] ?]
    end);
  cbv beta iota zeta; cbn [negb value world trace fst snd app].

(** The errors resolution can end with. *)
Lemma resolve_errors (World : Type) (tm : tmux.Interface World) (fl : Flags)
    (s : World) (e : error) :
  value (resolve tm fl s) = inl e ->
  (exists e0, e = Errorf "failed to get tmux context: %w" [AErr e0]
              /\ exists cs ci p,
                   In (EGetCurrentContext (cs, ci, p, Some e0))
                      (trace (resolve tm fl s)))
  \/ (e = Errorf "not inside tmux; use -s/--session to specify target session" []
      /\ sessionFlag fl = ""
      /\ trace (resolve tm fl s) = [EIsInsideTmux false])
  \/ (exists n, e = Errorf "session %q does not exist" [AStr n]
                /\ In (ESessionExists n false) (trace (resolve tm fl s)))
  \/ (exists e0, e = Errorf "failed to list windows: %w" [AErr e0]
                 /\ exists n ws,
                      In (EListWindows n (ws, Some e0))
                         (trace (resolve tm fl s))).
Proof.
  run_resolve tm fl; intros H; inversion H; subst.
  all: try (left; eexists; split; [reflexivity|];
            do 3 eexists; cbn; eauto 6; fail).
  all: try (right; left; repeat split; assumption).
  all: try (right; right; left; eexists; split; [reflexivity|];
            cbn; eauto 6; fail).
  all: right; right; right; eexists; split; [reflexivity|];
       do 2 eexists; cbn; eauto 6.
Qed.

(** What a successful resolution has asked, and what its targets are. *)
Lemma resolve_ok (World : Type) (tm : tmux.Interface World) (fl : Flags)
    (s : World) (session : string) (targets : list Window) :
  value (resolve tm fl s) = inr (session, targets) ->
  exists (cwi : Z) (windows : list Window),
    targets = cmd.filterWindows tm fl cwi windows []
    /\ In (ESessionExists session true) (trace (resolve tm fl s))
    /\ In (EListWindows session (windows, None)) (trace (resolve tm fl s))
    /\ ((sessionFlag fl <> "" /\ session = sessionFlag fl /\ cwi = -1)
        \/ (sessionFlag fl = ""
            /\ exists p, In (EGetCurrentContext (session, cwi, p, None))
                            (trace (resolve tm fl s)))).
Proof.
  run_resolve tm fl; intros H; inversion H; subst.
  all: do 2 eexists; split; [reflexivity|].
  all: split; [cbn; tauto|]. 
  all: split; [cbn; tauto|].
  all: first [ left; repeat split; [assumption | reflexivity..]
             | right; split; [assumption|]; eexists; cbn; left; reflexivity
             | right; split; [assumption|]; eexists; cbn; tauto ].
Qed.

(** The four ways a run ends. *)
Lemma runAdd_cases (World : Type) (tm : tmux.Interface World) (fl : Flags)
    (args : list string) (s : World) :
  (exists e, value (resolve tm fl s) = inl e
     /\ value (cmd.runAdd tm fl args s) = Some e
     /\ trace (cmd.runAdd tm fl args s) = trace (resolve tm fl s))
  \/ (exists session, value (resolve tm fl s) = inr (session, [])
        /\ value (cmd.runAdd tm fl args s) = None
        /\ trace (cmd.runAdd tm fl args s)
           = trace (resolve tm fl s)
             ++ [EPrintln Stderr [AStr "No windows to send message to"]])
  \/ (exists session targets,
        value (resolve tm fl s) = inr (session, targets)
        /\ targets <> [] /\ dryRunFlag fl = true
        /\ value (cmd.runAdd tm fl args s) = None
        /\ trace (cmd.runAdd tm fl args s)
           = trace (resolve tm fl s)
             ++ trace (cmd.dryRun tm session (String.concat " " args) targets
                         (world (resolve tm fl s))))
  \/ (exists session targets,
        value (resolve tm fl s) = inr (session, targets)
        /\ targets <> [] /\ dryRunFlag fl = false
        /\ value (cmd.runAdd tm fl args s)
           = value (cmd.report
                      (value (cmd.deliver tm fl session (String.concat " " args)
                                targets zeroCounters (world (resolve tm fl s))))
                      (world (cmd.deliver tm fl session (String.concat " " args)
                                targets zeroCounters (world (resolve tm fl s)))))
        /\ trace (cmd.runAdd tm fl args s)
           = trace (resolve tm fl s)
             ++ trace (cmd.deliver tm fl session (String.concat " " args)
                         targets zeroCounters (world (resolve tm fl s)))
             ++ trace (cmd.report
                         (value (cmd.deliver tm fl session
                                   (String.concat " " args) targets
                                   zeroCounters (world (resolve tm fl s))))
                         (world (cmd.deliver tm fl session
                                   (String.concat " " args) targets
                                   zeroCounters (world (resolve tm fl s)))))).
Proof.
  rewrite runAdd_resolve.
  destruct (value (resolve tm fl s)) as [e | [session targets]] eqn:Hres.
  - left. exists e. repeat split.
  - destruct targets as [|w rest].
    + right; left. exists session. repeat split.
    + destruct (dryRunFlag fl) eqn:Hdry.
      * right; right; left. exists session, (w :: rest).
        split; [reflexivity|]. split; [discriminate|]. split; [reflexivity|].
        cbn [value world trace fst snd]. unfold cmd.afterResolve.
        cbn [List.length Nat.eqb]. rewrite Hdry.
        split; [apply dryRun_run | reflexivity].
      * right; right; right. exists session, (w :: rest).
        split; [reflexivity|]. split; [discriminate|]. split; [reflexivity|].
        rewrite afterResolve_deliver by (discriminate || assumption).
        split; reflexivity.
Qed.

(** A property of traces that holds of the empty trace, of two traces put
    end to end, and of every turn, holds of the delivery loop. *)
Lemma deliver_trace_ind (World : Type) (tm : tmux.Interface World) (fl : Flags)
    (session message : string) (Q : list Event -> Prop) :
  Q [] ->
  (forall a b, Q a -> Q b -> Q (a ++ b)) ->
  (forall w o t, delivery tm fl session message w o t -> Q t) ->
  forall (targets : list Window) (c : Counters) (s : World),
    Q (trace (cmd.deliver tm fl session message targets c s)).
Proof.
  intros Hnil Happ Hturn targets.
  induction targets as [|w rest IH]; intros c s; [exact Hnil|].
  rewrite deliver_cons. cbn [trace snd].
  apply Happ; [|apply IH].
  destruct (deliverOne_rule tm fl session message w c s) as (Hd & _).
  exact (Hturn _ _ _ Hd).
Qed.

(** The events of a turn. *)
Lemma delivery_events (World : Type) (tm : tmux.Interface World) (fl : Flags)
    (session message : string) (w : Window) (o : DeliveryOutcome)
    (t : list Event) :
  delivery tm fl session message w o t ->
  forall e, In e t ->
    (exists b, e = EIsClaudeRunning w b /\ anyFlag fl = false)
    \/ (exists r, e = EHasPendingInput (targetOf session w) r
                  /\ forceFlag fl = false)
    \/ (e = ESleep cmd.retryDelay /\ forceFlag fl = false)
    \/ (exists r, e = EAddMessage (targetOf session w) message r)
    \/ isPrint e = true.
Proof.
  assert (Hpre : forall pre e, agentCheck fl w pre -> In e pre ->
            exists b, e = EIsClaudeRunning w b /\ anyFlag fl = false).
  { intros pre e [Ha | Ha] Hin; [destruct Hin|].
    destruct Hin as [<- | []]. eauto. }
  assert (Hbusy : forall busy t0 e,
            busyCheck fl (answers tm (targetOf session w)) (targetOf session w)
              busy t0 ->
            In e t0 ->
            (exists r, e = EHasPendingInput (targetOf session w) r
                       /\ forceFlag fl = false)
            \/ (e = ESleep cmd.retryDelay /\ forceFlag fl = false)).
  { intros busy t0 e [Hf | b t1 Hf Hrun] Hin; [destruct Hin|].
    destruct (retryRun_events _ _ _ _ _ _ Hrun _ Hin) as [[r ->] | ->];
      eauto. }
  destruct 1 as [Hany | pre t Hp Hb | pre t Hp Hb | pre t e0 Hp Hb];
    intros e Hin.
  - destruct Hin as [<- | [<- | []]]; [left; eauto | do 4 right; reflexivity].
  - apply in_app_or in Hin as [Hin | Hin]; [left; eapply Hpre; eauto|].
    apply in_app_or in Hin as [Hin | Hin].
    + destruct (Hbusy _ _ _ Hb Hin) as [H | H]; tauto.
    + destruct Hin as [<- | []]. do 4 right; reflexivity.
  - apply in_app_or in Hin as [Hin | Hin]; [left; eapply Hpre; eauto|].
    apply in_app_or in Hin as [Hin | Hin].
    + destruct (Hbusy _ _ _ Hb Hin) as [H | H]; tauto.
    + destruct Hin as [<- | []]. do 3 right; left; eauto.
  - apply in_app_or in Hin as [Hin | Hin]; [left; eapply Hpre; eauto|].
    apply in_app_or in Hin as [Hin | Hin].
    + destruct (Hbusy _ _ _ Hb Hin) as [H | H]; tauto.
    + destruct Hin as [<- | [<- | []]];
        [do 3 right; left; eauto | do 4 right; reflexivity].
Qed.

Lemma render_events (l : list (Window * bool)) :
  forall e, In e (render l) -> isResolution e = false /\ isSend e = false.
Proof.
  induction l as [|[w b] rest IH]; intros e He; [destruct He|].
  destruct He as [<- | [<- | He]]; [split; reflexivity.. | auto].
Qed.

(** After resolution a run asks nothing more about sessions. *)
Lemma runAdd_trace_split (World : Type) (tm : tmux.Interface World)
    (fl : Flags) (args : list string) (s : World) :
  exists tail,
    trace (cmd.runAdd tm fl args s) = trace (resolve tm fl s) ++ tail
    /\ (forall e, In e tail -> isResolution e = false)
    /\ (forall e, value (resolve tm fl s) = inl e -> tail = []).
Proof.
  destruct (runAdd_cases World tm fl args s)
    as [(e & Hres & _ & Ht) | [(session & Hres & _ & Ht)
       | [(session & targets & Hres & _ & _ & _ & Ht)
         | (session & targets & Hres & _ & _ & _ & Ht)]]].
  - exists []. rewrite app_nil_r. repeat split; [exact Ht | intros ? []].
  - eexists. split; [exact Ht|]. split; [|intros e; congruence].
    intros e [<- | []]. reflexivity.
  - eexists. split; [exact Ht|]. split; [|intros e; congruence].
    destruct (dryRun_run World tm session (String.concat " " args) targets
                (world (resolve tm fl s))) as (_ & Hd).
    destruct (dryRunLines_render World tm targets (world (resolve tm fl s)))
      as (v & _ & Hv & _).
    rewrite Hd, Hv. intros e [<- | He]; [reflexivity|].
    apply in_app_or in He as [He | [<- | []]]; [|reflexivity].
    apply (render_events v), He.
  - eexists. split; [exact Ht|]. split; [|intros e; congruence].
    intros e He. apply in_app_or in He as [He | He].
    + revert e He.
      apply (deliver_trace_ind World tm fl session (String.concat " " args)
               (fun t => forall e, In e t -> isResolution e = false)).
      * intros e [].
      * intros a b Ha Hb e He. apply in_app_or in He as [He | He]; auto.
      * intros w o t Hd e He.
        destruct (delivery_events _ _ _ _ _ _ _ _ Hd e He)
          as [(b & -> & _) | [(r & -> & _) | [(-> & _) | [(r & ->) | Hp]]]];
          try reflexivity.
        destruct e; try discriminate; reflexivity.
    + rewrite report_trace in He.
      destruct ((failed _ >? 0) || _); destruct He as [<- | []]; reflexivity.
Qed.

Lemma resolve_session_missing (World : Type) (tm : tmux.Interface World)
    (fl : Flags) (s : World) (n : string) :
  In (ESessionExists n false) (trace (resolve tm fl s)) ->
  value (resolve tm fl s) = inl (Errorf "session %q does not exist" [AStr n])
  /\ forall n' r, ~ In (EListWindows n' r) (trace (resolve tm fl s)).
Proof.
  run_resolve tm fl; cbn; intros H; decompose [or] H;
    try discriminate; try contradiction.
  all: match goal with
       | Heq : ESessionExists _ _ = ESessionExists _ _ |- _ =>
           inversion Heq; subst
       end; (split; [reflexivity|]).
  all: intros n' r Hin; decompose [or] Hin;
       try discriminate; try contradiction.
Qed.

Lemma resolve_session_names (World : Type) (tm : tmux.Interface World)
    (fl : Flags) (s : World) :
  sessionFlag fl <> "" ->
  (forall n r, In (ESessionExists n r) (trace (resolve tm fl s)) ->
     n = sessionFlag fl)
  /\ (forall n r, In (EListWindows n r) (trace (resolve tm fl s)) ->
        n = sessionFlag fl)
  /\ (forall session targets,
        value (resolve tm fl s) = inr (session, targets) ->
        session = sessionFlag fl).
Proof.
  intros Hne.
  run_resolve tm fl; try contradiction.
  all: split; [|split].
  all: try (intros n0 r Hin; cbn in Hin; decompose [or] Hin;
            try discriminate; try contradiction;
            match goal with
            | Heq : _ = _ |- _ => inversion Heq; reflexivity
            end).
  all: intros session targets H; inversion H; reflexivity.
Qed.

(** X6.  A run ends with an error in five ways only.  Four are errors of
    resolution: the context of the caller cannot be read, no session is
    named outside the multiplexer, the session does not exist, or its windows
    cannot be listed; then the run has asked about sessions and done nothing
    else.  The fifth reports the positive number of failed messages, and
    comes only from a run without [--dry-run]. *)
Theorem run_error_taxonomy :
  forall (World : Type) (tm : tmux.Interface World) (fl : Flags)
         (args : list string) (s : World) (e : error),
    value (cmd.runAdd tm fl args s) = Some e ->
    (((exists e0, e = Errorf "failed to get tmux context: %w" [AErr e0])
      \/ e = Errorf
               "not inside tmux; use -s/--session to specify target session" []
      \/ (exists n, e = Errorf "session %q does not exist" [AStr n])
      \/ (exists e0, e = Errorf "failed to list windows: %w" [AErr e0]))
     /\ forall ev, In ev (trace (cmd.runAdd tm fl args s)) ->
          isResolution ev = true)
    \/ (exists k, 0 < k /\ e = Errorf "%d message(s) failed" [AInt k]
                  /\ dryRunFlag fl = false).
Proof.
  intros World tm fl args s e Hv.
  destruct (runAdd_cases World tm fl args s)
    as [(e' & Hres & Hval & Ht) | [(session & Hres & Hval & Ht)
       | [(session & targets & Hres & _ & _ & Hval & Ht)
         | (session & targets & Hres & _ & Hdry & Hval & Ht)]]];
    try congruence.
  - left. assert (e' = e) by congruence. subst e'. split.
    + destruct (resolve_errors World tm fl s e Hres)
        as [(e0 & -> & _) | [(-> & _) | [(n & -> & _) | (e0 & -> & _)]]];
        eauto 6.
    + rewrite Ht. apply resolve_events.
  - right. rewrite Hval, report_value in Hv.
    destruct (Z.gtb_spec (failed (value (cmd.deliver tm fl session
                (String.concat " " args) targets zeroCounters
                (world (resolve tm fl s))))) 0) as [Hpos | Hle];
      [|discriminate].
    inversion Hv. eexists. repeat split; [exact Hpos | exact Hdry].
Qed.

(** A use of X6: outside the multiplexer, with no session named. *)
Lemma run_error_taxonomy_witness :
  (((exists e0, Errorf "not inside tmux; use -s/--session to specify target session" []
                = Errorf "failed to get tmux context: %w" [AErr e0])
    \/ Errorf "not inside tmux; use -s/--session to specify target session" []
       = Errorf "not inside tmux; use -s/--session to specify target session" []
    \/ (exists n, Errorf "not inside tmux; use -s/--session to specify target session" []
                  = Errorf "session %q does not exist" [AStr n])
    \/ (exists e0, Errorf "not inside tmux; use -s/--session to specify target session" []
                   = Errorf "failed to list windows: %w" [AErr e0]))
   /\ forall ev,
        In ev (trace (cmd.runAdd Scripted.impl Scripted.defaultFlags ["done"]
                        (Scripted.mkWorld false ("", 0, "", None) [] [] [] []))) ->
        isResolution ev = true)
  \/ (exists k, 0 < k
        /\ Errorf "not inside tmux; use -s/--session to specify target session" []
           = Errorf "%d message(s) failed" [AInt k]
        /\ dryRunFlag Scripted.defaultFlags = false).
Proof.
  apply (run_error_taxonomy Scripted.World Scripted.impl Scripted.defaultFlags
           ["done"] (Scripted.mkWorld false ("", 0, "", None) [] [] [] [])).
  vm_compute. reflexivity.
Defined.

(** X7.  A session that does not exist stops the run at once: when the
    session check answers no, the run ends with the error that names that
    session, its windows are never listed, and nothing but questions of
    resolution has happened. *)
Theorem missing_session_fails_fast :
  forall (World : Type) (tm : tmux.Interface World) (fl : Flags)
         (args : list string) (s : World) (n : string),
    In (ESessionExists n false) (trace (cmd.runAdd tm fl args s)) ->
    value (cmd.runAdd tm fl args s)
      = Some (Errorf "session %q does not exist" [AStr n])
    /\ (forall n' r, ~ In (EListWindows n' r) (trace (cmd.runAdd tm fl args s)))
    /\ (forall ev, In ev (trace (cmd.runAdd tm fl args s)) ->
          isResolution ev = true).
Proof.
  intros World tm fl args s n Hin.
  destruct (runAdd_trace_split World tm fl args s) as (tail & Ht & Htail & Hnil).
  rewrite Ht in Hin. apply in_app_or in Hin as [Hin | Hin];
    [|apply Htail in Hin; discriminate].
  destruct (resolve_session_missing World tm fl s n Hin) as (Hres & Hno).
  specialize (Hnil _ Hres). subst tail. rewrite app_nil_r in Ht.
  split.
  - rewrite runAdd_resolve, Hres. reflexivity.
  - rewrite Ht. split; [exact Hno | apply resolve_events].
Qed.

(** A use of X7: [-s nowhere] from the scripted session. *)
Lemma missing_session_fails_fast_witness :
  value (cmd.runAdd Scripted.impl
           (mkFlags [] "nowhere" "" false false false false) ["done"]
           Scripted.work)
  = Some (Errorf "session %q does not exist" [AStr "nowhere"]).
Proof.
  apply (missing_session_fails_fast Scripted.World Scripted.impl
           (mkFlags [] "nowhere" "" false false false false) ["done"]
           Scripted.work "nowhere").
  vm_compute. tauto.
Defined.

(** Where the sends of a run come from. *)
Lemma runAdd_send (World : Type) (tm : tmux.Interface World) (fl : Flags)
    (args : list string) (s : World) (tg m : string) (r : option error) :
  In (EAddMessage tg m r) (trace (cmd.runAdd tm fl args s)) ->
  exists session targets w,
    value (resolve tm fl s) = inr (session, targets)
    /\ dryRunFlag fl = false
    /\ In w targets /\ tg = targetOf session w
    /\ m = String.concat " " args
    /\ (anyFlag fl = false ->
        In (EIsClaudeRunning w true) (trace (cmd.runAdd tm fl args s))).
Proof.
  intros Hin.
  destruct (runAdd_cases World tm fl args s)
    as [(e' & Hres & _ & Ht) | [(session & Hres & _ & Ht)
       | [(session & targets & Hres & _ & _ & _ & Ht)
         | (session & targets & Hres & _ & Hdry & _ & Ht)]]];
    rewrite Ht in Hin |- *.
  - apply resolve_events in Hin. discriminate.
  - apply in_app_or in Hin as [Hin | [Hin | []]]; [|discriminate].
    apply resolve_events in Hin. discriminate.
  - apply in_app_or in Hin as [Hin | Hin];
      [apply resolve_events in Hin; discriminate|].
    destruct (dryRun_run World tm session (String.concat " " args) targets
                (world (resolve tm fl s))) as (_ & Hd).
    destruct (dryRunLines_render World tm targets (world (resolve tm fl s)))
      as (v & _ & Hv & _).
    rewrite Hd, Hv in Hin. destruct Hin as [Hin | Hin]; [discriminate|].
    apply in_app_or in Hin as [Hin | [Hin | []]]; [|discriminate].
    apply (render_events v) in Hin as (_ & Hin). discriminate.
  - apply in_app_or in Hin as [Hin | Hin];
      [apply resolve_events in Hin; discriminate|].
    apply in_app_or in Hin as [Hin | Hin].
    + destruct (deliver_send tm fl session (String.concat " " args) targets
                  zeroCounters (world (resolve tm fl s)) tg m r Hin)
        as (w & Hw & Htg & Hm & Hagent).
      exists session, targets, w. repeat split; try assumption.
      intros Hany. apply in_or_app; right. apply in_or_app; left.
      apply Hagent, Hany.
    + rewrite report_trace in Hin.
      destruct ((failed _ >? 0) || _); destruct Hin as [Hin | []];
        discriminate.
Qed.

(** X8.  A session named with [-s] takes precedence everywhere: every
    question about a session names it, and every send goes to one of its
    windows, wherever the caller is. *)
Theorem session_override_takes_precedence :
  forall (World : Type) (tm : tmux.Interface World) (fl : Flags)
         (args : list string) (s : World),
    sessionFlag fl <> "" ->
    (forall n r, In (ESessionExists n r) (trace (cmd.runAdd tm fl args s)) ->
       n = sessionFlag fl)
    /\ (forall n r, In (EListWindows n r) (trace (cmd.runAdd tm fl args s)) ->
          n = sessionFlag fl)
    /\ (forall tg m r,
          In (EAddMessage tg m r) (trace (cmd.runAdd tm fl args s)) ->
          exists w, tg = targetOf (sessionFlag fl) w).
Proof.
  intros World tm fl args s Hne.
  destruct (resolve_session_names World tm fl s Hne) as (H1 & H2 & H3).
  destruct (runAdd_trace_split World tm fl args s) as (tail & Ht & Htail & _).
  split; [|split].
  - intros n r Hin. rewrite Ht in Hin.
    apply in_app_or in Hin as [Hin | Hin];
      [eapply H1; exact Hin | apply Htail in Hin; discriminate].
  - intros n r Hin. rewrite Ht in Hin.
    apply in_app_or in Hin as [Hin | Hin];
      [eapply H2; exact Hin | apply Htail in Hin; discriminate].
  - intros tg m r Hin.
    destruct (runAdd_send World tm fl args s tg m r Hin)
      as (session & targets & w & Hres & _ & _ & Htg & _).
    exists w. rewrite <- (H3 _ _ Hres). exact Htg.
Qed.

(** A use of X8: [-s work] from another session. *)
Lemma session_override_takes_precedence_witness :
  exists w, "work:1" = targetOf "work" w.
Proof.
  pose proof (session_override_takes_precedence Scripted.World Scripted.impl
                (mkFlags [] "work" "" false false false false) ["done"]
                (Scripted.mkWorld true ("home", 0, "%7", None)
                   [("home", [Scripted.w0]);
                    ("work", [Scripted.w0; Scripted.w1; Scripted.w2])]
                   ["claude"] [] [])) as H.
  destruct H as (_ & _ & H); [cbn; discriminate|].
  apply (H "work:1" "done" None).
  vm_compute. tauto.
Defined.

(** X9.  By default the caller's own window gets nothing: inside the
    multiplexer, with no session named and without [--all], when the context
    gives the caller's session and a window index that is not negative, no
    resolved target has that index and no send of the run goes to that window
    of the session. *)
Theorem own_window_is_never_sent_to :
  forall (World : Type) (tm : tmux.Interface World) (fl : Flags)
         (args : list string) (s s1 s2 : World) (cs : string) (ci : Z)
         (pane : string),
    tmux.IsInsideTmux tm s = (true, s1) ->
    tmux.GetCurrentContext tm s1 = ((cs, ci, pane, None), s2) ->
    sessionFlag fl = "" ->
    allFlag fl = false ->
    0 <= ci ->
    (forall session targets w,
        value (resolve tm fl s) = inr (session, targets) ->
        In w targets -> session = cs /\ Index w <> ci)
    /\ (forall tg m r,
          In (EAddMessage tg m r) (trace (cmd.runAdd tm fl args s)) ->
          tg <> (cs ++ ":" ++ itoa ci)%string).
Proof.
  intros World tm fl args s s1 s2 cs ci pane Hin Hctx Hsf Hall Hpos.
  assert (Hres : forall session targets w,
            value (resolve tm fl s) = inr (session, targets) ->
            In w targets -> session = cs /\ Index w <> ci).
  { intros session targets w.
    unfold resolve, cmd.determineSession, cmd.IsInsideTmux,
      cmd.GetCurrentContext, bind, call, ret.
    rewrite Hin, Hctx, Hsf. cbn [String.eqb negb].
    unfold cmd.SessionExists, cmd.ListWindows, call.
    destruct (tmux.SessionExists tm cs s2) as [[|] s3]; cbn [negb];
      [|intros H; inversion H].
    destruct (tmux.ListWindows tm cs s3) as [[windows [e|]] s4];
      cbn; intros H; inversion H; subst.
    intros Hw. split; [reflexivity|].
    apply in_filterWindows in Hw as (_ & Hk).
    apply keepWindow_spec in Hk as (Hself & _).
    intros Heq. apply Hself. repeat split; assumption. }
  split; [exact Hres|].
  intros tg m r Hsend Heq.
  destruct (runAdd_send World tm fl args s tg m r Hsend)
    as (session & targets & w & Hr & _ & Hw & Htg & _).
  destruct (Hres _ _ _ Hr Hw) as (Hs & Hidx).
  apply Hidx. rewrite Htg, Hs in Heq.
  apply (targetOf_inj cs w (mkWindow ci "" "")). exact Heq.
Qed.

(** A use of X9: the default run from window 0 of the scripted session. *)
Lemma own_window_is_never_sent_to_witness :
  "work:1" <> ("work" ++ ":" ++ itoa 0)%string.
Proof.
  pose proof (own_window_is_never_sent_to Scripted.World Scripted.impl
                Scripted.defaultFlags ["done"] Scripted.work Scripted.work
                Scripted.work "work" 0 "%0" eq_refl eq_refl eq_refl eq_refl)
    as H.
  destruct H as (_ & H); [lia|].
  apply (H "work:1" "done" None).
  vm_compute. tauto.
Defined.

(** X10.  A run never edits the message and never invents a target: every
    send carries the arguments joined by single spaces, goes to the target
    string of a window of the resolved target list, happens only without
    [--dry-run], and, unless [--any] is set, follows an agent check that
    accepted that window. *)
Theorem sends_carry_the_joined_message :
  forall (World : Type) (tm : tmux.Interface World) (fl : Flags)
         (args : list string) (s : World) (tg m : string) (r : option error),
    In (EAddMessage tg m r) (trace (cmd.runAdd tm fl args s)) ->
    m = String.concat " " args
    /\ dryRunFlag fl = false
    /\ exists session targets w,
         value (resolve tm fl s) = inr (session, targets)
         /\ In w targets
         /\ tg = (session ++ ":" ++ itoa (Index w))%string
         /\ (anyFlag fl = false ->
             In (EIsClaudeRunning w true) (trace (cmd.runAdd tm fl args s))).
Proof.
  intros World tm fl args s tg m r Hin.
  destruct (runAdd_send World tm fl args s tg m r Hin)
    as (session & targets & w & Hres & Hdry & Hw & Htg & Hm & Hagent).
  split; [exact Hm|]. split; [exact Hdry|].
  exists session, targets, w. repeat split; assumption.
Qed.

(** A use of X10: the send to "work:1" of the default run. *)
Lemma sends_carry_the_joined_message_witness :
  "when done" = String.concat " " ["when"; "done"]
  /\ dryRunFlag Scripted.defaultFlags = false
  /\ exists session targets w,
       value (resolve Scripted.impl Scripted.defaultFlags Scripted.work)
         = inr (session, targets)
       /\ In w targets
       /\ "work:1" = (session ++ ":" ++ itoa (Index w))%string
       /\ (anyFlag Scripted.defaultFlags = false ->
           In (EIsClaudeRunning w true)
              (trace (cmd.runAdd Scripted.impl Scripted.defaultFlags
                        ["when"; "done"] Scripted.work))).
Proof.
  apply (sends_carry_the_joined_message Scripted.World Scripted.impl
           Scripted.defaultFlags ["when"; "done"] Scripted.work
           "work:1" "when done" None).
  vm_compute. tauto.
Defined.

(** ** More on delivery *)

(** The kinds of events a run can leave, with the flags that allow them. *)
Lemma runAdd_event_kinds (World : Type) (tm : tmux.Interface World)
    (fl : Flags) (args : list string) (s : World) :
  forall e, In e (trace (cmd.runAdd tm fl args s)) ->
    isResolution e = true
    \/ isPrint e = true
    \/ (exists w b, e = EIsClaudeRunning w b
                    /\ (dryRunFlag fl = true \/ anyFlag fl = false))
    \/ (exists tg r, e = EHasPendingInput tg r
                     /\ forceFlag fl = false /\ dryRunFlag fl = false)
    \/ (e = ESleep cmd.retryDelay
        /\ forceFlag fl = false /\ dryRunFlag fl = false)
    \/ (exists tg m r, e = EAddMessage tg m r /\ dryRunFlag fl = false).
Proof.
  intros e Hin.
  destruct (runAdd_cases World tm fl args s)
    as [(e' & Hres & _ & Ht) | [(session & Hres & _ & Ht)
       | [(session & targets & Hres & _ & Hdry & _ & Ht)
         | (session & targets & Hres & _ & Hdry & _ & Ht)]]];
    rewrite Ht in Hin.
  - left. apply resolve_events in Hin. exact Hin.
  - apply in_app_or in Hin as [Hin | [<- | []]];
      [left; apply resolve_events in Hin; exact Hin | right; left; reflexivity].
  - apply in_app_or in Hin as [Hin | Hin];
      [left; apply resolve_events in Hin; exact Hin|].
    destruct (dryRun_run World tm session (String.concat " " args) targets
                (world (resolve tm fl s))) as (_ & Hd).
    destruct (dryRunLines_render World tm targets (world (resolve tm fl s)))
      as (v & _ & Hv & _).
    rewrite Hd, Hv in Hin. destruct Hin as [<- | Hin];
      [right; left; reflexivity|].
    apply in_app_or in Hin as [Hin | [<- | []]]; [|right; left; reflexivity].
    clear Hv Hd. induction v as [|[w b] v IH]; [destruct Hin|].
    destruct Hin as [<- | [<- | Hin]];
      [right; right; left; eauto | right; left; reflexivity | auto].
  - apply in_app_or in Hin as [Hin | Hin];
      [left; apply resolve_events in Hin; exact Hin|].
    apply in_app_or in Hin as [Hin | Hin].
    + revert e Hin.
      apply (deliver_trace_ind World tm fl session (String.concat " " args)
               (fun t => forall e, In e t -> _)).
      * intros e [].
      * intros a b Ha Hb e He. apply in_app_or in He as [He | He]; auto.
      * intros w o t Hdel e He.
        destruct (delivery_events _ _ _ _ _ _ _ _ Hdel e He)
          as [(b & -> & Hany) | [(r & -> & Hf) | [(-> & Hf)
             | [(r & ->) | Hp]]]].
        -- right; right; left. eauto.
        -- right; right; right; left. eauto.
        -- right; right; right; right; left. auto.
        -- do 5 right. eauto.
        -- right; left. exact Hp.
    + rewrite report_trace in Hin.
      destruct ((failed _ >? 0) || _); destruct Hin as [<- | []];
        right; left; reflexivity.
Qed.

(** X11.  With [--force] the pending-input check is not made at all: no run
    probes a pane or waits. *)
Theorem force_skips_the_pending_input_check :
  forall (World : Type) (tm : tmux.Interface World) (fl : Flags)
         (args : list string) (s : World),
    forceFlag fl = true ->
    probes (trace (cmd.runAdd tm fl args s)) = 0%nat
    /\ sleeps (trace (cmd.runAdd tm fl args s)) = 0%nat
    /\ sleepTime (trace (cmd.runAdd tm fl args s)) = 0.
Proof.
  intros World tm fl args s Hforce.
  assert (H : forall e, In e (trace (cmd.runAdd tm fl args s)) ->
                isProbe e = false /\ isSleep e = false).
  { intros e He.
    destruct (runAdd_event_kinds World tm fl args s e He)
      as [Hr | [Hp | [(w & b & -> & _) | [(tg & r & -> & Hf & _)
         | [(-> & Hf & _) | (tg & m & r & -> & _)]]]]];
      try congruence; try (split; reflexivity);
      destruct e; try discriminate; split; reflexivity. }
  split; [apply count_none; intros e He; apply (H e He)|].
  split; [apply count_none; intros e He; apply (H e He)|].
  induction (trace (cmd.runAdd tm fl args s)) as [|e t IH]; [reflexivity|].
  assert (He : isSleep e = false) by (apply H; left; reflexivity).
  destruct e; try discriminate; cbn; apply IH; intros e' He';
    apply H; right; exact He'.
Qed.

(** A use of X11: a forced run in the scripted session where a user types. *)
Lemma force_skips_the_pending_input_check_witness :
  probes (trace (cmd.runAdd Scripted.impl
                   (mkFlags [] "" "" false false false true) ["done"]
                   Scripted.mixed)) = 0%nat.
Proof.
  apply (force_skips_the_pending_input_check Scripted.World Scripted.impl
           (mkFlags [] "" "" false false false true) ["done"] Scripted.mixed).
  reflexivity.
Defined.

(** X12.  With [--any] a run that delivers never asks whether a window runs
    the agent: the agent check is made only by runs without [--any], and by
    dry runs for their annotation. *)
Theorem any_skips_the_agent_check :
  forall (World : Type) (tm : tmux.Interface World) (fl : Flags)
         (args : list string) (s : World),
    anyFlag fl = true ->
    dryRunFlag fl = false ->
    agentChecks (trace (cmd.runAdd tm fl args s)) = 0%nat
    /\ forall w b, ~ In (EIsClaudeRunning w b) (trace (cmd.runAdd tm fl args s)).
Proof.
  intros World tm fl args s Hany Hdry.
  assert (H : forall w b,
            ~ In (EIsClaudeRunning w b) (trace (cmd.runAdd tm fl args s))).
  { intros w b He.
    destruct (runAdd_event_kinds World tm fl args s _ He)
      as [Hr | [Hp | [(w' & b' & _ & [Hd | Ha]) | [(tg & r & Heq & _)
         | [(Heq & _) | (tg & m & r & Heq & _)]]]]];
      congruence || discriminate. }
  split; [|exact H].
  apply count_none. intros e He.
  destruct e; try reflexivity. elim (H _ _ He).
Qed.

(** A use of X12. *)
Lemma any_skips_the_agent_check_witness :
  agentChecks (trace (cmd.runAdd Scripted.impl
                        (mkFlags [] "" "" true false false false) ["done"]
                        Scripted.work)) = 0%nat.
Proof.
  apply (any_skips_the_agent_check Scripted.World Scripted.impl
           (mkFlags [] "" "" true false false false) ["done"] Scripted.work);
    reflexivity.
Defined.

Lemma sleepTime_app (a b : list Event) :
  sleepTime (a ++ b) = sleepTime a + sleepTime b.
Proof.
  induction a as [|e a IH]; [reflexivity|].
  destruct e; cbn; rewrite ?IH; lia.
Qed.

Lemma sentTo_app (a b : list Event) : sentTo (a ++ b) = sentTo a ++ sentTo b.
Proof.
  induction a as [|e a IH]; [reflexivity|].
  destruct e; cbn; rewrite ?IH; reflexivity.
Qed.

Lemma sentTo_none (t : list Event) :
  (forall e, In e t -> isSend e = false) -> sentTo t = [].
Proof.
  induction t as [|e t IH]; intros H; [reflexivity|].
  assert (He : isSend e = false) by (apply H; left; reflexivity).
  destruct e; try discriminate; cbn; apply IH; intros e' He';
    apply H; right; exact He'.
Qed.

Lemma sleepTime_none (t : list Event) :
  (forall e, In e t -> isSleep e = false) -> sleepTime t = 0.
Proof.
  induction t as [|e t IH]; intros H; [reflexivity|].
  assert (He : isSleep e = false) by (apply H; left; reflexivity).
  destruct e; try discriminate; cbn; apply IH; intros e' He';
    apply H; right; exact He'.
Qed.

Lemma retryRun_sleepTime (ans : bool * option error -> Prop) (target : string)
    (delay : Z) (n : nat) (busy : bool) (t : list Event) :
  retryRun ans target delay n busy t ->
  sleepTime t = Z.of_nat (sleeps t) * delay /\ sentTo t = [].
Proof.
  unfold sleeps.
  induction 1 as [n r Ha Hr | r Ha Hr | n r busy t Ha Hr Hrun IH];
    cbn [sleepTime sentTo filter isSleep List.length];
    try (split; [lia | reflexivity]).
  destruct IH as (IH1 & IH2). split; [|exact IH2].
  rewrite Nat2Z.inj_succ, Z.mul_succ_l, IH1. lia.
Qed.

(** What one turn costs and whom it sends to. *)
Lemma delivery_cost (World : Type) (tm : tmux.Interface World) (fl : Flags)
    (session message : string) (w : Window) (o : DeliveryOutcome)
    (t : list Event) :
  delivery tm fl session message w o t ->
  (probes t <= 3)%nat /\ (sleeps t <= 2)%nat
  /\ 0 <= sleepTime t <= 2 * cmd.retryDelay
  /\ sentTo t = (if Nat.eqb (sendsOf o) 0 then [] else [targetOf session w]).
Proof.
  assert (Hpre : forall pre, agentCheck fl w pre ->
            probes pre = 0%nat /\ sleeps pre = 0%nat /\ sleepTime pre = 0
            /\ sentTo pre = []).
  { intros pre [Ha | Ha]; repeat split. }
  assert (Hbusy : forall busy t0,
            busyCheck fl (answers tm (targetOf session w)) (targetOf session w)
              busy t0 ->
            (probes t0 <= 3)%nat /\ (sleeps t0 <= 2)%nat
            /\ 0 <= sleepTime t0 <= 2 * cmd.retryDelay /\ sentTo t0 = []).
  { intros busy t0 [Hf | b t1 Hf Hrun].
    - repeat split; cbn; try reflexivity; unfold cmd.retryDelay, Second; lia.
    - destruct (retryRun_counts _ _ _ _ _ _ Hrun) as (Hp & Hs & _).
      destruct (retryRun_sleepTime _ _ _ _ _ _ Hrun) as (Ht & Hsent).
      repeat split; try lia; try assumption;
        rewrite Ht; unfold cmd.retryDelay, Second; nia. }
  destruct 1 as [Hany | pre t Hp Hb | pre t Hp Hb | pre t e0 Hp Hb].
  - repeat split; cbn; try reflexivity; unfold cmd.retryDelay, Second; lia.
  - destruct (Hpre _ Hp) as (P1 & P2 & P3 & P4).
    destruct (Hbusy _ _ Hb) as (B1 & B2 & B3 & B4).
    rewrite !probes_app, !sleeps_app, !sleepTime_app, !sentTo_app.
    rewrite P1, P2, P3, P4, B4.
    change (probes [busyNote w]) with 0%nat.
    change (sleeps [busyNote w]) with 0%nat.
    change (sleepTime [busyNote w]) with 0.
    repeat split; try lia; reflexivity.
  - destruct (Hpre _ Hp) as (P1 & P2 & P3 & P4).
    destruct (Hbusy _ _ Hb) as (B1 & B2 & B3 & B4).
    rewrite !probes_app, !sleeps_app, !sleepTime_app, !sentTo_app.
    rewrite P1, P2, P3, P4, B4.
    change (probes [EAddMessage (targetOf session w) message None])
      with 0%nat.
    change (sleeps [EAddMessage (targetOf session w) message None])
      with 0%nat.
    change (sleepTime [EAddMessage (targetOf session w) message None]) with 0.
    repeat split; try lia; reflexivity.
  - destruct (Hpre _ Hp) as (P1 & P2 & P3 & P4).
    destruct (Hbusy _ _ Hb) as (B1 & B2 & B3 & B4).
    rewrite !probes_app, !sleeps_app, !sleepTime_app, !sentTo_app.
    rewrite P1, P2, P3, P4, B4.
    change (probes [EAddMessage (targetOf session w) message (Some e0);
                    failedNote w e0]) with 0%nat.
    change (sleeps [EAddMessage (targetOf session w) message (Some e0);
                    failedNote w e0]) with 0%nat.
    change (sleepTime [EAddMessage (targetOf session w) message (Some e0);
                       failedNote w e0]) with 0.
    repeat split; try lia; reflexivity.
Qed.

Lemma deliver_cost (World : Type) (tm : tmux.Interface World) (fl : Flags)
    (session message : string) (targets : list Window) :
  forall (c : Counters) (s : World),
    (probes (trace (cmd.deliver tm fl session message targets c s))
       <= 3 * List.length targets)%nat
    /\ (sleeps (trace (cmd.deliver tm fl session message targets c s))
          <= 2 * List.length targets)%nat
    /\ 0 <= sleepTime (trace (cmd.deliver tm fl session message targets c s))
         <= 2 * cmd.retryDelay * Z.of_nat (List.length targets)
    /\ subseq (sentTo (trace (cmd.deliver tm fl session message targets c s)))
              (map (targetOf session) targets).
Proof.
  induction targets as [|w rest IH]; intros c s.
  - cbn. repeat split; try lia. constructor.
  - rewrite deliver_cons. cbn [trace snd].
    destruct (deliverOne_rule tm fl session message w c s) as (Hd & _).
    destruct (delivery_cost _ _ _ _ _ _ _ _ Hd) as (D1 & D2 & D3 & D4).
    destruct (IH (value (cmd.deliverOne tm fl session message w c s))
                 (world (cmd.deliverOne tm fl session message w c s)))
      as (I1 & I2 & I3 & I4).
    rewrite probes_app, sleeps_app, sleepTime_app, sentTo_app, D4.
    cbn [List.length map].
    repeat split; try lia.
    destruct (Nat.eqb _ 0); cbn [app]; constructor; exact I4.
Qed.

(** X13.  The waiting of a run is bounded by its targets: with [n] resolved
    targets a run makes at most [3 n] probes and [2 n] delays, each of 5
    seconds, so it sleeps at most [10 n] seconds in all; a run whose
    resolution fails does not wait. *)
Theorem waiting_is_bounded_by_the_targets :
  forall (World : Type) (tm : tmux.Interface World) (fl : Flags)
         (args : list string) (s : World),
    (forall d, In (ESleep d) (trace (cmd.runAdd tm fl args s)) ->
       d = 5 * Second)
    /\ (forall session targets,
          value (resolve tm fl s) = inr (session, targets) ->
          (probes (trace (cmd.runAdd tm fl args s))
             <= 3 * List.length targets)%nat
          /\ (sleeps (trace (cmd.runAdd tm fl args s))
                <= 2 * List.length targets)%nat
          /\ sleepTime (trace (cmd.runAdd tm fl args s))
             <= 10 * Second * Z.of_nat (List.length targets))
    /\ (forall e, value (resolve tm fl s) = inl e ->
          sleepTime (trace (cmd.runAdd tm fl args s)) = 0).
Proof.
  intros World tm fl args s.
  pose proof (quiet_resolution _ (resolve_events tm fl s)) as Hq.
  destruct (quiet_counts _ Hq) as (_ & Qp & Qs).
  assert (Qt : sleepTime (trace (resolve tm fl s)) = 0)
    by (apply sleepTime_none; intros e He; apply (Hq e He)).
  split; [|split].
  - intros d Hin.
    destruct (runAdd_event_kinds World tm fl args s _ Hin)
      as [Hr | [Hp | [(w' & b' & Heq & _) | [(tg & r & Heq & _)
         | [(Heq & _) | (tg & m & r & Heq & _)]]]]];
      try discriminate.
    inversion Heq. reflexivity.
  - intros session targets Hres.
    destruct (runAdd_cases World tm fl args s)
      as [(e' & Hres' & _ & Ht) | [(session' & Hres' & _ & Ht)
         | [(session' & targets' & Hres' & _ & _ & _ & Ht)
           | (session' & targets' & Hres' & _ & _ & _ & Ht)]]];
      rewrite Hres in Hres'; inversion Hres'; subst; rewrite Ht.
    + rewrite probes_app, sleeps_app, sleepTime_app, Qp, Qs, Qt. cbn.
      repeat split; lia.
    + destruct (dryRun_run World tm session' (String.concat " " args) targets'
                  (world (resolve tm fl s))) as (_ & Hd).
      destruct (dryRunLines_render World tm targets' (world (resolve tm fl s)))
        as (v & _ & Hv & _).
      assert (Hdq : quiet (trace (cmd.dryRun tm session'
                             (String.concat " " args) targets'
                             (world (resolve tm fl s))))).
      { rewrite Hd, Hv. intros e [<- | He]; [repeat split|].
        apply in_app_or in He as [He | [<- | []]];
          [apply (quiet_render v), He | repeat split]. }
      destruct (quiet_counts _ Hdq) as (_ & Dp & Ds).
      rewrite probes_app, sleeps_app, sleepTime_app, Qp, Qs, Qt, Dp, Ds.
      rewrite (sleepTime_none _ (fun e He => proj2 (proj2 (Hdq e He)))).
      unfold Second. repeat split; lia.
    + destruct (deliver_cost World tm fl session' (String.concat " " args)
                  targets' zeroCounters (world (resolve tm fl s)))
        as (C1 & C2 & C3 & _).
      assert (Hrq : quiet (trace (cmd.report
                 (value (cmd.deliver tm fl session' (String.concat " " args)
                           targets' zeroCounters (world (resolve tm fl s))))
                 (world (cmd.deliver tm fl session' (String.concat " " args)
                           targets' zeroCounters (world (resolve tm fl s))))))).
      { rewrite report_trace.
        destruct ((failed _ >? 0) || _); intros e [<- | []]; repeat split. }
      destruct (quiet_counts _ Hrq) as (_ & Rp & Rs).
      rewrite !probes_app, !sleeps_app, !sleepTime_app, Qp, Qs, Qt, Rp, Rs.
      rewrite (sleepTime_none _ (fun e He => proj2 (proj2 (Hrq e He)))).
      unfold cmd.retryDelay in C3. repeat split; lia.
  - intros e Hres.
    destruct (runAdd_trace_split World tm fl args s) as (tail & Ht & _ & Hnil).
    rewrite Ht, (Hnil _ Hres), app_nil_r. exact Qt.
Qed.

(** A use of X13: the scripted session where a user keeps typing. *)
Lemma waiting_is_bounded_by_the_targets_witness :
  sleepTime (trace (cmd.runAdd Scripted.impl Scripted.defaultFlags ["done"]
                      Scripted.mixed))
  <= 10 * Second * Z.of_nat (List.length [Scripted.wa; Scripted.wb; Scripted.wc]).
Proof.
  apply (waiting_is_bounded_by_the_targets Scripted.World Scripted.impl
           Scripted.defaultFlags ["done"] Scripted.mixed) with (session := "work").
  vm_compute. reflexivity.
Defined.

Lemma deliver_all_sent (World : Type) (tm : tmux.Interface World) (fl : Flags)
    (session message : string) (targets : list Window) :
  anyFlag fl = true -> forceFlag fl = true ->
  forall (c : Counters) (s : World),
    sentTo (trace (cmd.deliver tm fl session message targets c s))
    = map (targetOf session) targets.
Proof.
  intros Hany Hforce.
  induction targets as [|w rest IH]; intros c s; [reflexivity|].
  rewrite deliver_cons. cbn [trace snd].
  destruct (deliverOne_rule tm fl session message w c s) as (Hd & _).
  destruct (delivery_cost _ _ _ _ _ _ _ _ Hd) as (_ & _ & _ & Hsent).
  rewrite sentTo_app, Hsent, IH.
  assert (Ho : sendsOf (ruleOutcome tm fl session message w s) = 1%nat).
  { unfold ruleOutcome, specOutcome. rewrite Hany, Hforce. cbn.
    destruct (fst (tmux.AddMessage tm (targetOf session w) message s));
      reflexivity. }
  rewrite Ho. reflexivity.
Qed.

(** X14.  Sends follow the enumeration: the targets sent to, in the order of
    the sends, are the resolved targets with some left out, so no target is
    sent to twice for one place in the list and none out of turn; with
    [--any] and [--force] a delivering run sends to every resolved target
    exactly once, in order. *)
Theorem sends_follow_the_target_order :
  forall (World : Type) (tm : tmux.Interface World) (fl : Flags)
         (args : list string) (s : World) (session : string)
         (targets : list Window),
    value (resolve tm fl s) = inr (session, targets) ->
    subseq (sentTo (trace (cmd.runAdd tm fl args s)))
           (map (targetOf session) targets)
    /\ (sends (trace (cmd.runAdd tm fl args s)) <= List.length targets)%nat
    /\ (anyFlag fl = true -> forceFlag fl = true -> dryRunFlag fl = false ->
        sentTo (trace (cmd.runAdd tm fl args s))
        = map (targetOf session) targets).
Proof.
  intros World tm fl args s session targets Hres.
  assert (Hr0 : sentTo (trace (resolve tm fl s)) = []).
  { apply sentTo_none. intros e He. apply resolve_events in He.
    destruct e; try discriminate; reflexivity. }
  assert (Hlen : forall t, List.length (sentTo t) = sends t).
  { unfold sends. induction t as [|e t IH]; [reflexivity|].
    destruct e; cbn; rewrite ?IH; reflexivity. }
  assert (Hnil : forall l : list string, subseq [] l).
  { induction l; constructor; assumption. }
  assert (Hsub : subseq (sentTo (trace (cmd.runAdd tm fl args s)))
                        (map (targetOf session) targets)
                 /\ (dryRunFlag fl = false -> anyFlag fl = true ->
                     forceFlag fl = true ->
                     sentTo (trace (cmd.runAdd tm fl args s))
                     = map (targetOf session) targets)).
  { destruct (runAdd_cases World tm fl args s)
      as [(e' & Hres' & _ & Ht) | [(session' & Hres' & _ & Ht)
         | [(session' & targets' & Hres' & _ & Hdry & _ & Ht)
           | (session' & targets' & Hres' & _ & Hdry & _ & Ht)]]];
      rewrite Hres in Hres'; inversion Hres'; subst; rewrite Ht.
    - rewrite sentTo_app, Hr0. cbn. split; [constructor | reflexivity].
    - split; [|congruence].
      rewrite sentTo_app, Hr0. cbn [app].
      destruct (dryRun_run World tm session' (String.concat " " args) targets'
                  (world (resolve tm fl s))) as (_ & Hd).
      destruct (dryRunLines_render World tm targets' (world (resolve tm fl s)))
        as (v & _ & Hv & _).
      rewrite Hd, Hv. cbn [sentTo]. rewrite sentTo_app.
      rewrite (sentTo_none (render v))
        by (intros e He; apply (render_events v), He).
      apply Hnil.
    - assert (Hrep : sentTo (trace (cmd.report
                 (value (cmd.deliver tm fl session' (String.concat " " args)
                           targets' zeroCounters (world (resolve tm fl s))))
                 (world (cmd.deliver tm fl session' (String.concat " " args)
                           targets' zeroCounters (world (resolve tm fl s))))))
               = []).
      { rewrite report_trace. destruct ((failed _ >? 0) || _); reflexivity. }
      rewrite !sentTo_app, Hr0, Hrep, app_nil_r. cbn [app].
      split.
      + apply (deliver_cost World tm fl session' (String.concat " " args)
                 targets' zeroCounters (world (resolve tm fl s))).
      + intros _ Hany Hforce. apply deliver_all_sent; assumption. }
  destruct Hsub as (Hs1 & Hs2).
  split; [exact Hs1|]. split.
  - rewrite <- Hlen. apply subseq_length in Hs1.
    rewrite length_map in Hs1. exact Hs1.
  - intros Hany Hforce Hdry. apply Hs2; assumption.
Qed.

(** A use of X14: the scripted session where one send fails and one target
    is busy. *)
Lemma sends_follow_the_target_order_witness :
  subseq (sentTo (trace (cmd.runAdd Scripted.impl Scripted.defaultFlags ["done"]
                           Scripted.mixed)))
         (map (targetOf "work") [Scripted.wa; Scripted.wb; Scripted.wc]).
Proof.
  apply (sends_follow_the_target_order Scripted.World Scripted.impl
           Scripted.defaultFlags ["done"] Scripted.mixed "work"
           [Scripted.wa; Scripted.wb; Scripted.wc]).
  vm_compute. reflexivity.
Defined.

(** X15.  The delivery loop over two lists of targets put end to end is the
    loop over the first, followed by the loop over the second from the
    counters and the world the first leaves; so what the loop has done after
    a prefix of the targets is the beginning of what it does in all. *)
Theorem delivery_loop_splits :
  forall (World : Type) (tm : tmux.Interface World) (fl : Flags)
         (session message : string) (l1 l2 : list Window) (c : Counters)
         (s : World),
    cmd.deliver tm fl session message (l1 ++ l2) c s
    = (value (cmd.deliver tm fl session message l2
                (value (cmd.deliver tm fl session message l1 c s))
                (world (cmd.deliver tm fl session message l1 c s))),
       world (cmd.deliver tm fl session message l2
                (value (cmd.deliver tm fl session message l1 c s))
                (world (cmd.deliver tm fl session message l1 c s))),
       trace (cmd.deliver tm fl session message l1 c s)
       ++ trace (cmd.deliver tm fl session message l2
                   (value (cmd.deliver tm fl session message l1 c s))
                   (world (cmd.deliver tm fl session message l1 c s)))).
Proof.
  intros World tm fl session message l1 l2.
  induction l1 as [|w rest IH]; intros c s.
  - cbn [app cmd.deliver ret value world trace fst snd]. apply run_eta.
  - cbn [app]. rewrite !deliver_cons, IH.
    cbn [value world trace fst snd]. rewrite app_assoc. reflexivity.
Qed.

(** ** More on the report *)

Lemma rejections_app (a b : list Event) :
  rejections (a ++ b) = (rejections a + rejections b)%nat.
Proof. apply count_app. Qed.

Lemma delivery_rejections (World : Type) (tm : tmux.Interface World)
    (fl : Flags) (session message : string) (w : Window) (o : DeliveryOutcome)
    (t : list Event) :
  delivery tm fl session message w o t ->
  rejections t = match o with SkippedNoAgent => 1%nat | _ => 0%nat end.
Proof.
  assert (Hpre : forall pre, agentCheck fl w pre -> rejections pre = 0%nat).
  { intros pre [Ha | Ha]; reflexivity. }
  assert (Hbusy : forall ans target busy t0,
            busyCheck fl ans target busy t0 -> rejections t0 = 0%nat).
  { intros ans target busy t0 [Hf | b t1 Hf Hrun]; [reflexivity|].
    apply count_none. intros e He.
    destruct (retryRun_events _ _ _ _ _ _ Hrun e He) as [[r ->] | ->];
      reflexivity. }
  destruct 1 as [Hany | pre t Hp Hb | pre t Hp Hb | pre t e0 Hp Hb];
    [reflexivity|..];
    rewrite !rejections_app, (Hpre _ Hp), (Hbusy _ _ _ _ Hb); reflexivity.
Qed.

Lemma deliver_rejections (World : Type) (tm : tmux.Interface World)
    (fl : Flags) (session message : string) (targets : list Window) :
  forall (c : Counters) (s : World),
    nonneg c ->
    total c + Z.of_nat (List.length targets) <= MaxInt ->
    skippedNoClaude (value (cmd.deliver tm fl session message targets c s))
    = skippedNoClaude c
      + Z.of_nat (rejections
                    (trace (cmd.deliver tm fl session message targets c s))).
Proof.
  induction targets as [|w rest IH]; intros c s Hc Hroom.
  - cbn. lia.
  - rewrite deliver_cons. cbn [value world trace fst snd].
    cbn [List.length] in Hroom.
    destruct (deliverOne_rule tm fl session message w c s) as (Hd & Hv).
    pose proof (delivery_rejections _ _ _ _ _ _ _ _ Hd) as Hr.
    destruct (tally_counts (ruleOutcome tm fl session message w s) c Hc)
      as (Hn & Ht & _); [lia|].
    rewrite <- Hv in Hn, Ht.
    rewrite IH by (assumption || lia).
    rewrite rejections_app, Hr, Hv.
    destruct Hc as (H1 & H2 & H3 & H4). unfold total in Hroom.
    destruct (ruleOutcome tm fl session message w s);
      cbn [tally skippedNoClaude]; rewrite ?incr_small by lia; lia.
Qed.

(** The counters a delivering run reports, read off its trace. *)
Lemma run_counters (World : Type) (tm : tmux.Interface World) (fl : Flags)
    (args : list string) (s : World) (session : string)
    (targets : list Window) :
  value (resolve tm fl s) = inr (session, targets) ->
  targets <> [] ->
  dryRunFlag fl = false ->
  Z.of_nat (List.length targets) <= MaxInt ->
  exists (c : Counters) (t0 : list Event),
    nonneg c
    /\ succeeded c
       = Z.of_nat (sends (trace (cmd.runAdd tm fl args s)))
         - Z.of_nat (failedSends (trace (cmd.runAdd tm fl args s)))
    /\ failed c = Z.of_nat (failedSends (trace (cmd.runAdd tm fl args s)))
    /\ skippedNoClaude c
       = Z.of_nat (rejections (trace (cmd.runAdd tm fl args s)))
    /\ total c = Z.of_nat (List.length targets)
    /\ value (cmd.runAdd tm fl args s)
       = (if failed c >? 0
          then Some (Errorf "%d message(s) failed" [AInt (failed c)])
          else None)
    /\ trace (cmd.runAdd tm fl args s) = t0 ++ [reportLine c].
Proof.
  intros Hres Hne Hdry Hlen.
  assert (H0 : nonneg zeroCounters) by (unfold nonneg; cbn; lia).
  assert (Hroom : total zeroCounters + Z.of_nat (List.length targets) <= MaxInt)
    by (change (total zeroCounters) with 0; lia).
  destruct (deliver_counts tm fl session (String.concat " " args) targets
              zeroCounters (world (resolve tm fl s)) H0 Hroom)
    as (Hn & Ht & Hf & Hs).
  pose proof (deliver_rejections World tm fl session (String.concat " " args)
                targets zeroCounters (world (resolve tm fl s)) H0 Hroom) as Hj.
  change (total zeroCounters) with 0 in Ht.
  change (failed zeroCounters) with 0 in Hf.
  change (succeeded zeroCounters) with 0 in Hs.
  change (skippedNoClaude zeroCounters) with 0 in Hj.
  rewrite runAdd_resolve, Hres.
  rewrite (afterResolve_deliver tm fl _ _ _ _ Hne Hdry).
  cbn [value world trace fst snd].
  set (D := cmd.deliver tm fl session (String.concat " " args) targets
              zeroCounters (world (resolve tm fl s))) in *.
  exists (value D), (trace (resolve tm fl s) ++ trace D).
  assert (Hcount : sends (trace (resolve tm fl s)) = 0%nat
                   /\ failedSends (trace (resolve tm fl s)) = 0%nat
                   /\ rejections (trace (resolve tm fl s)) = 0%nat).
  { repeat split; apply count_none; intros e He; apply resolve_events in He;
      destruct e; try discriminate; reflexivity. }
  assert (Hline : trace (cmd.report (value D) (world D))
                  = [reportLine (value D)]).
  { rewrite report_trace. unfold reportLine.
    destruct Hn as (N1 & N2 & N3 & N4). unfold total in Ht.
    rewrite add64_small by lia.
    destruct ((failed (value D) >? 0)
              || (skippedTyping (value D) + skippedNoClaude (value D) >? 0));
      reflexivity. }
  assert (Hrep : sends [reportLine (value D)] = 0%nat
                 /\ failedSends [reportLine (value D)] = 0%nat
                 /\ rejections [reportLine (value D)] = 0%nat).
  { unfold reportLine. destruct ((failed _ >? 0) || _); repeat split. }
  destruct Hcount as (C1 & C2 & C3). destruct Hrep as (R1 & R2 & R3).
  rewrite Hline.
  rewrite !sends_app, !failedSends_app, !rejections_app,
    C1, C2, C3, R1, R2, R3.
  split; [exact Hn|]. split; [lia|]. split; [lia|]. split; [lia|].
  split; [lia|]. split; [apply report_value|].
  rewrite app_assoc. reflexivity.
Qed.

(** X16.  When every resolved target was sent to and no send failed, the run
    ends without error and its last line is "Queued to N window(s)" with N
    the number of targets. *)
Theorem all_sent_run_reports_the_count :
  forall (World : Type) (tm : tmux.Interface World) (fl : Flags)
         (args : list string) (s : World) (session : string)
         (targets : list Window),
    value (resolve tm fl s) = inr (session, targets) ->
    targets <> [] ->
    dryRunFlag fl = false ->
    Z.of_nat (List.length targets) <= MaxInt ->
    sends (trace (cmd.runAdd tm fl args s)) = List.length targets ->
    failedSends (trace (cmd.runAdd tm fl args s)) = 0%nat ->
    value (cmd.runAdd tm fl args s) = None
    /\ exists t0,
         trace (cmd.runAdd tm fl args s)
         = t0 ++ [EPrintf Stdout "Queued to %d window(s)\n"
                    [AInt (Z.of_nat (List.length targets))]].
Proof.
  intros World tm fl args s session targets Hres Hne Hdry Hlen Hall Hnofail.
  destruct (run_counters World tm fl args s session targets Hres Hne Hdry Hlen)
    as (c & t0 & (N1 & N2 & N3 & N4) & Hs & Hf & Hj & Ht & Hv & Htr).
  rewrite Hall, Hnofail in Hs. rewrite Hnofail in Hf.
  unfold total in Ht.
  assert (Hsk : skippedTyping c + skippedNoClaude c = 0) by lia.
  split.
  - rewrite Hv, Hf. reflexivity.
  - exists t0. rewrite Htr. unfold reportLine.
    assert (Hs' : succeeded c = Z.of_nat (List.length targets)) by lia.
    rewrite Hf, Hsk, Hs'. reflexivity.
Qed.

(** A use of X16: the default run in the scripted session. *)
Lemma all_sent_run_reports_the_count_witness :
  value (cmd.runAdd Scripted.impl Scripted.defaultFlags ["done"] Scripted.work)
  = None.
Proof.
  apply (all_sent_run_reports_the_count Scripted.World Scripted.impl
           Scripted.defaultFlags ["done"] Scripted.work "work"
           [Scripted.w1; Scripted.w2]).
  - vm_compute. reflexivity.
  - discriminate.
  - reflexivity.
  - vm_compute. discriminate.
  - vm_compute. reflexivity.
  - vm_compute. reflexivity.
Defined.

(** X17.  The report of a delivering run tells what happened: its last line
    is the report line of the counters read off the trace, succeeded the
    sends that did not fail, failed the sends that failed, skipped the agent
    checks that rejected a window, deferred the remaining targets, and the
    error of the run, if any, carries the number of failed sends. *)
Theorem report_is_truthful :
  forall (World : Type) (tm : tmux.Interface World) (fl : Flags)
         (args : list string) (s : World) (session : string)
         (targets : list Window),
    value (resolve tm fl s) = inr (session, targets) ->
    targets <> [] ->
    dryRunFlag fl = false ->
    Z.of_nat (List.length targets) <= MaxInt ->
    let t := trace (cmd.runAdd tm fl args s) in
    let c := mkCounters
               (Z.of_nat (sends t) - Z.of_nat (failedSends t))
               (Z.of_nat (failedSends t))
               (Z.of_nat (List.length targets) - Z.of_nat (sends t)
                - Z.of_nat (rejections t))
               (Z.of_nat (rejections t)) in
    nonneg c
    /\ (exists t0, t = t0 ++ [reportLine c])
    /\ value (cmd.runAdd tm fl args s)
       = (if (0 <? failedSends t)%nat
          then Some (Errorf "%d message(s) failed"
                       [AInt (Z.of_nat (failedSends t))])
          else None).
Proof.
  intros World tm fl args s session targets Hres Hne Hdry Hlen t c.
  destruct (run_counters World tm fl args s session targets Hres Hne Hdry Hlen)
    as (c' & t0 & Hn & Hs & Hf & Hj & Ht & Hv & Htr).
  fold t in Hs, Hf, Hj, Htr.
  assert (Hc : c' = c).
  { destruct c' as [a b d e]. unfold c, total in *. cbn in *.
    f_equal; lia. }
  subst c'.
  split; [exact Hn|]. split; [exists t0; exact Htr|].
  rewrite Hv. change (failed c) with (Z.of_nat (failedSends t)).
  destruct (failedSends t); reflexivity.
Qed.

(** A use of X17: the scripted session with one failed send and one busy
    target. *)
Lemma report_is_truthful_witness :
  value (cmd.runAdd Scripted.impl Scripted.defaultFlags ["done"] Scripted.mixed)
  = (if (0 <? failedSends
               (trace (cmd.runAdd Scripted.impl Scripted.defaultFlags ["done"]
                         Scripted.mixed)))%nat
     then Some (Errorf "%d message(s) failed"
                  [AInt (Z.of_nat
                     (failedSends
                        (trace (cmd.runAdd Scripted.impl Scripted.defaultFlags
                                  ["done"] Scripted.mixed))))])
     else None).
Proof.
  apply (report_is_truthful Scripted.World Scripted.impl Scripted.defaultFlags
           ["done"] Scripted.mixed "work"
           [Scripted.wa; Scripted.wb; Scripted.wc]).
  - vm_compute. reflexivity.
  - discriminate.
  - reflexivity.
  - vm_compute. discriminate.
Defined.

(** ** The earlier revision *)

Section EarlierRevision.

Context {World : Type}.
Variable tm : tmux.Interface World.
Variable fl : Flags.

(** One turn of the earlier filter loop: its first three stages are the
    filter chain of the later revision, the fourth is the agent check. *)
Lemma earlier_filter_step (cwi : Z) (w : Window) (rest acc : list Window)
    (s : World) :
  earlier.filterWindows tm fl cwi (w :: rest) acc s =
  if cmd.keepWindow tm fl cwi w then
    if anyFlag fl then earlier.filterWindows tm fl cwi rest (acc ++ [w]) s
    else
      (value (earlier.filterWindows tm fl cwi rest
                (if fst (tmux.IsClaudeRunning tm w s) then acc ++ [w] else acc)
                (snd (tmux.IsClaudeRunning tm w s))),
       world (earlier.filterWindows tm fl cwi rest
                (if fst (tmux.IsClaudeRunning tm w s) then acc ++ [w] else acc)
                (snd (tmux.IsClaudeRunning tm w s))),
       EIsClaudeRunning w (fst (tmux.IsClaudeRunning tm w s))
       :: trace (earlier.filterWindows tm fl cwi rest
                   (if fst (tmux.IsClaudeRunning tm w s) then acc ++ [w]
                    else acc)
                   (snd (tmux.IsClaudeRunning tm w s))))
  else earlier.filterWindows tm fl cwi rest acc s.
Proof.
  cbn [earlier.filterWindows]. unfold cmd.keepWindow.
  destruct (negb (allFlag fl) && (cwi >=? 0) && (Index w =? cwi));
    [reflexivity|].
  destruct ((0 <? Z.of_nat (List.length (windowFlags fl)))
            && negb (cmd.findName w (windowFlags fl) false)); [reflexivity|].
  destruct (negb (String.eqb (patternFlag fl) "")
            && negb (tmux.MatchPattern tm (Name w) (patternFlag fl)));
    [reflexivity|].
  destruct (anyFlag fl); cbn [negb].
  - rewrite run_bind. cbn [ret value world trace fst snd app].
    symmetry. apply run_eta.
  - unfold cmd.IsClaudeRunning. rewrite !run_bind, run_call.
    cbn [ret value world trace fst snd app].
    destruct (tmux.IsClaudeRunning tm w s) as [[|] s1]; reflexivity.
Qed.

Lemma earlier_filter_any (cwi : Z) (windows acc : list Window) (s : World) :
  anyFlag fl = true ->
  earlier.filterWindows tm fl cwi windows acc s
  = (cmd.filterWindows tm fl cwi windows acc, s, []).
Proof.
  intros Hany. revert acc.
  induction windows as [|w rest IH]; intros acc; [reflexivity|].
  rewrite earlier_filter_step, Hany. cbn [cmd.filterWindows].
  destruct (cmd.keepWindow tm fl cwi w); apply IH.
Qed.

Lemma earlier_filter_agents (cwi : Z) (windows : list Window) :
  anyFlag fl = false ->
  forall (acc : list Window) (s : World),
    exists kept : list Window,
      value (earlier.filterWindows tm fl cwi windows acc s) = acc ++ kept
      /\ subseq kept (filter (cmd.keepWindow tm fl cwi) windows)
      /\ (forall w, In w kept ->
            In (EIsClaudeRunning w true)
               (trace (earlier.filterWindows tm fl cwi windows acc s)))
      /\ map (fun e => match e with
                       | EIsClaudeRunning w _ => Some w
                       | _ => None
                       end)
             (trace (earlier.filterWindows tm fl cwi windows acc s))
         = map Some (filter (cmd.keepWindow tm fl cwi) windows).
Proof.
  intros Hany.
  induction windows as [|w rest IH]; intros acc s.
  - exists []. cbn. rewrite app_nil_r. repeat split; [constructor|].
    intros w [].
  - rewrite earlier_filter_step, Hany. cbn [filter].
    destruct (cmd.keepWindow tm fl cwi w).
    + cbn [value world trace fst snd].
      destruct (tmux.IsClaudeRunning tm w s) as [[|] s1]; cbn [fst snd].
      * destruct (IH (acc ++ [w]) s1) as (kept & Hv & Hsub & Hacc & Hmap).
        exists (w :: kept). rewrite Hv, <- app_assoc.
        split; [reflexivity|]. split; [constructor; exact Hsub|].
        split; [|cbn [map]; rewrite Hmap; reflexivity].
        intros w' [<- | Hw']; [left; reflexivity | right; apply Hacc, Hw'].
      * destruct (IH acc s1) as (kept & Hv & Hsub & Hacc & Hmap).
        exists kept. split; [exact Hv|]. split; [constructor; exact Hsub|].
        split; [|cbn [map]; rewrite Hmap; reflexivity].
        intros w' Hw'. right. apply Hacc, Hw'.
    + apply IH.
Qed.

End EarlierRevision.

(** X18.  In the earlier revision the agent check is the last stage of the
    filter: its targets are targets of the later revision's filter, in the
    same order; without [--any] every one of them was accepted by an agent
    check made during resolution, and that check was asked once, in order,
    for each window that passes the other three stages; with [--any] the two
    filters agree and nothing is asked. *)
Theorem earlier_filter_keeps_agents_only :
  forall (World : Type) (tm : tmux.Interface World) (fl : Flags) (cwi : Z)
         (windows : list Window) (s : World),
    let x := earlier.filterWindows tm fl cwi windows [] s in
    subseq (value x) (cmd.filterWindows tm fl cwi windows [])
    /\ (anyFlag fl = true ->
        x = (cmd.filterWindows tm fl cwi windows [], s, []))
    /\ (anyFlag fl = false ->
        (forall w, In w (value x) -> In (EIsClaudeRunning w true) (trace x))
        /\ map (fun e => match e with
                         | EIsClaudeRunning w _ => Some w
                         | _ => None
                         end) (trace x)
           = map Some (cmd.filterWindows tm fl cwi windows [])).
Proof.
  intros World tm fl cwi windows s x.
  rewrite filterWindows_filter. cbn [app].
  destruct (anyFlag fl) eqn:Hany.
  - assert (Hx : x = (cmd.filterWindows tm fl cwi windows [], s, []))
      by (apply earlier_filter_any, Hany).
    rewrite filterWindows_filter in Hx. cbn [app] in Hx.
    split; [rewrite Hx; apply subseq_refl|].
    split; [intros _; exact Hx | discriminate].
  - destruct (earlier_filter_agents tm fl cwi windows Hany [] s)
      as (kept & Hv & Hsub & Hacc & Hmap).
    fold x in Hv, Hacc, Hmap. cbn [app] in Hv.
    split; [rewrite Hv; exact Hsub|]. split; [discriminate|].
    intros _. split; [rewrite Hv; exact Hacc | exact Hmap].
Qed.

(** A use of X18: the earlier filter, with [--all], in the scripted session. *)
Lemma earlier_filter_keeps_agents_only_witness :
  In (EIsClaudeRunning Scripted.w1 true)
     (trace (earlier.filterWindows Scripted.impl
               (withAll Scripted.defaultFlags) 0
               [Scripted.w0; Scripted.w1; Scripted.w2] [] Scripted.work)).
Proof.
  pose proof (earlier_filter_keeps_agents_only Scripted.World Scripted.impl
                (withAll Scripted.defaultFlags) 0
                [Scripted.w0; Scripted.w1; Scripted.w2] Scripted.work) as H.
  cbv zeta in H. destruct H as (_ & _ & H).
  apply (proj1 (H eq_refl)).
  vm_compute. tauto.
Defined.

Section EarlierDelivery.

Context {World : Type}.
Variable tm : tmux.Interface World.
Variable fl : Flags.
Variables session message : string.

Lemma earlier_deliverOne_run (w : Window) (c : Z * Z) (s : World) :
  earlier.deliverOne tm session message w c s =
  match fst (tmux.AddMessage tm (targetOf session w) message s) with
  | Some e =>
      ((fst c, incr (snd c)),
       snd (tmux.AddMessage tm (targetOf session w) message s),
       [EAddMessage (targetOf session w) message (Some e); failedNote w e])
  | None =>
      ((incr (fst c), snd c),
       snd (tmux.AddMessage tm (targetOf session w) message s),
       [EAddMessage (targetOf session w) message None])
  end.
Proof.
  unfold earlier.deliverOne, cmd.AddMessage, cmd.Printf, emit, call, bind, ret.
  fold (targetOf session w).
  destruct (tmux.AddMessage tm (targetOf session w) message s) as [[e|] s1];
    reflexivity.
Qed.


Lemma earlier_deliver_cons (w : Window) (rest : list Window) (c : Z * Z)
    (s : World) :
  earlier.deliver tm session message (w :: rest) c s =
  (value (earlier.deliver tm session message rest
            (value (earlier.deliverOne tm session message w c s))
            (world (earlier.deliverOne tm session message w c s))),
   world (earlier.deliver tm session message rest
            (value (earlier.deliverOne tm session message w c s))
            (world (earlier.deliverOne tm session message w c s))),
   trace (earlier.deliverOne tm session message w c s)
   ++ trace (earlier.deliver tm session message rest
               (value (earlier.deliverOne tm session message w c s))
               (world (earlier.deliverOne tm session message w c s)))).
Proof. cbn [earlier.deliver]. apply run_bind. Qed.

(** The earlier delivery loop: one send per target, in order, and counters
    that count the sends. *)
Lemma earlier_deliver_run (targets : list Window) :
  forall (c : Z * Z) (s : World),
    sentTo (trace (earlier.deliver tm session message targets c s))
    = map (targetOf session) targets
    /\ (forall e, In e (trace (earlier.deliver tm session message targets c s)) ->
          isSend e = true \/ isPrint e = true)
    /\ (0 <= fst c -> 0 <= snd c ->
        fst c + snd c + Z.of_nat (List.length targets) <= MaxInt ->
        0 <= fst (value (earlier.deliver tm session message targets c s))
        /\ snd (value (earlier.deliver tm session message targets c s))
           = snd c
             + Z.of_nat (failedSends
                           (trace (earlier.deliver tm session message targets
                                     c s)))
        /\ fst (value (earlier.deliver tm session message targets c s))
           + snd (value (earlier.deliver tm session message targets c s))
           = fst c + snd c + Z.of_nat (List.length targets)).
Proof.
  induction targets as [|w rest IH]; intros [a b] s.
  - cbn. repeat split; try lia; intros e [].
  - rewrite earlier_deliver_cons, earlier_deliverOne_run.
    destruct (fst (tmux.AddMessage tm (targetOf session w) message s))
      as [e|]; cbn [value world trace fst snd].
    + destruct (IH (a, incr b)
                   (snd (tmux.AddMessage tm (targetOf session w) message s)))
        as (I1 & I2 & I3).
      split; [cbn [app sentTo failedNote map]; rewrite I1; reflexivity|].
      split.
      * intros e' [<- | [<- | He']]; [left; reflexivity | right; reflexivity
                                     | apply I2, He'].
      * intros H1 H2 Hroom. cbn [List.length] in Hroom.
        cbn [fst snd] in I3.
        assert (Hi : incr b = b + 1) by (apply incr_small; lia).
        rewrite Hi in I3 |- *.
        destruct I3 as (J1 & J2 & J3); try lia.
        rewrite failedSends_app.
        change (failedSends [EAddMessage (targetOf session w) message (Some e);
                             failedNote w e]) with 1%nat.
        cbn [List.length fst snd]. repeat split; lia.
    + destruct (IH (incr a, b)
                   (snd (tmux.AddMessage tm (targetOf session w) message s)))
        as (I1 & I2 & I3).
      split; [cbn [app sentTo map]; rewrite I1; reflexivity|].
      split.
      * intros e' [<- | He']; [left; reflexivity | apply I2, He'].
      * intros H1 H2 Hroom. cbn [List.length] in Hroom.
        cbn [fst snd] in I3.
        assert (Hi : incr a = a + 1) by (apply incr_small; lia).
        rewrite Hi in I3 |- *.
        destruct I3 as (J1 & J2 & J3); try lia.
        rewrite failedSends_app.
        change (failedSends [EAddMessage (targetOf session w) message None])
          with 0%nat.
        cbn [List.length fst snd]. repeat split; lia.
Qed.


End EarlierDelivery.

Lemma earlier_report_run (World : Type) (c : Z * Z) (s : World) :
  earlier.report c s =
  (if snd c >? 0
   then Some (Errorf "%d message(s) failed" [AInt (snd c)])
   else None,
   s,
   [if snd c >? 0
    then EPrintf Stdout "Queued to %d window(s), %d failed\n"
           [AInt (fst c); AInt (snd c)]
    else EPrintf Stdout "Queued to %d window(s)\n" [AInt (fst c)]]).
Proof.
  destruct c as [a b]. unfold earlier.report, cmd.Printf, emit, bind, ret.
  cbn [fst snd]. destruct (b >? 0); reflexivity.
Qed.

Lemma earlier_afterResolve_deliver (World : Type) (tm : tmux.Interface World)
    (fl : Flags) (session message : string) (targets : list Window)
    (s : World) :
  targets <> [] -> dryRunFlag fl = false ->
  earlier.afterResolve tm fl session message targets s =
  (value (earlier.report
            (value (earlier.deliver tm session message targets (0, 0) s))
            (world (earlier.deliver tm session message targets (0, 0) s))),
   world (earlier.report
            (value (earlier.deliver tm session message targets (0, 0) s))
            (world (earlier.deliver tm session message targets (0, 0) s))),
   trace (earlier.deliver tm session message targets (0, 0) s)
   ++ trace (earlier.report
               (value (earlier.deliver tm session message targets (0, 0) s))
               (world (earlier.deliver tm session message targets (0, 0) s)))).
Proof.
  intros Hne Hdry. unfold earlier.afterResolve.
  destruct targets as [|w rest]; [congruence|].
  cbn [List.length Nat.eqb]. rewrite Hdry. apply run_bind.
Qed.

(** X19.  The earlier revision delivers without looking: past resolution, a
    run without [--dry-run] sends to every target exactly once, in order,
    makes no agent check, no probe and no delay, ends with an error exactly
    when a send failed, and otherwise closes with "Queued to N window(s)" for
    its N targets. *)
Theorem earlier_delivery_sends_to_every_target :
  forall (World : Type) (tm : tmux.Interface World) (fl : Flags)
         (session message : string) (targets : list Window) (s : World),
    targets <> [] ->
    dryRunFlag fl = false ->
    Z.of_nat (List.length targets) <= MaxInt ->
    let x := earlier.afterResolve tm fl session message targets s in
    sentTo (trace x) = map (targetOf session) targets
    /\ probes (trace x) = 0%nat /\ sleeps (trace x) = 0%nat
    /\ agentChecks (trace x) = 0%nat
    /\ (value x <> None <-> (0 < failedSends (trace x))%nat)
    /\ (value x = None ->
        exists t0,
          trace x = t0 ++ [EPrintf Stdout "Queued to %d window(s)\n"
                             [AInt (Z.of_nat (List.length targets))]]).
Proof.
  intros World tm fl session message targets s Hne Hdry Hlen x.
  unfold x. rewrite (earlier_afterResolve_deliver World tm fl _ _ _ _ Hne Hdry).
  rewrite earlier_report_run. cbn [value world trace fst snd].
  destruct (earlier_deliver_run tm session message targets (0, 0) s)
    as (Hsent & Hev & Hcount).
  cbn [fst snd] in Hcount.
  destruct Hcount as (C1 & C2 & C3); try lia.
  set (D := earlier.deliver tm session message targets (0, 0) s) in *.
  assert (Hq : forall e, In e (trace D ++
                 [if snd (value D) >? 0
                  then EPrintf Stdout "Queued to %d window(s), %d failed\n"
                         [AInt (fst (value D)); AInt (snd (value D))]
                  else EPrintf Stdout "Queued to %d window(s)\n"
                         [AInt (fst (value D))]]) ->
               isProbe e = false /\ isSleep e = false
               /\ isAgentCheck e = false).
  { intros e He. apply in_app_or in He as [He | [<- | []]].
    - destruct (Hev e He) as [H | H]; destruct e; try discriminate;
        repeat split.
    - destruct (snd (value D) >? 0); repeat split. }
  split.
  { rewrite sentTo_app, Hsent.
    destruct (snd (value D) >? 0); cbn; apply app_nil_r. }
  split; [apply count_none; intros e He; apply (Hq e He)|].
  split; [apply count_none; intros e He; apply (Hq e He)|].
  split; [apply count_none; intros e He; apply (Hq e He)|].
  assert (Hf : failedSends (trace D ++
                 [if snd (value D) >? 0
                  then EPrintf Stdout "Queued to %d window(s), %d failed\n"
                         [AInt (fst (value D)); AInt (snd (value D))]
                  else EPrintf Stdout "Queued to %d window(s)\n"
                         [AInt (fst (value D))]])
               = failedSends (trace D)).
  { rewrite failedSends_app. destruct (snd (value D) >? 0); cbn; lia. }
  rewrite Hf. split.
  - destruct (Z.gtb_spec (snd (value D)) 0) as [Hpos | Hle];
      split; intros H; try lia; congruence.
  - destruct (Z.gtb_spec (snd (value D)) 0) as [Hpos | Hle];
      [discriminate|]. intros _. exists (trace D).
    replace (fst (value D)) with (Z.of_nat (List.length targets)) by lia.
    reflexivity.
Qed.

(** A use of X19. *)
Lemma earlier_delivery_sends_to_every_target_witness :
  sentTo (trace (earlier.afterResolve Scripted.impl Scripted.defaultFlags
                   "work" "done" [Scripted.wa; Scripted.wb; Scripted.wc]
                   Scripted.mixed))
  = map (targetOf "work") [Scripted.wa; Scripted.wb; Scripted.wc].
Proof.
  apply (earlier_delivery_sends_to_every_target Scripted.World Scripted.impl
           Scripted.defaultFlags "work" "done"
           [Scripted.wa; Scripted.wb; Scripted.wc] Scripted.mixed).
  - discriminate.
  - reflexivity.
  - vm_compute. discriminate.
Defined.





(** ** The tally line *)





